(** * School commute calculator: departure-time resolver and batched
      matrix-query orchestrator

    Shallow embedding of [get_departure_timestamp] and
    [calculate_commute_times] of [src/commute_app.py], followed by the
    properties of the specification proved (or refuted) on that embedding.

    Conventions of the embedding.
    - Python [int] is [Z]; list lengths and indices produced by [len], [range]
      and [enumerate] are [nat]; [//] on integers is [Z.div] (floor).
    - Python [str] is [string]; only ASCII classes are distinguished by the
      model of [strptime].
    - A raised exception is the [Raise] case of [res]; the wall clock, the
      HTTP endpoint, [st.error] and the progress bar are effects on an explicit
      [World], threaded by the monad [M]. *)

From Stdlib Require Import ZArith List String Ascii Bool Lia QArith DecimalString.
Import ListNotations.

Local Open Scope string_scope.
Local Open Scope list_scope.
Local Open Scope Z_scope.

(** ** Exceptions and results *)

Inductive exn : Type :=
| ValueError (msg : string)
| OverflowError (msg : string)
| OSError (msg : string)
| IndexError (msg : string)
| KeyError (key : string)
| ZeroDivisionError.

Inductive res (A : Type) : Type :=
| Ok (a : A)
| Raise (e : exn).

Arguments Ok {A} a.
Arguments Raise {A} e.

Definition res_bind {A B} (r : res A) (k : A -> res B) : res B :=
  match r with
  | Ok a => k a
  | Raise e => Raise e
  end.

Definition is_ok {A} (r : res A) : bool :=
  match r with Ok _ => true | Raise _ => false end.

(** ** Naive local datetimes (Python's [datetime] without [tzinfo]) *)

Module Datetime.

Record datetime : Type := mk {
  year : Z; month : Z; day : Z;
  hour : Z; minute : Z; second : Z; microsecond : Z;
  fold : bool
}.

Definition MINYEAR : Z := 1.
Definition MAXYEAR : Z := 9999.
Definition MAXORDINAL : Z := 3652059.

Definition is_leap (y : Z) : bool :=
  (y mod 4 =? 0) && (negb (y mod 100 =? 0) || (y mod 400 =? 0)).

(** [_DAYS_IN_MONTH], indexed from 1. *)
Definition DAYS_IN_MONTH (m : Z) : Z :=
  match m with
  | 1 => 31 | 2 => 28 | 3 => 31 | 4 => 30 | 5 => 31 | 6 => 30
  | 7 => 31 | 8 => 31 | 9 => 30 | 10 => 31 | 11 => 30 | 12 => 31
  | _ => -1
  end.

(** [_DAYS_BEFORE_MONTH], indexed from 1. *)
Definition DAYS_BEFORE_MONTH (m : Z) : Z :=
  match m with
  | 1 => 0 | 2 => 31 | 3 => 59 | 4 => 90 | 5 => 120 | 6 => 151
  | 7 => 181 | 8 => 212 | 9 => 243 | 10 => 273 | 11 => 304 | 12 => 334
  | _ => -1
  end.

Definition days_before_year (y : Z) : Z :=
  let y := y - 1 in y * 365 + y / 4 - y / 100 + y / 400.

Definition days_in_month (y m : Z) : Z :=
  if (m =? 2) && is_leap y then 29 else DAYS_IN_MONTH m.

Definition days_before_month (y m : Z) : Z :=
  DAYS_BEFORE_MONTH m + (if (2 <? m) && is_leap y then 1 else 0).

Definition ymd2ord (y m d : Z) : Z :=
  days_before_year y + days_before_month y m + d.

Definition DI400Y : Z := 146097.
Definition DI100Y : Z := 36524.
Definition DI4Y : Z := 1461.

Definition ord2ymd (n : Z) : Z * Z * Z :=
  let n := n - 1 in
  let n400 := n / DI400Y in
  let n := n mod DI400Y in
  let year := n400 * 400 + 1 in
  let n100 := n / DI100Y in
  let n := n mod DI100Y in
  let n4 := n / DI4Y in
  let n := n mod DI4Y in
  let n1 := n / 365 in
  let n := n mod 365 in
  let year := year + n100 * 100 + n4 * 4 + n1 in
  if (n1 =? 4) || (n100 =? 4) then (year - 1, 12, 31)
  else
    let leapyear := (n1 =? 3) && (negb (n4 =? 24) || (n100 =? 3)) in
    let month := Z.shiftr (n + 50) 5 in
    let preceding :=
      DAYS_BEFORE_MONTH month + (if (2 <? month) && leapyear then 1 else 0) in
    if n <? preceding then
      let month := month - 1 in
      let preceding :=
        preceding
        - (DAYS_IN_MONTH month + (if (month =? 2) && leapyear then 1 else 0)) in
      (year, month, n - preceding + 1)
    else (year, month, n - preceding + 1).

(** The last step of [ord2ymd] on its own: month and day of the day number
    [n] (from 0) of a year; used to state facts about [ord2ymd]. *)
Definition month_day (n : Z) (leapyear : bool) : Z * Z :=
  let month := Z.shiftr (n + 50) 5 in
  let preceding :=
    DAYS_BEFORE_MONTH month + (if (2 <? month) && leapyear then 1 else 0) in
  if n <? preceding then
    let month := month - 1 in
    let preceding :=
      preceding
      - (DAYS_IN_MONTH month + (if (month =? 2) && leapyear then 1 else 0)) in
    (month, n - preceding + 1)
  else (month, n - preceding + 1).

(** What [month_day] must satisfy for the day number [n]: a month, a day of
    that month, and the right count of days before it. *)
Definition month_day_ok (leapyear : bool) (n : Z) : bool :=
  let '(m, d) := month_day n leapyear in
  (1 <=? m) && (m <=? 12) && (1 <=? d)
  && (d <=? DAYS_IN_MONTH m + (if (m =? 2) && leapyear then 1 else 0))
  && (DAYS_BEFORE_MONTH m + (if (2 <? m) && leapyear then 1 else 0) + d
      =? n + 1).

Definition toordinal (dt : datetime) : Z :=
  ymd2ord (year dt) (month dt) (day dt).

(** [_check_date_fields] and [_check_time_fields], as booleans. *)
Definition check_date_fields (y m d : Z) : bool :=
  (MINYEAR <=? y) && (y <=? MAXYEAR) &&
  (1 <=? m) && (m <=? 12) &&
  (1 <=? d) && (d <=? days_in_month y m).

Definition check_time_fields (h mi s us : Z) : bool :=
  (0 <=? h) && (h <=? 23) && (0 <=? mi) && (mi <=? 59) &&
  (0 <=? s) && (s <=? 59) && (0 <=? us) && (us <=? 999999).

Definition valid (dt : datetime) : bool :=
  check_date_fields (year dt) (month dt) (day dt) &&
  check_time_fields (hour dt) (minute dt) (second dt) (microsecond dt).

(** The constructor [datetime(y, m, d, h, mi, s, us, fold=f)]. *)
Definition make (y m d h mi s us : Z) (f : bool) : res datetime :=
  if negb (check_date_fields y m d) then
    Raise (ValueError "date fields out of range")
  else if negb (check_time_fields h mi s us) then
    Raise (ValueError "time fields out of range")
  else Ok (mk y m d h mi s us f).

(** The methods of the C implementation take their integer arguments as C
    [int]s: a Python [int] that does not fit one raises [OverflowError] while
    the arguments are read, before any field is checked. *)
Definition INT_MIN : Z := -2147483648.
Definition INT_MAX : Z := 2147483647.

Definition as_c_int (n : Z) : res Z :=
  if (INT_MIN <=? n) && (n <=? INT_MAX) then Ok n
  else Raise (OverflowError "Python int too large to convert to C int").

(** [dt.replace(hour=h, minute=mi, second=0, microsecond=0)]: the arguments
    are read as C [int]s, then the fields are checked; the other fields,
    [fold] included, are those of [dt]. *)
Definition replace_hmsu (dt : datetime) (h mi : Z) : res datetime :=
  res_bind (as_c_int h) (fun h =>
  res_bind (as_c_int mi) (fun mi =>
  make (year dt) (month dt) (day dt) h mi 0 0 (fold dt))).

(** Comparison of naive datetimes is lexicographic on the seven numeric
    fields; [fold] is ignored. *)
Fixpoint cmp_fields (a b : list Z) : comparison :=
  match a, b with
  | x :: a', y :: b' =>
      match Z.compare x y with Eq => cmp_fields a' b' | c => c end
  | _, _ => Eq
  end.

Definition fields (dt : datetime) : list Z :=
  [year dt; month dt; day dt; hour dt; minute dt; second dt; microsecond dt].

Definition leb (a b : datetime) : bool :=
  match cmp_fields (fields a) (fields b) with Gt => false | _ => true end.

(** [dt + timedelta(days=n)]: the ordinal and the time of day are turned into
    a timedelta, [n] days are added, and the result is rebuilt; it is out of
    range outside ordinals 1..MAXORDINAL. The rebuilt value has [fold = 0]. *)
Definition add_days (dt : datetime) (n : Z) : res datetime :=
  let secs := hour dt * 3600 + minute dt * 60 + second dt in
  let days := toordinal dt + secs / 86400 + n in
  let secs := secs mod 86400 in
  let h := secs / 3600 in
  let rem := secs mod 3600 in
  let mi := rem / 60 in
  let s := rem mod 60 in
  if (0 <? days) && (days <=? MAXORDINAL) then
    let '(y, m, d) := ord2ymd days in
    Ok (mk y m d h mi s (microsecond dt) false)
  else Raise (OverflowError "date value out of range").

End Datetime.

(** ** Text: decimal formatting and the [strptime] format of the resolver *)

Module Text.

Definition digit_char (k : Z) : ascii :=
  match k with
  | 0 => "0" | 1 => "1" | 2 => "2" | 3 => "3" | 4 => "4"
  | 5 => "5" | 6 => "6" | 7 => "7" | 8 => "8" | _ => "9"
  end%char.

Definition digit_of_char (c : ascii) : option Z :=
  let n := Z.of_nat (nat_of_ascii c) in
  if (48 <=? n) && (n <=? 57) then Some (n - 48) else None.

(** [str(n)] for an integer. *)
Definition str_int (n : Z) : string := NilZero.string_of_int (Z.to_int n).

Fixpoint zeros (k : nat) : string :=
  match k with
  | O => EmptyString
  | S k' => String "0" (zeros k')
  end.

(** [format(n, "0<w>d")]: sign-aware zero padding to width [w]. *)
Definition format_0d (w : nat) (n : Z) : string :=
  if n <? 0 then
    let digits := str_int (- n) in
    String "-" (zeros (Nat.pred w - String.length digits) ++ digits)%string
  else
    let digits := str_int n in
    (zeros (w - String.length digits) ++ digits)%string.

(** [str(d)] for a [datetime.date]: ISO format [YYYY-MM-DD]. *)
Definition date_str (y m d : Z) : string :=
  (format_0d 4 y ++ "-" ++ format_0d 2 m ++ "-" ++ format_0d 2 d)%string.

(** *** Recognisers for the regular expression of ["%Y-%m-%d %H:%M"]

    [_strptime] compiles the format to
    [(?P<Y>\d\d\d\d)-(?P<m>1[0-2]|0[1-9]|[1-9])-(?P<d>3[01]|[12]\d|0[1-9]|[1-9]| [1-9])\s+(?P<H>2[0-3]|[0-1]\d|\d):(?P<M>[0-5]\d|\d)],
    matches it at the start of the text and rejects unconverted trailing text.
    Every alternative is followed by a token that no digit can start, or by
    the end of the pattern, so taking the first alternative that matches
    decides the same language as the backtracking matcher. *)

Definition parser (A : Type) : Type := string -> option (A * string).

Definition p_digit (lo hi : Z) : parser Z := fun s =>
  match s with
  | String c rest =>
      match digit_of_char c with
      | Some v => if (lo <=? v) && (v <=? hi) then Some (v, rest) else None
      | None => None
      end
  | EmptyString => None
  end.

Definition p_char (c : ascii) : parser unit := fun s =>
  match s with
  | String c' rest => if Ascii.eqb c c' then Some (tt, rest) else None
  | EmptyString => None
  end.

Definition p_bind {A B} (p : parser A) (k : A -> parser B) : parser B := fun s =>
  match p s with
  | Some (a, rest) => k a rest
  | None => None
  end.

Definition p_ret {A} (a : A) : parser A := fun s => Some (a, s).

Definition p_alt {A} (p q : parser A) : parser A := fun s =>
  match p s with
  | Some r => Some r
  | None => q s
  end.

(** Two digits [a] in [alo..ahi] and [b] in [blo..bhi], read as [10a + b]. *)
Definition p_two (alo ahi blo bhi : Z) : parser Z :=
  p_bind (p_digit alo ahi) (fun a =>
  p_bind (p_digit blo bhi) (fun b => p_ret (10 * a + b))).

Definition p_Y : parser Z :=
  p_bind (p_digit 0 9) (fun a => p_bind (p_digit 0 9) (fun b =>
  p_bind (p_digit 0 9) (fun c => p_bind (p_digit 0 9) (fun d =>
  p_ret (1000 * a + 100 * b + 10 * c + d))))).

Definition p_m : parser Z :=
  p_alt (p_two 1 1 0 2) (p_alt (p_two 0 0 1 9) (p_digit 1 9)).

Definition p_d : parser Z :=
  p_alt (p_two 3 3 0 1) (p_alt (p_two 1 2 0 9) (p_alt (p_two 0 0 1 9)
  (p_alt (p_digit 1 9) (p_bind (p_char " ") (fun _ => p_digit 1 9))))).

Definition p_H : parser Z :=
  p_alt (p_two 2 2 0 3) (p_alt (p_two 0 1 0 9) (p_digit 0 9)).

Definition p_M : parser Z :=
  p_alt (p_two 0 5 0 9) (p_digit 0 9).

(** ASCII white space as [\s] sees it. *)
Definition is_space (c : ascii) : bool :=
  let n := nat_of_ascii c in
  ((9 <=? n) && (n <=? 13) || (28 <=? n) && (n <=? 32))%nat.

Fixpoint skip_spaces (s : string) : string :=
  match s with
  | String c rest => if is_space c then skip_spaces rest else s
  | EmptyString => s
  end.

(** [\s+] *)
Definition p_spaces : parser unit := fun s =>
  match s with
  | String c rest => if is_space c then Some (tt, skip_spaces rest) else None
  | EmptyString => None
  end.

End Text.

(** ** Data model of the orchestrator *)

(** A roster entry: the dict with keys ["이름"] (name) and ["주소"] (address). *)
Record Student : Type := {
  이름 : string;
  주소 : string
}.

(** The decoded JSON answer of the distance-matrix endpoint. A key that the
    code reads only on some paths is optional here, so that its absence is a
    [KeyError] on exactly those paths. *)
Record TextValue : Type := { text : string; value : Z }.

Record Element : Type := {
  el_status : string;
  el_distance : option TextValue;
  el_duration : option TextValue
}.

Record Row : Type := { elements : list Element }.

Record Response : Type := {
  resp_status : string;
  resp_error_message : option string;
  resp_rows : list Row
}.

(** The [params] dict of one request. *)
Record Params : Type := mkParams {
  origins : string;
  destinations : string;
  mode : string;
  language : string;
  key : string;
  departure_time : option Z
}.

(** One dict appended to [results]; the keys are ["이름"], ["주소"], ["거리"],
    ["거리(m)"], ["소요시간"] and ["소요시간(분)"], and [None] is Python's [None]. *)
Record ResultRow : Type := {
  row_이름 : string;
  row_주소 : string;
  row_거리 : string;
  row_거리_m : option Z;
  row_소요시간 : string;
  row_소요시간_분 : option Z
}.

(** ** The world and its monad *)

Record World : Type := {
  clock_reads : nat;                       (* calls of [datetime.now()] so far *)
  http_log : list (Params * Response);     (* requests sent, with their answers *)
  diagnostics : list string;               (* messages passed to [st.error] *)
  progress_calls : list Q                  (* arguments of [progress_bar.progress] *)
}.

Definition initial_world : World :=
  {| clock_reads := 0; http_log := []; diagnostics := []; progress_calls := [] |}.

(** The four ways the program changes the world. *)
Definition tick (w : World) : World :=
  {| clock_reads := S (clock_reads w); http_log := http_log w;
     diagnostics := diagnostics w; progress_calls := progress_calls w |}.

Definition log_request (params : Params) (data : Response) (w : World) : World :=
  {| clock_reads := clock_reads w; http_log := http_log w ++ [(params, data)];
     diagnostics := diagnostics w; progress_calls := progress_calls w |}.

Definition log_diagnostic (msg : string) (w : World) : World :=
  {| clock_reads := clock_reads w; http_log := http_log w;
     diagnostics := diagnostics w ++ [msg];
     progress_calls := progress_calls w |}.

Definition log_progress (q : Q) (w : World) : World :=
  {| clock_reads := clock_reads w; http_log := http_log w;
     diagnostics := diagnostics w;
     progress_calls := progress_calls w ++ [q] |}.

Definition M (A : Type) : Type := World -> res A * World.

Definition ret {A} (a : A) : M A := fun w => (Ok a, w).

Definition bind {A B} (m : M A) (k : A -> M B) : M B := fun w =>
  match m w with
  | (Ok a, w') => k a w'
  | (Raise e, w') => (Raise e, w')
  end.

Definition lift {A} (r : res A) : M A := fun w => (r, w).

Declare Scope monad_scope.
Delimit Scope monad_scope with monad.
Notation "x <- m ;; k" := (bind m (fun x => k))
  (at level 61, m at next level, right associativity) : monad_scope.
Notation "m ;;; k" := (bind m (fun _ => k))
  (at level 61, right associativity) : monad_scope.
Local Open Scope monad_scope.

(** ** The local time of the host *)

(** [dt.timestamp()] of a naive datetime searches, with the platform's
    [localtime], the POSIX second at which the local wall clock shows [dt].
    The search can fail. It looks at the local time one day before the
    candidate second (one day after it when [fold] is 1) and raises
    [ValueError] when a local time it meets lies outside the years 1..9999, as
    it does for every time on 0001-01-01; a second that does not fit the
    platform's [time_t] raises [OverflowError], and a failing [localtime]
    raises [OSError]. *)
Inductive timestamp_error : Type :=
| YearOutOfRange (year : Z)
| TimeTOutOfRange
| LocaltimeFailed (msg : string).

Definition timestamp_exn (e : timestamp_error) : exn :=
  match e with
  | YearOutOfRange y =>
      ValueError ("year " ++ Text.str_int y ++ " is out of range")
  | TimeTOutOfRange =>
      OverflowError "timestamp out of range for platform time_t"
  | LocaltimeFailed msg => OSError msg
  end.

(** ** The departure-time resolver *)

Section Resolver.

(** The host: what [datetime.now()] returns at its k-th call (k from 0), and
    the local-time rule of [datetime.timestamp()] for naive values, that is
    the POSIX second at which the local wall clock shows the given datetime,
    or the reason why the search for it fails. *)
Variable clock : nat -> Datetime.datetime.
Variable local_to_epoch : Datetime.datetime -> Z + timestamp_error.

Definition datetime_now : M Datetime.datetime := fun w =>
  (Ok (clock (clock_reads w)), tick w).

(** [datetime.strptime(s, "%Y-%m-%d %H:%M")], on ASCII text: the digits and
    the white space of other scripts, which [\d] and [\s] accept as well, are
    not modelled. *)
Definition strptime (s : string) : res Datetime.datetime :=
  let p :=
    Text.p_bind Text.p_Y (fun y =>
    Text.p_bind (Text.p_char "-") (fun _ =>
    Text.p_bind Text.p_m (fun m =>
    Text.p_bind (Text.p_char "-") (fun _ =>
    Text.p_bind Text.p_d (fun d =>
    Text.p_bind Text.p_spaces (fun _ =>
    Text.p_bind Text.p_H (fun h =>
    Text.p_bind (Text.p_char ":") (fun _ =>
    Text.p_bind Text.p_M (fun mi =>
    Text.p_ret (y, m, d, h, mi)))))))))) in
  match p s with
  | None => Raise (ValueError "time data does not match format")
  | Some ((y, m, d, h, mi), EmptyString) => Datetime.make y m d h mi 0 0 false
  | Some (_, String _ _) => Raise (ValueError "unconverted data remains")
  end.

(** [int(dt.timestamp())]: what [timestamp()] raises when it fails, and
    otherwise the local-time second plus the microseconds, truncated toward
    zero (the float is exact when [microsecond] is 0, which is the case at the
    one call site). *)
Definition int_timestamp (dt : Datetime.datetime) : res Z :=
  match local_to_epoch dt with
  | inl s => Ok (Z.quot (s * 1000000 + Datetime.microsecond dt) 1000000)
  | inr e => Raise (timestamp_exn e)
  end.

(** Truthiness of an [Optional[str]]: [None] and [""] are false. *)
Definition truthy (date : option string) : bool :=
  match date with
  | Some (String _ _) => true
  | _ => false
  end.

Definition get_departure_timestamp
    (hour minute : Z) (date : option string) : M Z :=
  dt <- (if truthy date then
           let date := match date with Some s => s | None => EmptyString end in
           lift (strptime (date ++ " " ++ Text.format_0d 2 hour
                                ++ ":" ++ Text.format_0d 2 minute)%string)
         else
           now <- datetime_now ;;
           dt <- lift (Datetime.replace_hmsu now hour minute) ;;
           if Datetime.leb dt now then lift (Datetime.add_days dt 1)
           else ret dt) ;;
  lift (int_timestamp dt).

End Resolver.

(** ** Python list primitives used by the orchestrator *)

(** [range(start, stop, step)] for [step >= 1]: [start], [start + step], ...
    while below [stop]. [stop] steps of fuel are enough. *)
Fixpoint range_from (fuel start stop step : nat) : list nat :=
  match fuel with
  | O => []
  | S fuel' =>
      if (start <? stop)%nat
      then start :: range_from fuel' (start + step) stop step
      else []
  end.

Definition range (start stop step : nat) : list nat :=
  range_from stop start stop step.

Definition enumerate {A} (l : list A) : list (nat * A) :=
  combine (seq 0 (List.length l)) l.

(** [l[i:j]] for indices [0 <= i <= j]. *)
Definition slice {A} (l : list A) (i j : nat) : list A :=
  firstn (j - i) (skipn i l).

(** ** The orchestrator *)

Definition batch_size : nat := 25.

(** The body of the loop over [enumerate(data["rows"])] (lines 71-92). *)
Definition process_row (batch : list Student) (j : nat) (row : Row)
    (results : list ResultRow) : res (list ResultRow) :=
  match nth_error batch j with
  | None => Raise (IndexError "list index out of range")
  | Some student =>
      match elements row with
      | [] => Raise (IndexError "list index out of range")
      | element :: _ =>
          if (el_status element =? "OK")%string then
            match el_distance element with
            | None => Raise (KeyError "distance")
            | Some distance =>
                match el_duration element with
                | None => Raise (KeyError "duration")
                | Some duration =>
                    Ok (results ++
                        [{| row_이름 := 이름 student;
                            row_주소 := 주소 student;
                            row_거리 := text distance;
                            row_거리_m := Some (value distance);
                            row_소요시간 := text duration;
                            row_소요시간_분 := Some (value duration / 60) |}])
                end
            end
          else
            let error_status := el_status element in
            Ok (results ++
                [{| row_이름 := 이름 student;
                    row_주소 := 주소 student;
                    row_거리 := ("오류: " ++ error_status)%string;
                    row_거리_m := None;
                    row_소요시간 := ("오류: " ++ error_status)%string;
                    row_소요시간_분 := None |}])
      end
  end.

(** The loop [for j, row in enumerate(data["rows"])] (line 70). *)
Fixpoint rows_loop (batch : list Student) (jrows : list (nat * Row))
    (results : list ResultRow) : res (list ResultRow) :=
  match jrows with
  | [] => Ok results
  | (j, row) :: rest =>
      res_bind (process_row batch j row results) (rows_loop batch rest)
  end.

Section Orchestrator.

Variable clock : nat -> Datetime.datetime.
Variable local_to_epoch : Datetime.datetime -> Z + timestamp_error.

(** The endpoint: the decoded answer to the k-th request of the session (k
    from 0) as a function of the request. *)
Variable endpoint : nat -> Params -> Response.

(** [requests.get(url, params=params).json()] *)
Definition requests_get (params : Params) : M Response := fun w =>
  let data := endpoint (List.length (http_log w)) params in
  (Ok data, log_request params data w).

Definition st_error (msg : string) : M unit := fun w =>
  (Ok tt, log_diagnostic msg w).

(** [progress_bar.progress(a / b)] with true division; the float quotient of
    two small integers is kept as the exact rational. *)
Definition progress_bar_progress (a b : nat) : M unit := fun w =>
  match b with
  | O => (Raise ZeroDivisionError, w)
  | S _ => (Ok tt, log_progress (Qmake (Z.of_nat a) (Pos.of_nat b)) w)
  end.

Section Call.

Variable students : list Student.
Variable school_address api_key mode : string.
Variable departure_hour : option Z.
Variable departure_minute : Z.
Variable departure_date : option string.
Variable progress_bar : bool.   (* whether a progress bar was passed *)

(** Lines 48-61: the request of the batch; [mkParams] takes the values of the
    keys ["origins"], ["destinations"], ["mode"], ["language"], ["key"] and
    ["departure_time"] (absent when [None]). *)
Definition build_params (batch : list Student) : M Params :=
  let addresses := map 주소 batch in
  let params :=
    mkParams (String.concat "|" addresses) school_address mode "ko" api_key in
  match departure_hour with
  | Some h =>
      t <- get_departure_timestamp clock local_to_epoch
             h departure_minute departure_date ;;
      ret (params (Some t))
  | None => ret (params None)
  end.

(** One iteration of the loop over batches (lines 47-95); [continue] is the
    early return of the unchanged [results]. *)
Definition process_batch (total_batches batch_idx i : nat)
    (results : list ResultRow) : M (list ResultRow) :=
  let batch := slice students i (i + batch_size) in
  params <- build_params batch ;;
  data <- requests_get params ;;
  if negb (resp_status data =? "OK")%string then
    st_error ("API 오류: " ++ resp_status data ++ " - "
              ++ match resp_error_message data with
                 | Some m => m
                 | None => ""
                 end)%string ;;;
    ret results
  else
    results <- lift (rows_loop batch (enumerate (resp_rows data)) results) ;;
    (if progress_bar
     then progress_bar_progress (batch_idx + 1) total_batches
     else ret tt) ;;;
    ret results.

Fixpoint batches_loop (total_batches : nat) (its : list (nat * nat))
    (results : list ResultRow) : M (list ResultRow) :=
  match its with
  | [] => ret results
  | (batch_idx, i) :: rest =>
      results <- process_batch total_batches batch_idx i results ;;
      batches_loop total_batches rest results
  end.

(** The returned [DataFrame] is identified with the list of its rows. *)
Definition calculate_commute_times : M (list ResultRow) :=
  let results := [] in
  let total_batches :=
    ((List.length students + batch_size - 1) / batch_size)%nat in
  batches_loop total_batches
    (enumerate (range 0 (List.length students) batch_size)) results.

(** The batches the loop visits, in order. *)
Definition batches : list (list Student) :=
  map (fun i => slice students i (i + batch_size))
      (range 0 (List.length students) batch_size).

End Call.
End Orchestrator.

(** ** Vocabulary of the statements *)

(** The sizes of a partition of [n] entries into blocks of [batch_size], the
    last one possibly shorter. *)
Definition chunk_sizes (n : nat) : list nat :=
  repeat batch_size (n / batch_size)
  ++ (if (n mod batch_size =? 0)%nat then [] else [(n mod batch_size)%nat]).

(** The value of [total_batches] (line 44). *)
Definition total_batches_of (n : nat) : nat :=
  ((n + batch_size - 1) / batch_size)%nat.

(** A response row the element loop can decode: it has an element 0, and
    that element carries [distance] and [duration] when its status is "OK". *)
Definition readable_row (row : Row) : bool :=
  match elements row with
  | [] => false
  | element :: _ =>
      if (el_status element =? "OK")%string then
        match el_distance element, el_duration element with
        | Some _, Some _ => true
        | _, _ => false
        end
      else true
  end.

(** A row cut down to its element 0. *)
Definition head_only (row : Row) : Row :=
  {| elements := firstn 1 (elements row) |}.

(** The row appended for a student and the element 0 of its response row;
    the empty-text defaults stand for keys whose absence makes the code raise
    instead, so they never reach a result table. *)
Definition row_for (student : Student) (element : Element) : ResultRow :=
  if (el_status element =? "OK")%string then
    {| row_이름 := 이름 student;
       row_주소 := 주소 student;
       row_거리 := match el_distance element with Some d => text d | None => "" end;
       row_거리_m := option_map value (el_distance element);
       row_소요시간 := match el_duration element with Some d => text d | None => "" end;
       row_소요시간_분 := option_map (fun d => value d / 60) (el_duration element) |}
  else
    {| row_이름 := 이름 student;
       row_주소 := 주소 student;
       row_거리 := ("오류: " ++ el_status element)%string;
       row_거리_m := None;
       row_소요시간 := ("오류: " ++ el_status element)%string;
       row_소요시간_분 := None |}.

(** A response that follows the contract of the matrix query for a batch:
    when its status is "OK" it has one decodable row per origin. *)
Definition conforms (batch : list Student) (data : Response) : bool :=
  if (resp_status data =? "OK")%string then
    (List.length (resp_rows data) =? List.length batch)%nat
    && forallb readable_row (resp_rows data)
  else true.

Definition status_ok (data : Response) : bool :=
  (resp_status data =? "OK")%string.

(** The requests and answers a run added to the log. *)
Definition exchanged (before after : World) : list (Params * Response) :=
  skipn (List.length (http_log before)) (http_log after).

(** The resolver as the specification words it, a function of the clock
    reading [now]. *)
Definition resolve
    (local_to_epoch : Datetime.datetime -> Z + timestamp_error)
    (hour minute : Z) (date : option string) (now : Datetime.datetime) : res Z :=
  res_bind
    (if truthy date then
       let date := match date with Some s => s | None => EmptyString end in
       strptime (date ++ " " ++ Text.format_0d 2 hour
                      ++ ":" ++ Text.format_0d 2 minute)%string
     else
       res_bind (Datetime.replace_hmsu now hour minute) (fun dt =>
       if Datetime.leb dt now then Datetime.add_days dt 1 else Ok dt))
    (fun dt => int_timestamp local_to_epoch dt).

(** The outcome of [int(dt.timestamp())] for a datetime without
    microseconds, from the answer of the host: its second, or what
    [timestamp()] raises. *)
Definition timestamp_second (r : Z + timestamp_error) : res Z :=
  match r with
  | inl s => Ok s
  | inr e => Raise (timestamp_exn e)
  end.

(** The world after the resolver has, or has not, been called for a batch:
    it is called when [departure_hour] is given and reads the clock when no
    date is given. *)
Definition after_resolver (departure_hour : option Z)
    (departure_date : option string) (w : World) : World :=
  match departure_hour with
  | Some _ => if truthy departure_date then w else tick w
  | None => w
  end.

(** The [departure_time] entry of a request built when the clock reads
    [now]: absent without [departure_hour]. *)
Definition departure_entry
    (local_to_epoch : Datetime.datetime -> Z + timestamp_error)
    (departure_hour : option Z) (departure_minute : Z)
    (departure_date : option string) (now : Datetime.datetime)
    : res (option Z) :=
  match departure_hour with
  | Some h =>
      res_bind (resolve local_to_epoch h departure_minute departure_date now)
               (fun t => Ok (Some t))
  | None => Ok None
  end.

(** Clock readings per batch: one when the resolver is called without a date,
    none otherwise. *)
Definition reads_per_batch (departure_hour : option Z)
    (departure_date : option string) : nat :=
  match departure_hour with
  | Some _ => if truthy departure_date then 0%nat else 1%nat
  | None => 0%nat
  end.

(** The message passed to [st.error] for a refused batch (line 67). *)
Definition diagnostic_of (data : Response) : string :=
  ("API 오류: " ++ resp_status data ++ " - "
   ++ match resp_error_message data with
      | Some m => m
      | None => ""
      end)%string.

(** The argument of [progress_bar.progress] after batch [batch_idx]. *)
Definition fraction (batches_completed total_batches : nat) : Q :=
  Qmake (Z.of_nat batches_completed) (Pos.of_nat total_batches).

(** What a sequence of answers makes the loop produce: the number of rows, the
    progress reports and the diagnostics. [sizes] are the batch sizes and
    [idxs] the batch indices, in order. *)
Definition contributed (sizes : list nat) (answers : list Response) : nat :=
  list_sum (map (fun na => if status_ok (snd na) then fst na else 0%nat)
                (combine sizes answers)).

Definition reported (total_batches : nat) (idxs : list nat)
    (answers : list Response) : list Q :=
  flat_map (fun ka => if status_ok (snd ka)
                      then [fraction (fst ka + 1) total_batches] else [])
           (combine idxs answers).

Definition diagnosed (answers : list Response) : list string :=
  flat_map (fun a => if status_ok a then [] else [diagnostic_of a]) answers.

(** A boolean check of [P] on the [fuel] integers from [z] on; proofs by
    enumeration evaluate it. *)
Fixpoint all_from (fuel : nat) (P : Z -> bool) (z : Z) : bool :=
  match fuel with
  | O => true
  | S fuel' => P z && all_from fuel' P (z + 1)
  end.

(** ** Concrete hosts and inputs used by the examples *)

Module Examples.

(** A host in UTC, for valid datetimes: local time is POSIX time (1970-01-01
    has ordinal 719163); the day before 0001-01-01, looked at when [fold] is
    0, and the day after 9999-12-31, looked at when [fold] is 1, are out of
    range. *)
Definition utc_epoch (dt : Datetime.datetime) : Z + timestamp_error :=
  if negb (Datetime.fold dt) && (Datetime.toordinal dt =? 1) then
    inr (YearOutOfRange 0)
  else if Datetime.fold dt
          && (Datetime.toordinal dt =? Datetime.MAXORDINAL) then
    inr (YearOutOfRange 10000)
  else
    inl ((Datetime.toordinal dt - 719163) * 86400
         + Datetime.hour dt * 3600 + Datetime.minute dt * 60
         + Datetime.second dt).

Definition at_2024_01_01 (h mi s : Z) : Datetime.datetime :=
  Datetime.mk 2024 1 1 h mi s 0 false.

Definition student (n : string) : Student :=
  {| 이름 := n; 주소 := ("addr " ++ n)%string |}.

Definition ok_element (seconds : Z) : Element :=
  {| el_status := "OK";
     el_distance := Some {| text := "1.2 km"; value := 1200 |};
     el_duration := Some {| text := "some minutes"; value := seconds |} |}.

Definition failed_element (code : string) : Element :=
  {| el_status := code; el_distance := None; el_duration := None |}.

Definition ok_response (rows : list Row) : Response :=
  {| resp_status := "OK"; resp_error_message := None; resp_rows := rows |}.

Definition denied_response : Response :=
  {| resp_status := "REQUEST_DENIED";
     resp_error_message := Some "The provided API key is invalid.";
     resp_rows := [] |}.

(** An "OK" answer for three origins: 119 seconds, not found, 120 seconds. *)
Definition mixed_response : Response :=
  ok_response [{| elements := [ok_element 119] |};
               {| elements := [failed_element "NOT_FOUND"] |};
               {| elements := [ok_element 120] |}].

(** A deterministic endpoint that answers "OK" with one row per origin
    count [n], the duration being a function of the departure time. *)
Definition echo_endpoint (n : nat) (_ : nat) (p : Params) : Response :=
  ok_response
    (repeat {| elements :=
                 [ok_element (match departure_time p with
                              | Some t => t
                              | None => 0
                              end)] |} n).

(** An endpoint whose first answer is a refusal and whose later answers are
    "OK" with [n] rows. *)
Definition refuse_first (n : nat) (k : nat) (_ : Params) : Response :=
  match k with
  | O => denied_response
  | S _ => ok_response (repeat {| elements := [ok_element 119] |} n)
  end.

(** The same, with the number of rows of the k-th answer taken from
    [sizes]. *)
Definition echo_sized (sizes : list nat) (k : nat) (p : Params) : Response :=
  echo_endpoint (nth k sizes 0%nat) k p.

(** A clock that shows 07:59:59 at its first reading and 08:00:00 from then
    on, and one that shows 07:00:00 first and 09:00:00 from then on. *)
Definition clock_around_eight (k : nat) : Datetime.datetime :=
  match k with
  | O => at_2024_01_01 7 59 59
  | S _ => at_2024_01_01 8 0 0
  end.

Definition clock_seven_then_nine (k : nat) : Datetime.datetime :=
  match k with
  | O => at_2024_01_01 7 0 0
  | S _ => at_2024_01_01 9 0 0
  end.

(** A clock that shows 07:00:00 first and 07:30:00 from then on. *)
Definition clock_seven_then_half_past (k : nat) : Datetime.datetime :=
  match k with
  | O => at_2024_01_01 7 0 0
  | S _ => at_2024_01_01 7 30 0
  end.

End Examples.

(** ** What a returned table is made of *)

(** The elements 0 of the rows of an answer, in order. *)
Definition element0s (data : Response) : list Element :=
  flat_map (fun row => match elements row with
                       | element :: _ => [element]
                       | [] => []
                       end)
           (resp_rows data).

(** The rows an answer gives for its batch: none when it is refused, one per
    answered row otherwise, student j with element 0 of row j. *)
Definition rows_of (batch : list Student) (data : Response) : list ResultRow :=
  if status_ok data
  then map (fun se => row_for (fst se) (snd se))
           (combine batch (element0s data))
  else [].

Definition table_of (bs : list (list Student)) (answers : list Response)
    : list ResultRow :=
  flat_map (fun ba => rows_of (fst ba) (snd ba)) (combine bs answers).

(** The number of rows that the batches before batch [k] put in the table:
    the index of the first row of batch [k]. *)
Definition rows_before (k : nat) (bs : list (list Student))
    (answers : list Response) : nat :=
  List.length (table_of (firstn k bs) (firstn k answers)).

(** The students of the batches whose answer is "OK". *)
Definition accepted_students (bs : list (list Student))
    (answers : list Response) : list Student :=
  flat_map (fun ba => if status_ok (snd ba) then fst ba else [])
           (combine bs answers).

(** The elements 0 of the answers that are "OK". *)
Definition accepted_elements (answers : list Response) : list Element :=
  flat_map (fun a => if status_ok a then element0s a else []) answers.

(** Whether an element is a success, and whether it has the duration a
    success must have. *)
Definition succeeded (element : Element) : bool :=
  (el_status element =? "OK")%string.

Definition timed (element : Element) : bool :=
  if succeeded element
  then match el_duration element with Some _ => true | None => false end
  else true.

(** ** The page around the orchestrator (lines 104-268) *)

Definition SCHOOL_ADDRESS : string := "경기도 포천시 해룡로 120".

(** The values of the sidebar widgets (lines 128-141): the checkbox, the two
    number inputs and the date input, whose value is a [datetime.date] given by
    its year, month and day. *)
Record Sidebar : Type := {
  use_departure_time : bool;
  hour_input : Z;
  minute_input : Z;
  date_input : Z * Z * Z
}.

(** Lines 130-145: [departure_hour], [departure_minute], [departure_date]. *)
Definition departure_settings (s : Sidebar)
    : option Z * Z * option (Z * Z * Z) :=
  if use_departure_time s
  then (Some (hour_input s), minute_input s, Some (date_input s))
  else (None, 0, None).

(** Lines 206-227, the handler of the button. [api_key] is the secret, absent
    when the lookup raised [KeyError]; [uploaded_file] is absent when no file
    was uploaded and is otherwise [df.to_dict("records")] of a file that has
    both columns. The calls that only draw on the page ([st.info],
    [st.progress(0)], [st.success], tables, metrics, download buttons) leave
    the world of this model untouched and are not written. The result is the
    table when one was computed. *)
Definition on_click (clock : nat -> Datetime.datetime)
    (local_to_epoch : Datetime.datetime -> Z + timestamp_error)
    (endpoint : nat -> Params -> Response)
    (api_key : option string) (uploaded_file : option (list Student))
    (s : Sidebar) : M (option (list ResultRow)) :=
  let '(departure_hour, departure_minute, departure_date) :=
    departure_settings s in
  if negb (truthy api_key) then
    st_error "API 키가 설정되지 않았습니다." ;;; ret None
  else
    match uploaded_file with
    | None => st_error "학생 명단 파일을 업로드해주세요." ;;; ret None
    | Some students =>
        result_df <-
          calculate_commute_times clock local_to_epoch endpoint students
            SCHOOL_ADDRESS
            (match api_key with Some k => k | None => EmptyString end)
            "transit"
            (if use_departure_time s then departure_hour else None)
            departure_minute
            (match departure_date with
             | Some (y, m, d) =>
                 if use_departure_time s then Some (Text.date_str y m d)
                 else None
             | None => None
             end)
            true ;;
        ret (Some result_df)
    end.

(** Lines 237-244: [dropna] on the minutes column and the text of the
    "계산 성공" metric, shown when there is a row and a valid time. *)
Definition dropna (column : list (option Z)) : list Z :=
  flat_map (fun v => match v with Some x => [x] | None => [] end) column.

Definition valid_times (result_df : list ResultRow) : list Z :=
  dropna (map row_소요시간_분 result_df).

Definition success_metric (result_df : list ResultRow) : option string :=
  if (0 <? List.length result_df)%nat then
    if (0 <? List.length (valid_times result_df))%nat then
      Some (Text.str_int (Z.of_nat (List.length (valid_times result_df)))
            ++ "/" ++ Text.str_int (Z.of_nat (List.length result_df))
            ++ "명")%string
    else None
  else None.

(** * Properties *)

(** ** Partition into batches *)

Section Partition.

Context {A : Type}.
Implicit Types l : list A.

Lemma slice_firstn_skipn l i s :
  slice l i (i + s) = firstn s (skipn i l).
Proof. unfold slice. f_equal. lia. Qed.

Lemma range_from_concat l : forall fuel start s,
  (1 <= s)%nat -> (List.length l <= start + fuel)%nat ->
  List.concat (map (fun i => slice l i (i + s)) (range_from fuel start (List.length l) s))
  = skipn start l.
Proof.
  induction fuel as [|fuel IH]; intros start s Hs Hfuel; simpl.
  - symmetry. apply skipn_all2. lia.
  - destruct (Nat.ltb_spec start (List.length l)) as [Hlt|Hge]; simpl.
    + rewrite IH by lia.
      rewrite slice_firstn_skipn.
      replace (start + s)%nat with (s + start)%nat by lia.
      rewrite <- skipn_skipn. apply firstn_skipn.
    + symmetry. apply skipn_all2. lia.
Qed.

Lemma range_from_arith : forall fuel start stop,
  (stop <= start + fuel)%nat ->
  range_from fuel start stop batch_size
  = map (fun k => (start + k * batch_size)%nat)
        (seq 0 ((stop - start + batch_size - 1) / batch_size)).
Proof.
  unfold batch_size.
  induction fuel as [|fuel IH]; intros start stop Hfuel; cbn [range_from].
  - rewrite Nat.div_small by lia. reflexivity.
  - destruct (Nat.ltb_spec start stop) as [Hlt|Hge].
    + rewrite IH by lia.
      assert (Hdiv : ((stop - start + 25 - 1) / 25
                      = S ((stop - (start + 25) + 25 - 1) / 25))%nat).
      { destruct (Nat.le_gt_cases (start + 25) stop) as [Hbig|Hsmall].
        - replace (stop - start + 25 - 1)%nat
            with ((stop - (start + 25) + 25 - 1) + 1 * 25)%nat by lia.
          rewrite Nat.div_add by lia. lia.
        - replace (stop - (start + 25) + 25 - 1)%nat with 24%nat by lia.
          replace (stop - start + 25 - 1)%nat
            with ((stop - start - 1) + 1 * 25)%nat by lia.
          rewrite Nat.div_add by lia.
          rewrite (Nat.div_small (stop - start - 1)) by lia. reflexivity. }
      rewrite Hdiv. cbn [seq map]. f_equal; [lia|].
      rewrite <- seq_shift, map_map.
      apply map_ext. intros k. lia.
    + rewrite Nat.div_small by lia. reflexivity.
Qed.

End Partition.

Lemma chunk_sizes_big n :
  (batch_size <= n)%nat ->
  chunk_sizes n = batch_size :: chunk_sizes (n - batch_size).
Proof.
  unfold chunk_sizes, batch_size. intros H.
  assert (Hd : (n / 25 = S ((n - 25) / 25))%nat).
  { replace n with ((n - 25) + 1 * 25)%nat at 1 by lia.
    rewrite Nat.div_add by lia. lia. }
  assert (Hm : (n mod 25 = (n - 25) mod 25)%nat).
  { replace n with ((n - 25) + 1 * 25)%nat at 1 by lia.
    apply Nat.Div0.mod_add. }
  rewrite Hd, Hm. reflexivity.
Qed.

Lemma chunk_sizes_small n :
  (0 < n < batch_size)%nat -> chunk_sizes n = [n].
Proof.
  unfold chunk_sizes, batch_size. intros H.
  rewrite Nat.div_small, Nat.mod_small by lia. simpl.
  destruct (Nat.eqb_spec n 0); [lia|reflexivity].
Qed.

Lemma range_from_sizes {A} (l : list A) : forall fuel start,
  (List.length l <= start + fuel)%nat ->
  map (@List.length A)
      (map (fun i => slice l i (i + batch_size))
           (range_from fuel start (List.length l) batch_size))
  = chunk_sizes (List.length l - start).
Proof.
  induction fuel as [|fuel IH]; intros start Hfuel; cbn [range_from map].
  - replace (List.length l - start)%nat with 0%nat by lia. reflexivity.
  - destruct (Nat.ltb_spec start (List.length l)) as [Hlt|Hge]; cbn [map].
    + rewrite IH by (unfold batch_size; lia). rewrite slice_firstn_skipn.
      rewrite length_firstn, length_skipn.
      destruct (Nat.le_gt_cases batch_size (List.length l - start)) as [Hbig|Hsmall].
      * rewrite (chunk_sizes_big (List.length l - start)) by exact Hbig.
        f_equal; [lia|]. f_equal. lia.
      * rewrite (chunk_sizes_small (List.length l - start)) by lia.
        replace (List.length l - (start + batch_size))%nat with 0%nat by lia.
        f_equal. lia.
    + replace (List.length l - start)%nat with 0%nat by lia. reflexivity.
Qed.

Lemma batches_concat (students : list Student) :
  List.concat (batches students) = students.
Proof.
  unfold batches, range.
  rewrite (range_from_concat students (List.length students) 0 batch_size).
  - reflexivity.
  - unfold batch_size. lia.
  - lia.
Qed.

Lemma batches_sizes (students : list Student) :
  map (@List.length Student) (batches students)
  = chunk_sizes (List.length students).
Proof.
  unfold batches, range. rewrite range_from_sizes by lia. f_equal. lia.
Qed.

(** Batch k is the block of 25 students that starts at index 25k. *)
Lemma batches_blocks (students : list Student) :
  batches students
  = map (fun k => firstn 25 (skipn (25 * k) students))
        (seq 0 (total_batches_of (List.length students))).
Proof.
  unfold batches, range.
  rewrite range_from_arith by lia. rewrite map_map.
  unfold total_batches_of. rewrite Nat.sub_0_r.
  apply map_ext. intros k. rewrite slice_firstn_skipn.
  unfold batch_size. do 2 f_equal. lia.
Qed.

(** ** The element loop *)

Lemma process_row_ok batch j row results :
  is_ok (process_row batch j row results)
  = (j <? List.length batch)%nat && readable_row row.
Proof.
  unfold process_row, readable_row.
  destruct (nth_error batch j) as [student|] eqn:Hnth.
  - assert (Hj : (j < List.length batch)%nat)
      by (apply nth_error_Some; congruence).
    apply Nat.ltb_lt in Hj. rewrite Hj. cbn [andb].
    destruct (elements row) as [|element rest]; [reflexivity|].
    destruct (el_status element =? "OK")%string; [|reflexivity].
    destruct (el_distance element), (el_duration element); reflexivity.
  - apply nth_error_None in Hnth. apply Nat.ltb_ge in Hnth.
    rewrite Hnth. reflexivity.
Qed.

Lemma process_row_result batch j row results out :
  process_row batch j row results = Ok out ->
  exists student element,
    nth_error batch j = Some student
    /\ hd_error (elements row) = Some element
    /\ out = results ++ [row_for student element].
Proof.
  unfold process_row.
  destruct (nth_error batch j) as [student|]; [|discriminate].
  destruct (elements row) as [|element rest]; [discriminate|].
  destruct (el_status element =? "OK")%string eqn:Hst.
  - destruct (el_distance element) as [distance|] eqn:Hd; [|discriminate].
    destruct (el_duration element) as [duration|] eqn:Hdu; [|discriminate].
    intros [= <-]. exists student, element.
    unfold row_for. rewrite Hst, Hd, Hdu. repeat split; reflexivity.
  - intros [= <-]. exists student, element.
    unfold row_for. rewrite Hst. repeat split; reflexivity.
Qed.

Lemma process_row_head_only batch j row results :
  process_row batch j (head_only row) results = process_row batch j row results.
Proof.
  unfold process_row, head_only. cbn [elements].
  destruct (nth_error batch j); [|reflexivity].
  destruct (elements row); reflexivity.
Qed.

Lemma rows_loop_head_only batch rows : forall s results,
  rows_loop batch (combine (seq s (List.length (map head_only rows)))
                           (map head_only rows)) results
  = rows_loop batch (combine (seq s (List.length rows)) rows) results.
Proof.
  induction rows as [|row rows IH]; intros s results; [reflexivity|].
  cbn [map List.length seq combine rows_loop].
  rewrite process_row_head_only.
  destruct (process_row batch s row results); cbn [res_bind]; auto.
Qed.

Lemma rows_loop_ok batch rows : forall s results,
  is_ok (rows_loop batch (combine (seq s (List.length rows)) rows) results)
  = match rows with
    | [] => true
    | _ :: _ => (s + List.length rows <=? List.length batch)%nat
                && forallb readable_row rows
    end.
Proof.
  induction rows as [|row rows IH]; intros s results; [reflexivity|].
  cbn [List.length seq combine rows_loop forallb].
  pose proof (process_row_ok batch s row results) as Hrow.
  destruct (process_row batch s row results) as [out|e]; cbn [res_bind is_ok] in *.
  - rewrite IH. symmetry in Hrow. apply andb_true_iff in Hrow as [Hs Hr].
    rewrite Hr. apply Nat.ltb_lt in Hs. destruct rows as [|row' rows'].
    + cbn [List.length forallb]. rewrite andb_true_r.
      symmetry. apply Nat.leb_le. lia.
    + cbn [andb]. f_equal.
      destruct (Nat.leb_spec (S s + List.length (row' :: rows')) (List.length batch));
        symmetry; [apply Nat.leb_le | apply Nat.leb_gt]; lia.
  - symmetry in Hrow. symmetry. apply andb_false_iff in Hrow as [Hs|Hr].
    + apply Nat.ltb_ge in Hs. apply andb_false_iff. left. apply Nat.leb_gt. lia.
    + rewrite Hr. apply andb_false_iff. right. reflexivity.
Qed.

Lemma skipn_nth_error_cons {A} (l : list A) : forall n x,
  nth_error l n = Some x -> skipn n l = x :: skipn (S n) l.
Proof.
  induction l as [|a l IH]; intros [|n] x H; try discriminate.
  - injection H as ->. reflexivity.
  - cbn [nth_error] in H. apply IH in H. exact H.
Qed.

Lemma rows_loop_result batch rows : forall s results out,
  rows_loop batch (combine (seq s (List.length rows)) rows) results = Ok out ->
  exists els,
    map (fun row => hd_error (elements row)) rows = map Some els
    /\ out = results
             ++ map (fun se => row_for (fst se) (snd se))
                    (combine (firstn (List.length rows) (skipn s batch)) els).
Proof.
  induction rows as [|row rows IH]; intros s results out.
  - cbn. intros [= <-]. exists []. rewrite app_nil_r. auto.
  - cbn [List.length seq combine rows_loop].
    destruct (process_row batch s row results) as [mid|e] eqn:Hrow;
      cbn [res_bind]; [|discriminate].
    intros Hrest.
    apply process_row_result in Hrow as (student & element & Hnth & Hhd & ->).
    apply IH in Hrest as (els & Hels & ->).
    exists (element :: els). split.
    + cbn [map]. rewrite Hhd, Hels. reflexivity.
    + rewrite <- app_assoc. f_equal.
      rewrite (skipn_nth_error_cons batch s student Hnth).
      reflexivity.
Qed.


(** ** The resolver as a function of the clock reading *)

Section ResolverFacts.

Variable clock : nat -> Datetime.datetime.
Variable local_to_epoch : Datetime.datetime -> Z + timestamp_error.

Lemma get_departure_timestamp_resolve hour minute date w :
  get_departure_timestamp clock local_to_epoch hour minute date w
  = (resolve local_to_epoch hour minute date (clock (clock_reads w)),
     if truthy date then w else tick w).
Proof.
  unfold get_departure_timestamp, resolve, bind, lift, ret, datetime_now.
  destruct (truthy date).
  - destruct (strptime _); reflexivity.
  - destruct (Datetime.replace_hmsu _ hour minute) as [dt|e];
      cbn [res_bind]; [|reflexivity].
    destruct (Datetime.leb dt _); [|reflexivity].
    destruct (Datetime.add_days dt 1); reflexivity.
Qed.

Lemma resolve_dated hour minute date now now' :
  truthy date = true ->
  resolve local_to_epoch hour minute date now
  = resolve local_to_epoch hour minute date now'.
Proof. unfold resolve. intros ->. reflexivity. Qed.

End ResolverFacts.

(** ** One iteration of the batch loop *)

Section BatchFacts.

Variable clock : nat -> Datetime.datetime.
Variable local_to_epoch : Datetime.datetime -> Z + timestamp_error.
Variable endpoint : nat -> Params -> Response.
Variable students : list Student.
Variable school_address api_key mode : string.
Variable departure_hour : option Z.
Variable departure_minute : Z.
Variable departure_date : option string.
Variable progress_bar : bool.

Local Abbreviation build :=
  (build_params clock local_to_epoch school_address api_key mode
     departure_hour departure_minute departure_date).
Local Abbreviation step :=
  (process_batch clock local_to_epoch endpoint students school_address
     api_key mode departure_hour departure_minute departure_date progress_bar).
Local Abbreviation loop :=
  (batches_loop clock local_to_epoch endpoint students school_address
     api_key mode departure_hour departure_minute departure_date progress_bar).
Local Abbreviation entry :=
  (departure_entry local_to_epoch departure_hour departure_minute
     departure_date).
Local Abbreviation resolved := (after_resolver departure_hour departure_date).
Local Abbreviation request batch t :=
  (mkParams (String.concat "|" (map 주소 batch)) school_address mode "ko"
     api_key t).

Lemma build_params_eq batch w :
  build batch w
  = (res_bind (entry (clock (clock_reads w)))
              (fun t => Ok (request batch t)),
     resolved w).
Proof.
  unfold build_params, departure_entry, after_resolver, bind, ret.
  destruct departure_hour as [h|]; [|reflexivity].
  rewrite get_departure_timestamp_resolve.
  destruct (resolve _ _ _ _ _); reflexivity.
Qed.

Lemma resolved_frame w :
  http_log (resolved w) = http_log w
  /\ diagnostics (resolved w) = diagnostics w
  /\ progress_calls (resolved w) = progress_calls w.
Proof.
  unfold after_resolver.
  destruct departure_hour; [destruct (truthy departure_date)|]; auto.
Qed.

(** The iteration, case by case. *)
Lemma process_batch_eq total_batches batch_idx i results w :
  step total_batches batch_idx i results w
  = let batch := slice students i (i + batch_size) in
    match entry (clock (clock_reads w)) with
    | Raise e => (Raise e, resolved w)
    | Ok t =>
        let params := request batch t in
        let data := endpoint (List.length (http_log w)) params in
        let w1 := log_request params data (resolved w) in
        if status_ok data then
          match rows_loop batch (enumerate (resp_rows data)) results with
          | Raise e => (Raise e, w1)
          | Ok out =>
              if progress_bar then
                match total_batches with
                | O => (Raise ZeroDivisionError, w1)
                | S _ =>
                    (Ok out,
                     log_progress (fraction (batch_idx + 1) total_batches) w1)
                end
              else (Ok out, w1)
          end
        else (Ok results, log_diagnostic (diagnostic_of data) w1)
    end.
Proof.
  unfold process_batch, bind. rewrite build_params_eq.
  destruct (entry _) as [t|e]; cbn [res_bind]; [|reflexivity].
  unfold requests_get. destruct (resolved_frame w) as (-> & _ & _).
  cbv zeta. unfold status_ok.
  destruct (resp_status _ =? "OK")%string; cbn [negb].
  - unfold lift. destruct (rows_loop _ _ _); [|reflexivity].
    destruct progress_bar; [|reflexivity].
    unfold progress_bar_progress, fraction.
    destruct total_batches; reflexivity.
  - reflexivity.
Qed.

Lemma resolved_reads w :
  clock_reads (resolved w)
  = (clock_reads w + reads_per_batch departure_hour departure_date)%nat.
Proof.
  unfold after_resolver, reads_per_batch.
  destruct departure_hour; [destruct (truthy departure_date)|]; cbn; lia.
Qed.

(** A conforming "OK" answer yields one row per student of the batch. *)
Lemma rows_loop_conforming batch data results :
  conforms batch data = true ->
  status_ok data = true ->
  exists els,
    map (fun row => hd_error (elements row)) (resp_rows data) = map Some els
    /\ rows_loop batch (enumerate (resp_rows data)) results
       = Ok (results ++ map (fun se => row_for (fst se) (snd se))
                            (combine batch els)).
Proof.
  unfold conforms, status_ok. intros Hc Hok. rewrite Hok in Hc.
  apply andb_true_iff in Hc as [Hlen Hread]. apply Nat.eqb_eq in Hlen.
  pose proof (rows_loop_ok batch (resp_rows data) 0 results) as Hisok.
  unfold enumerate.
  destruct (rows_loop batch _ results) as [out|e] eqn:Hloop.
  - apply rows_loop_result in Hloop as (els & Hels & ->).
    exists els. split; [exact Hels|].
    rewrite Hlen. cbn [skipn]. rewrite firstn_all. reflexivity.
  - cbn [is_ok] in Hisok. destruct (resp_rows data) as [|row rows];
      [discriminate|].
    rewrite Hread, andb_true_r in Hisok. symmetry in Hisok.
    apply Nat.leb_gt in Hisok. exfalso. lia.
Qed.

Lemma step_conforming total_batches batch_idx i results w :
  progress_bar = false \/ total_batches <> 0%nat ->
  is_ok (entry (clock (clock_reads w))) = true ->
  (forall p, conforms (slice students i (i + batch_size))
                      (endpoint (List.length (http_log w)) p) = true) ->
  exists out w' data,
    step total_batches batch_idx i results w = (Ok out, w')
    /\ map snd (http_log w') = map snd (http_log w) ++ [data]
    /\ List.length out
       = (List.length results
          + (if status_ok data
             then List.length (slice students i (i + batch_size))
             else 0))%nat
    /\ progress_calls w'
       = progress_calls w
         ++ (if progress_bar && status_ok data
             then [fraction (batch_idx + 1) total_batches] else [])
    /\ diagnostics w'
       = diagnostics w
         ++ (if status_ok data then [] else [diagnostic_of data]).
Proof.
  intros Hbar Hentry Hconf. rewrite process_batch_eq. cbv zeta.
  destruct (entry (clock (clock_reads w))) as [t|e]; [|discriminate].
  set (batch := slice students i (i + batch_size)) in *.
  set (params := request batch t).
  specialize (Hconf params).
  set (data := endpoint (List.length (http_log w)) params) in *.
  destruct (resolved_frame w) as (Hlog & Hdiag & Hprog).
  destruct (status_ok data) eqn:Hok.
  - destruct (rows_loop_conforming batch data results Hconf Hok)
      as (els & Hels & ->).
    assert (Hlen : List.length (results
                     ++ map (fun se => row_for (fst se) (snd se))
                            (combine batch els))
                   = (List.length results + List.length batch)%nat).
    { rewrite length_app, length_map, length_combine.
      apply (f_equal (@List.length _)) in Hels.
      rewrite !length_map in Hels.
      unfold conforms in Hconf. unfold status_ok in Hok. rewrite Hok in Hconf.
      apply andb_true_iff in Hconf as [Hrows _]. apply Nat.eqb_eq in Hrows.
      lia. }
    destruct progress_bar.
    + destruct total_batches as [|n]; [destruct Hbar; congruence|].
      eexists _, _, data. split; [reflexivity|].
      cbn [http_log progress_calls diagnostics log_progress log_request andb].
      rewrite Hok, Hlog, Hdiag, Hprog, map_app, app_nil_r. auto.
    + eexists _, _, data. split; [reflexivity|].
      cbn [http_log progress_calls diagnostics log_request andb].
      rewrite Hok, Hlog, Hdiag, Hprog, map_app, !app_nil_r. auto.
  - eexists _, _, data. split; [reflexivity|].
    cbn [http_log progress_calls diagnostics log_diagnostic log_request].
    rewrite Hok, Hlog, Hdiag, Hprog, map_app, andb_false_r, app_nil_r,
      Nat.add_0_r.
    auto.
Qed.

Lemma loop_conforming total_batches : forall its results w,
  progress_bar = false \/ total_batches <> 0%nat ->
  (forall k, is_ok (entry (clock k)) = true) ->
  (forall j it p, nth_error its j = Some it ->
     conforms (slice students (snd it) (snd it + batch_size))
              (endpoint (List.length (http_log w) + j) p) = true) ->
  exists out w' answers,
    loop total_batches its results w = (Ok out, w')
    /\ map snd (http_log w') = map snd (http_log w) ++ answers
    /\ List.length answers = List.length its
    /\ List.length out
       = (List.length results
          + contributed
              (map (fun it => List.length
                                (slice students (snd it) (snd it + batch_size)))
                   its)
              answers)%nat
    /\ progress_calls w'
       = progress_calls w
         ++ (if progress_bar
             then reported total_batches (map fst its) answers else [])
    /\ diagnostics w' = diagnostics w ++ diagnosed answers.
Proof.
  induction its as [|[batch_idx i] rest IH]; intros results w Hbar Hentry Hconf.
  - exists results, w, []. cbn. rewrite !app_nil_r.
    destruct progress_bar; rewrite ?app_nil_r; repeat split; lia.
  - destruct (step_conforming total_batches batch_idx i results w Hbar
                (Hentry _)) as (mid & w1 & data & Hstep & Hlog & Hlen & Hprog & Hdiag).
    { intros p. specialize (Hconf 0%nat (batch_idx, i) p eq_refl).
      rewrite Nat.add_0_r in Hconf. exact Hconf. }
    destruct (IH mid w1 Hbar Hentry)
      as (out & w' & answers & Hloop & Hlog' & Hlen' & Hout & Hprog' & Hdiag').
    { intros j it p Hnth.
      specialize (Hconf (S j) it p Hnth).
      apply (f_equal (@List.length _)) in Hlog.
      rewrite length_app, !length_map in Hlog. cbn [List.length] in Hlog.
      rewrite Hlog.
      replace (List.length (http_log w) + 1 + j)%nat
        with (List.length (http_log w) + S j)%nat by lia.
      exact Hconf. }
    exists out, w', (data :: answers).
    split; [|split; [|split; [|split; [|split]]]].
    + cbn [batches_loop]. unfold bind. rewrite Hstep. exact Hloop.
    + rewrite Hlog', Hlog, <- app_assoc. reflexivity.
    + cbn [List.length]. lia.
    + rewrite Hout, Hlen. unfold contributed, list_sum.
      cbn [map combine fold_right fst snd]. lia.
    + rewrite Hprog', Hprog, <- app_assoc. f_equal.
      destruct progress_bar; [|reflexivity].
      unfold reported. cbn [map combine flat_map fst snd andb]. reflexivity.
    + rewrite Hdiag', Hdiag, <- app_assoc. f_equal.
Qed.

(** What an iteration does to the clock and to the log, whatever the answer:
    either the resolver raised and nothing was sent, or exactly one request
    was sent, carrying the entry resolved at this iteration. *)
Lemma step_requests total_batches batch_idx i results w :
  let rw := step total_batches batch_idx i results w in
  clock_reads (snd rw)
  = (clock_reads w + reads_per_batch departure_hour departure_date)%nat
  /\ ((is_ok (fst rw) = false /\ http_log (snd rw) = http_log w)
      \/ exists t,
           entry (clock (clock_reads w)) = Ok t
           /\ http_log (snd rw)
              = http_log w
                ++ [(request (slice students i (i + batch_size)) t,
                     endpoint (List.length (http_log w))
                       (request (slice students i (i + batch_size)) t))]).
Proof.
  cbv zeta. rewrite process_batch_eq. cbv zeta.
  destruct (resolved_frame w) as (Hlog & _ & _).
  pose proof (resolved_reads w) as Hreads.
  destruct (entry (clock (clock_reads w))) as [t|e].
  - split; [|right; exists t; split; [reflexivity|]].
    + destruct (status_ok _); [|exact Hreads].
      destruct (rows_loop _ _ _); [|exact Hreads].
      destruct progress_bar; [|exact Hreads].
      destruct total_batches; exact Hreads.
    + destruct (status_ok _); [|cbn; rewrite Hlog; reflexivity].
      destruct (rows_loop _ _ _); [|cbn; rewrite Hlog; reflexivity].
      destruct progress_bar; [|cbn; rewrite Hlog; reflexivity].
      destruct total_batches; cbn; rewrite Hlog; reflexivity.
  - split; [exact Hreads|left; split; [reflexivity|exact Hlog]].
Qed.

Lemma loop_requests total_batches : forall its results w,
  let rw := loop total_batches its results w in
  exists new,
    http_log (snd rw) = http_log w ++ new
    /\ (List.length new <= List.length its)%nat
    /\ (is_ok (fst rw) = true ->
        List.length new = List.length its
        /\ clock_reads (snd rw)
           = (clock_reads w
              + List.length its
                * reads_per_batch departure_hour departure_date)%nat)
    /\ forall j p a, nth_error new j = Some (p, a) ->
         exists it,
           nth_error its j = Some it
           /\ entry (clock (clock_reads w
                            + j * reads_per_batch departure_hour
                                    departure_date))
              = Ok (departure_time p)
           /\ p = request (slice students (snd it) (snd it + batch_size))
                          (departure_time p)
           /\ a = endpoint (List.length (http_log w) + j) p.
Proof.
  induction its as [|[batch_idx i] rest IH]; intros results w; cbv zeta.
  - exists []. cbn. rewrite app_nil_r. repeat split; try lia.
    intros [|j] p a; discriminate.
  - cbn [batches_loop]. unfold bind.
    pose proof (step_requests total_batches batch_idx i results w) as Hstep.
    cbv zeta in Hstep.
    destruct (step total_batches batch_idx i results w) as [[mid|e] w1];
      cbn [fst snd] in *; destruct Hstep as [Hreads Hsent].
    + destruct Hsent as [[Hbad _]|(t & Ht & Hlog)]; [discriminate|].
      specialize (IH mid w1). cbv zeta in IH.
      destruct IH as (new & Hnew & Hle & Hok & Hnth).
      eexists (_ :: new). split; [|split; [|split]].
      * rewrite Hnew, Hlog, <- app_assoc. reflexivity.
      * cbn [List.length]. lia.
      * intros Hr. specialize (Hok Hr) as [Hlen Hclock].
        cbn [List.length]. split; [lia|]. rewrite Hclock, Hreads. lia.
      * intros [|j] p a Hj.
        -- injection Hj as <- <-. exists (batch_idx, i).
           cbn [nth_error snd departure_time]. rewrite !Nat.add_0_r.
           repeat split. exact Ht.
        -- cbn [nth_error] in Hj.
           destruct (Hnth j p a Hj) as (it & Hit & Hentry & Hp & Ha).
           exists it. cbn [nth_error]. split; [exact Hit|].
           split; [|split; [exact Hp|]].
           ++ rewrite <- Hentry, Hreads. do 2 f_equal. lia.
           ++ rewrite Ha, Hlog, length_app. cbn [List.length]. f_equal. lia.
    + destruct Hsent as [[_ Hlog]|(t & Ht & Hlog)].
      * exists []. rewrite app_nil_r. repeat split; try (cbn; lia); auto.
        -- discriminate.
        -- discriminate.
        -- intros [|j] p a; discriminate.
      * eexists [_]. split; [exact Hlog|]. split; [cbn; lia|].
        split; [discriminate|].
        intros [|[|j]] p a Hj; try discriminate.
        injection Hj as <- <-. exists (batch_idx, i).
        cbn [nth_error snd departure_time]. rewrite !Nat.add_0_r.
        repeat split. exact Ht.
Qed.

(** With an endpoint that ignores the request number, two runs of the loop
    whose batches resolve the same departure entries have the same outcome,
    whatever the worlds they start from. *)
Lemma loop_same_entries total_batches :
  (forall k k' p, endpoint k p = endpoint k' p) ->
  forall its results w1 w2,
    (forall j, (j < List.length its)%nat ->
       entry (clock (clock_reads w1
                     + j * reads_per_batch departure_hour departure_date))
       = entry (clock (clock_reads w2
                       + j * reads_per_batch departure_hour departure_date))) ->
    fst (loop total_batches its results w1)
    = fst (loop total_batches its results w2).
Proof.
  intros Hdet.
  induction its as [|[batch_idx i] rest IH]; intros results w1 w2 Hsame;
    [reflexivity|].
  cbn [batches_loop]. unfold bind.
  pose proof (step_requests total_batches batch_idx i results w1) as [Hr1 _].
  pose proof (step_requests total_batches batch_idx i results w2) as [Hr2 _].
  cbv zeta in Hr1, Hr2. revert Hr1 Hr2.
  rewrite !process_batch_eq. cbv zeta.
  pose proof (Hsame 0%nat ltac:(cbn; lia)) as H0.
  rewrite !Nat.add_0_r in H0. rewrite <- H0.
  destruct (entry (clock (clock_reads w1))) as [t|e]; [|reflexivity].
  rewrite (Hdet (List.length (http_log w2)) (List.length (http_log w1))).
  assert (Hnext : forall w1' w2',
            clock_reads w1'
            = (clock_reads w1 + reads_per_batch departure_hour departure_date)%nat ->
            clock_reads w2'
            = (clock_reads w2 + reads_per_batch departure_hour departure_date)%nat ->
            forall results',
              fst (loop total_batches rest results' w1')
              = fst (loop total_batches rest results' w2')).
  { intros w1' w2' H1 H2 results'. apply IH. intros j Hj.
    rewrite H1, H2. specialize (Hsame (S j) ltac:(cbn; lia)).
    rewrite <- !Nat.add_assoc. exact Hsame. }
  destruct (status_ok _); [|cbn [snd]; intros; apply Hnext; assumption].
  destruct (rows_loop _ _ _); [|reflexivity].
  destruct progress_bar; [|cbn [snd]; intros; apply Hnext; assumption].
  destruct total_batches; [reflexivity|].
  cbn [snd]; intros; apply Hnext; assumption.
Qed.

Lemma entry_clock_free :
  reads_per_batch departure_hour departure_date = 0%nat ->
  forall now now', entry now = entry now'.
Proof.
  unfold reads_per_batch, departure_entry. intros H now now'.
  destruct departure_hour as [h|]; [|reflexivity].
  destruct (truthy departure_date) eqn:Hd; [|discriminate].
  rewrite (resolve_dated local_to_epoch h departure_minute departure_date
             now now' Hd).
  reflexivity.
Qed.

End BatchFacts.

(** ** Positional matching in the element loop *)

Lemma step_ok_silent clock local_to_epoch endpoint students school_address
    api_key mode departure_hour departure_minute departure_date progress_bar
    total_batches batch_idx i results w params data :
  let rw := process_batch clock local_to_epoch endpoint students
              school_address api_key mode departure_hour departure_minute
              departure_date progress_bar total_batches batch_idx i results w in
  http_log (snd rw) = http_log w ++ [(params, data)] ->
  status_ok data = true ->
  diagnostics (snd rw) = diagnostics w.
Proof.
  cbv zeta. rewrite process_batch_eq. cbv zeta.
  destruct (resolved_frame departure_hour departure_date w) as (Hlog & Hdiag & _).
  destruct (departure_entry _ _ _ _ _) as [t|e]; cbn [snd].
  - set (p := mkParams _ _ _ _ _ _).
    set (d := endpoint _ p).
    destruct (status_ok d) eqn:Hd.
    + destruct (rows_loop _ _ _); [|intros; exact Hdiag].
      destruct progress_bar; [|intros; exact Hdiag].
      destruct total_batches; intros; exact Hdiag.
    + cbn [snd http_log log_diagnostic log_request]. rewrite Hlog.
      intros Hsent Hok. apply app_inv_head in Hsent.
      injection Hsent as _ Hdata. congruence.
  - rewrite Hlog. intros Habs.
    apply (f_equal (@List.length _)) in Habs.
    rewrite length_app in Habs. cbn in Habs. lia.
Qed.

(** C10. Inside an "OK" batch the matching is positional and reads element 0
    only: cutting every row down to its element 0 changes nothing; the loop
    returns exactly when the response has at most as many rows as the batch
    has students and every row is decodable, so more rows than students make
    it raise; and when it returns, row j is built from student j and element
    0 of response row j, so with fewer rows than students the trailing
    students get no row. An iteration whose answer is "OK" records no
    diagnostic. *)
Theorem element_loop_positional (batch : list Student) (rows : list Row)
    (results : list ResultRow) :
  rows_loop batch (enumerate (map head_only rows)) results
  = rows_loop batch (enumerate rows) results
  /\ is_ok (rows_loop batch (enumerate rows) results)
     = (List.length rows <=? List.length batch)%nat
       && forallb readable_row rows
  /\ (forall out,
        rows_loop batch (enumerate rows) results = Ok out ->
        exists els,
          map (fun row => hd_error (elements row)) rows = map Some els
          /\ out = results
                   ++ map (fun se => row_for (fst se) (snd se))
                          (combine (firstn (List.length rows) batch) els))
  /\ (forall clock local_to_epoch endpoint students school_address api_key
             mode departure_hour departure_minute departure_date progress_bar
             total_batches batch_idx i w params data,
        let rw := process_batch clock local_to_epoch endpoint students
                    school_address api_key mode departure_hour
                    departure_minute departure_date progress_bar
                    total_batches batch_idx i results w in
        http_log (snd rw) = http_log w ++ [(params, data)] ->
        status_ok data = true ->
        diagnostics (snd rw) = diagnostics w).
Proof.
  split; [|split; [|split]].
  - unfold enumerate. apply rows_loop_head_only.
  - unfold enumerate. rewrite rows_loop_ok.
    destruct rows; [reflexivity|]. rewrite Nat.add_0_l. reflexivity.
  - unfold enumerate. intros out Hout.
    apply rows_loop_result in Hout. exact Hout.
  - intros. eapply step_ok_silent; eassumption.
Qed.

(** Two students, one answered row: the second student gets no row. *)
Lemma element_loop_positional_witness :
  exists els,
    map (fun row => hd_error (elements row))
        [{| elements := [Examples.ok_element 120;
                         Examples.failed_element "IGNORED"] |}]
    = map Some els
    /\ [row_for (Examples.student "kim") (Examples.ok_element 120)]
       = [] ++ map (fun se => row_for (fst se) (snd se))
                   (combine (firstn 1 [Examples.student "kim";
                                       Examples.student "lee"]) els).
Proof.
  destruct (element_loop_positional
              [Examples.student "kim"; Examples.student "lee"]
              [{| elements := [Examples.ok_element 120;
                               Examples.failed_element "IGNORED"] |}] [])
    as (_ & _ & Hpos & _).
  exact (Hpos _ eq_refl).
Defined.

(** ** Refused batches *)

(** C4. When the answer to a batch has a status other than "OK", the
    iteration records the diagnostic "API 오류: <status> - <message>" (the
    message is empty when the answer has none), leaves the result rows as they
    were, raises nothing, and the loop goes on with the remaining batches. *)
Theorem refused_batch_skipped clock local_to_epoch endpoint students
    school_address api_key mode departure_hour departure_minute departure_date
    progress_bar total_batches batch_idx i rest results w t :
  let batch := slice students i (i + batch_size) in
  let params :=
    mkParams (String.concat "|" (map 주소 batch)) school_address mode "ko"
             api_key t in
  let data := endpoint (List.length (http_log w)) params in
  let message :=
    ("API 오류: " ++ resp_status data ++ " - "
     ++ match resp_error_message data with Some m => m | None => "" end)%string in
  let w' :=
    log_diagnostic message
      (log_request params data (after_resolver departure_hour departure_date w)) in
  departure_entry local_to_epoch departure_hour departure_minute
    departure_date (clock (clock_reads w)) = Ok t ->
  resp_status data <> "OK" ->
  process_batch clock local_to_epoch endpoint students school_address api_key
    mode departure_hour departure_minute departure_date progress_bar
    total_batches batch_idx i results w
  = (Ok results, w')
  /\ diagnostics w' = diagnostics w ++ [message]
  /\ batches_loop clock local_to_epoch endpoint students school_address
       api_key mode departure_hour departure_minute departure_date
       progress_bar total_batches ((batch_idx, i) :: rest) results w
     = batches_loop clock local_to_epoch endpoint students school_address
         api_key mode departure_hour departure_minute departure_date
         progress_bar total_batches rest results w'.
Proof.
  intros batch params data message w' Hentry Hstatus.
  assert (Hstep :
    process_batch clock local_to_epoch endpoint students school_address
      api_key mode departure_hour departure_minute departure_date
      progress_bar total_batches batch_idx i results w
    = (Ok results, w')).
  { rewrite process_batch_eq. cbv zeta. rewrite Hentry.
    fold batch. fold params. fold data.
    unfold status_ok. apply String.eqb_neq in Hstatus. rewrite Hstatus.
    reflexivity. }
  split; [exact Hstep|split].
  - unfold w'. cbn [diagnostics log_diagnostic log_request].
    destruct (resolved_frame departure_hour departure_date w)
      as (_ & -> & _).
    reflexivity.
  - cbn [batches_loop]. unfold bind. rewrite Hstep. reflexivity.
Qed.

Lemma refused_batch_skipped_witness :
  let run :=
    process_batch (fun _ => Examples.at_2024_01_01 7 0 0) Examples.utc_epoch
      (Examples.refuse_first 1) [Examples.student "kim"] "school" "secret"
      "transit" None 0 None true 1 0 0 [] initial_world in
  fst run = Ok []
  /\ diagnostics (snd run)
     = ["API 오류: REQUEST_DENIED - The provided API key is invalid."].
Proof.
  destruct (refused_batch_skipped
              (fun _ => Examples.at_2024_01_01 7 0 0) Examples.utc_epoch
              (Examples.refuse_first 1) [Examples.student "kim"] "school"
              "secret" "transit" None 0 None true 1 0 0 [] [] initial_world
              None eq_refl ltac:(discriminate))
    as (Hstep & Hdiag & _).
  cbv zeta. rewrite Hstep. split; [reflexivity|exact Hdiag].
Defined.

(** ** Progress reports *)

(** The reported fractions lie in (0, 1], grow with the batch index and reach
    1 at the last batch. *)
Lemma fraction_bounds k total :
  (0 < k <= total)%nat ->
  (0 < fraction k total)%Q /\ (fraction k total <= 1)%Q.
Proof.
  intros Hk. unfold fraction, Qlt, Qle. cbn [Qnum Qden].
  assert (Hden : Z.pos (Pos.of_nat total) = Z.of_nat total).
  { rewrite <- positive_nat_Z, Nat2Pos.id by lia. reflexivity. }
  rewrite Hden. lia.
Qed.

Lemma fraction_increasing k k' total :
  (k < k')%nat -> (0 < total)%nat ->
  (fraction k total < fraction k' total)%Q.
Proof.
  intros Hk Ht. unfold fraction, Qlt. cbn [Qnum Qden].
  apply Z.mul_lt_mono_pos_r; lia.
Qed.

Lemma fraction_complete total :
  (0 < total)%nat -> (fraction total total == 1)%Q.
Proof.
  intros Ht. unfold fraction, Qeq. cbn [Qnum Qden].
  assert (Hden : Z.pos (Pos.of_nat total) = Z.of_nat total).
  { rewrite <- positive_nat_Z, Nat2Pos.id by lia. reflexivity. }
  rewrite Hden. lia.
Qed.

(** When every answer is "OK" there is one report per batch. *)
Lemma reported_all_ok total_batches : forall idxs answers,
  List.length idxs = List.length answers ->
  Forall (fun a => status_ok a = true) answers ->
  reported total_batches idxs answers
  = map (fun k => fraction (k + 1) total_batches) idxs.
Proof.
  unfold reported.
  induction idxs as [|k idxs IH]; intros [|a answers] Hlen Hall;
    try discriminate; [reflexivity|].
  injection Hlen as Hlen. inversion Hall as [|? ? Ha Hall']; subst.
  cbn [combine flat_map map fst snd]. rewrite Ha. cbn [app].
  f_equal. apply IH; assumption.
Qed.

(** C2 does not hold of the code. One student, one batch, the answer is a
    refusal and a progress bar is supplied: the run returns an empty table
    after one request and the progress bar is never called, because the
    [continue] of the refusal path skips the call at the end of the
    iteration. *)
Theorem progress_skipped_on_refused_batch :
  let run :=
    calculate_commute_times (fun _ => Examples.at_2024_01_01 7 0 0)
      Examples.utc_epoch (fun _ _ => Examples.denied_response)
      [Examples.student "kim"] "school" "secret" "transit" None 0 None true
      initial_world in
  fst run = Ok []
  /\ List.length (http_log (snd run)) = 1%nat
  /\ progress_calls (snd run) = [].
Proof. vm_compute. repeat split. Qed.

(** ** Counting the rows of a run *)

Lemma contributed_le : forall sizes answers,
  (contributed sizes answers <= list_sum sizes)%nat.
Proof.
  unfold contributed, list_sum.
  induction sizes as [|n sizes IH]; intros [|a answers];
    cbn [combine map fold_right fst snd]; try lia.
  specialize (IH answers). destruct (status_ok a); lia.
Qed.

Lemma contributed_all : forall sizes answers,
  List.length answers = List.length sizes ->
  Forall (fun n => 0 < n)%nat sizes ->
  contributed sizes answers = list_sum sizes
  <-> Forall (fun a => status_ok a = true) answers.
Proof.
  unfold contributed, list_sum.
  induction sizes as [|n sizes IH]; intros [|a answers] Hlen Hpos;
    try discriminate.
  - split; constructor.
  - injection Hlen as Hlen. inversion Hpos as [|? ? Hn Hpos']; subst.
    specialize (IH answers Hlen Hpos').
    pose proof (contributed_le sizes answers) as Hle.
    unfold contributed, list_sum in Hle.
    cbn [combine map fold_right fst snd]. split.
    + intros Heq. destruct (status_ok a) eqn:Ha; [|lia].
      constructor; [exact Ha|]. apply IH. lia.
    + intros Hall. inversion Hall as [|? ? Ha Hall']; subst.
      rewrite Ha. apply IH in Hall'. lia.
Qed.

Lemma chunk_sizes_positive n : Forall (fun s => 0 < s)%nat (chunk_sizes n).
Proof.
  unfold chunk_sizes. apply Forall_app. split.
  - apply Forall_forall. intros s Hs. apply repeat_spec in Hs.
    subst. unfold batch_size. lia.
  - destruct (Nat.eqb_spec (n mod batch_size) 0); constructor;
      [lia|constructor].
Qed.

Lemma enumerate_snd {A} (l : list A) : map snd (enumerate l) = l.
Proof.
  unfold enumerate. generalize 0%nat.
  induction l as [|a l IH]; intros s; [reflexivity|].
  cbn [List.length seq combine map snd]. f_equal. apply IH.
Qed.

Lemma enumerate_fst {A} (l : list A) :
  map fst (enumerate l) = seq 0 (List.length l).
Proof.
  unfold enumerate. generalize 0%nat.
  induction l as [|a l IH]; intros s; [reflexivity|].
  cbn [List.length seq combine map fst]. f_equal. apply IH.
Qed.

Lemma enumerate_length {A} (l : list A) :
  List.length (enumerate l) = List.length l.
Proof. rewrite <- (length_map snd), enumerate_snd. reflexivity. Qed.

Lemma range_length n :
  List.length (range 0 n batch_size) = total_batches_of n.
Proof.
  unfold range. rewrite range_from_arith by lia.
  rewrite length_map, length_seq. unfold total_batches_of.
  rewrite Nat.sub_0_r. reflexivity.
Qed.

Lemma batches_length (students : list Student) :
  List.length (batches students) = total_batches_of (List.length students).
Proof. unfold batches. rewrite length_map. apply range_length. Qed.

Lemma exchanged_answers before after answers :
  map snd (http_log after) = map snd (http_log before) ++ answers ->
  map snd (exchanged before after) = answers.
Proof.
  unfold exchanged. intros H. rewrite <- skipn_map, H.
  rewrite <- (length_map snd (http_log before)).
  rewrite skipn_app, skipn_all, Nat.sub_diag. reflexivity.
Qed.

(** The whole run when every answer conforms and the resolver never raises:
    it returns a table, one request is sent per batch, refused batches give a
    diagnostic and no row, accepted ones give a row per student and a progress
    report. *)
Lemma run_conforming clock local_to_epoch endpoint students school_address
    api_key mode departure_hour departure_minute departure_date progress_bar w :
  (forall k, is_ok (departure_entry local_to_epoch departure_hour
                      departure_minute departure_date (clock k)) = true) ->
  (forall k batch p,
     nth_error (batches students) k = Some batch ->
     conforms batch (endpoint (List.length (http_log w) + k)%nat p) = true) ->
  exists table w',
    calculate_commute_times clock local_to_epoch endpoint students
      school_address api_key mode departure_hour departure_minute
      departure_date progress_bar w = (Ok table, w')
    /\ List.length (exchanged w w') = List.length (batches students)
    /\ List.length table
       = contributed (map (@List.length Student) (batches students))
                     (map snd (exchanged w w'))
    /\ progress_calls w'
       = progress_calls w
         ++ (if progress_bar
             then reported (total_batches_of (List.length students))
                    (seq 0 (List.length (batches students)))
                    (map snd (exchanged w w'))
             else [])
    /\ diagnostics w'
       = diagnostics w ++ diagnosed (map snd (exchanged w w')).
Proof.
  intros Hentry Hconf. unfold calculate_commute_times.
  fold (total_batches_of (List.length students)).
  set (r := range 0 (List.length students) batch_size).
  assert (Hbatches : batches students
                     = map (fun it => slice students (snd it) (snd it + batch_size))
                           (enumerate r)).
  { unfold batches. fold r. rewrite <- (enumerate_snd r) at 1.
    rewrite map_map. reflexivity. }
  destruct (Nat.eq_dec (total_batches_of (List.length students)) 0) as [Hz|Hnz].
  - assert (Hr : r = []).
    { apply length_zero_iff_nil. unfold r. rewrite range_length. exact Hz. }
    rewrite Hbatches, Hr. cbn. exists [], w. unfold exchanged.
    rewrite skipn_all. cbn. rewrite !app_nil_r.
    destruct progress_bar; repeat split; rewrite ?app_nil_r; reflexivity.
  - destruct (loop_conforming clock local_to_epoch endpoint students
                school_address api_key mode departure_hour departure_minute
                departure_date progress_bar
                (total_batches_of (List.length students)) (enumerate r) [] w
                (or_intror Hnz) Hentry)
      as (table & w' & answers & Hrun & Hlog & Hlen & Htable & Hprog & Hdiag).
    { intros j it p Hnth. apply Hconf. rewrite Hbatches.
      rewrite nth_error_map, Hnth. reflexivity. }
    exists table, w'. apply exchanged_answers in Hlog.
    rewrite Hlog. split; [exact Hrun|].
    split; [|split; [|split]].
    + rewrite <- (length_map snd), Hlog, Hlen, Hbatches, length_map.
      reflexivity.
    + rewrite Htable, Hbatches, map_map. reflexivity.
    + rewrite Hprog, Hbatches, length_map, enumerate_length, enumerate_fst.
      reflexivity.
    + exact Hdiag.
Qed.

(** C3. With answers that conform to the contract of the matrix query (one
    decodable row per origin in every "OK" answer) and a departure
    specification that resolves, the run returns a table that is never longer
    than the roster, and it is as long as the roster exactly when every batch
    was answered with status "OK". *)
Theorem table_length clock local_to_epoch endpoint students school_address
    api_key mode departure_hour departure_minute departure_date progress_bar w :
  (forall k, is_ok (departure_entry local_to_epoch departure_hour
                      departure_minute departure_date (clock k)) = true) ->
  (forall k batch p,
     nth_error (batches students) k = Some batch ->
     conforms batch (endpoint (List.length (http_log w) + k)%nat p) = true) ->
  exists table w',
    calculate_commute_times clock local_to_epoch endpoint students
      school_address api_key mode departure_hour departure_minute
      departure_date progress_bar w = (Ok table, w')
    /\ List.length (exchanged w w') = List.length (batches students)
    /\ (List.length table <= List.length students)%nat
    /\ (List.length table = List.length students
        <-> Forall (fun e => status_ok (snd e) = true) (exchanged w w')).
Proof.
  intros Hentry Hconf.
  destruct (run_conforming clock local_to_epoch endpoint students
              school_address api_key mode departure_hour departure_minute
              departure_date progress_bar w Hentry Hconf)
    as (table & w' & Hrun & Hsent & Htable & _ & _).
  exists table, w'. split; [exact Hrun|]. split; [exact Hsent|].
  assert (Hsum : list_sum (map (@List.length Student) (batches students))
                 = List.length students).
  { rewrite <- length_concat, batches_concat. reflexivity. }
  rewrite Htable, <- Hsum. split; [apply contributed_le|].
  rewrite contributed_all.
  - rewrite Forall_map. reflexivity.
  - rewrite !length_map. exact Hsent.
  - rewrite batches_sizes. apply chunk_sizes_positive.
Qed.

(** Twenty-six students, the first batch refused and the second answered. *)
Lemma table_length_witness :
  exists table w',
    calculate_commute_times (fun _ => Examples.at_2024_01_01 7 0 0)
      Examples.utc_epoch (Examples.refuse_first 1)
      (repeat (Examples.student "kim") 26) "school" "secret" "transit"
      None 0 None true initial_world = (Ok table, w')
    /\ List.length (exchanged initial_world w')
       = List.length (batches (repeat (Examples.student "kim") 26))
    /\ (List.length table
        <= List.length (repeat (Examples.student "kim") 26))%nat
    /\ (List.length table = List.length (repeat (Examples.student "kim") 26)
        <-> Forall (fun e => status_ok (snd e) = true)
                   (exchanged initial_world w')).
Proof.
  apply table_length.
  - intros k. reflexivity.
  - intros [|[|k]] batch p H; vm_compute in H.
    + reflexivity.
    + injection H as <-. reflexivity.
    + destruct k; discriminate H.
Defined.

(** ** Where the departure timestamp is resolved *)

Lemma exchanged_app before after new :
  http_log after = http_log before ++ new -> exchanged before after = new.
Proof.
  unfold exchanged. intros ->.
  rewrite skipn_app, skipn_all, Nat.sub_diag. reflexivity.
Qed.

(** C1 as stated fails. Twenty-six students make two batches; with departure
    08:00, no date, and a clock that passes 08:00 between the two batches, the
    two requests carry different departure times (08:00 of 2024-01-01 and of
    2024-01-02) and the clock has been read twice. *)
Lemma departure_resolved_once_counterexample :
  let run :=
    calculate_commute_times Examples.clock_around_eight Examples.utc_epoch
      (Examples.echo_sized [25; 1]%nat) (repeat (Examples.student "kim") 26)
      "school" "secret" "transit" (Some 8) 0 None false initial_world in
  is_ok (fst run) = true
  /\ map (fun e => departure_time (fst e)) (http_log (snd run))
     = [Some 1704096000; Some 1704182400]
  /\ clock_reads (snd run) = 2%nat
  /\ ~ (exists t, Forall (fun e => departure_time (fst e) = Some t)
                         (http_log (snd run))).
Proof.
  cbv zeta. vm_compute. repeat split.
  intros [t Hall]. inversion Hall as [|? ? H1 Hrest]; subst.
  inversion Hrest as [|? ? H2 _]; subst.
  cbn in H1, H2. congruence.
Qed.

(** C1, amended. With a departure hour the resolver is called once per batch,
    right before the batch's request: request j of the run carries the
    timestamp resolved at that call. With a date the resolver never reads the
    clock and its value is the same at every call; without a date it reads
    the clock once per batch, so request j carries the value resolved from the
    j-th clock reading of the run. A run that returns has sent one request per
    batch. *)
Theorem departure_resolved_per_batch clock local_to_epoch endpoint students
    school_address api_key mode hour departure_minute departure_date
    progress_bar w :
  let run :=
    calculate_commute_times clock local_to_epoch endpoint students
      school_address api_key mode (Some hour) departure_minute departure_date
      progress_bar w in
  let per_batch := reads_per_batch (Some hour) departure_date in
  (forall j p a,
     nth_error (exchanged w (snd run)) j = Some (p, a) ->
     exists t,
       departure_time p = Some t
       /\ resolve local_to_epoch hour departure_minute departure_date
            (clock (clock_reads w + j * per_batch)%nat) = Ok t)
  /\ (is_ok (fst run) = true ->
      List.length (exchanged w (snd run)) = List.length (batches students)
      /\ clock_reads (snd run)
         = (clock_reads w + List.length (batches students) * per_batch)%nat)
  /\ (truthy departure_date = true ->
      per_batch = 0%nat
      /\ forall now now',
           resolve local_to_epoch hour departure_minute departure_date now
           = resolve local_to_epoch hour departure_minute departure_date now')
  /\ (truthy departure_date = false -> per_batch = 1%nat).
Proof.
  cbv zeta. unfold calculate_commute_times.
  set (its := enumerate (range 0 (List.length students) batch_size)).
  pose proof (loop_requests clock local_to_epoch endpoint students
                school_address api_key mode (Some hour) departure_minute
                departure_date progress_bar
                ((List.length students + batch_size - 1) / batch_size)%nat
                its [] w) as Hloop.
  cbv zeta in Hloop. destruct Hloop as (new & Hlog & _ & Hok & Hnth).
  rewrite (exchanged_app _ _ _ Hlog).
  assert (Hits : List.length its = List.length (batches students)).
  { unfold its, batches. rewrite enumerate_length, length_map. reflexivity. }
  split; [|split; [|split]].
  - intros j p a Hj. destruct (Hnth j p a Hj) as (it & _ & Hentry & _ & _).
    unfold departure_entry in Hentry.
    destruct (resolve _ _ _ _ _) as [t|e]; [|discriminate].
    injection Hentry as Hentry. exists t. auto.
  - intros Hr. rewrite <- Hits. exact (Hok Hr).
  - intros Hd. unfold reads_per_batch. rewrite Hd. split; [reflexivity|].
    intros now now'. apply resolve_dated. exact Hd.
  - intros Hd. unfold reads_per_batch. rewrite Hd. reflexivity.
Qed.

Lemma departure_resolved_per_batch_witness :
  let run :=
    calculate_commute_times Examples.clock_around_eight Examples.utc_epoch
      (Examples.echo_sized [25; 1]%nat) (repeat (Examples.student "kim") 26)
      "school" "secret" "transit" (Some 8) 0 None false initial_world in
  List.length (exchanged initial_world (snd run))
  = List.length (batches (repeat (Examples.student "kim") 26))
  /\ clock_reads (snd run)
     = (clock_reads initial_world
        + List.length (batches (repeat (Examples.student "kim") 26))
          * reads_per_batch (Some 8%Z) None)%nat.
Proof.
  destruct (departure_resolved_per_batch
              Examples.clock_around_eight Examples.utc_epoch
              (Examples.echo_sized [25; 1]%nat)
              (repeat (Examples.student "kim") 26)
              "school" "secret" "transit" 8 0 None false initial_world)
    as (_ & Hreturned & _).
  apply Hreturned. vm_compute. reflexivity.
Defined.

(** ** Repeated invocations *)

(** C9 as stated fails. The endpoint below answers identical requests
    identically; the same call is made twice in a row, at 07:00 and at 09:00
    of the same day, with departure 08:00 and no date. The first call asks for
    08:00 today, the second for 08:00 tomorrow, and the tables differ. *)
Lemma repeated_invocation_counterexample :
  let call :=
    calculate_commute_times Examples.clock_seven_then_nine Examples.utc_epoch
      (Examples.echo_endpoint 1) [Examples.student "kim"]
      "school" "secret" "transit" (Some 8) 0 None false in
  (forall k k' p, Examples.echo_endpoint 1 k p = Examples.echo_endpoint 1 k' p)
  /\ is_ok (fst (call initial_world)) = true
  /\ is_ok (fst (call (snd (call initial_world)))) = true
  /\ fst (call initial_world) <> fst (call (snd (call initial_world))).
Proof.
  cbv zeta. split; [reflexivity|]. split; [reflexivity|].
  split; [reflexivity|]. vm_compute. discriminate.
Qed.

(** C9, amended. With an endpoint that answers identical requests
    identically, two invocations with identical arguments return the same
    table (or raise the same exception) whenever their batches resolve the
    same departure entries, batch j resolving its entry from the clock reading
    it meets. This is the case from any two worlds when no departure hour is
    given or a date is given, since the clock is then never read, and it is
    the case without a date when both invocations meet the same clock
    readings. *)
Theorem repeated_invocation_same_table clock local_to_epoch endpoint students
    school_address api_key mode departure_hour departure_minute departure_date
    progress_bar w1 w2 :
  let call :=
    calculate_commute_times clock local_to_epoch endpoint students
      school_address api_key mode departure_hour departure_minute
      departure_date progress_bar in
  let per_batch := reads_per_batch departure_hour departure_date in
  let entry w j :=
    departure_entry local_to_epoch departure_hour departure_minute
      departure_date (clock (clock_reads w + j * per_batch)%nat) in
  (forall k k' p, endpoint k p = endpoint k' p) ->
  ((forall j, (j < List.length (batches students))%nat ->
      entry w1 j = entry w2 j) ->
   fst (call w1) = fst (call w2))
  /\ (per_batch = 0%nat -> forall j, entry w1 j = entry w2 j)
  /\ ((forall j,
         clock (clock_reads w1 + j)%nat = clock (clock_reads w2 + j)%nat) ->
      forall j, entry w1 j = entry w2 j).
Proof.
  cbv zeta. intros Hdet. split; [|split].
  - intros Hsame. unfold calculate_commute_times.
    apply loop_same_entries; [exact Hdet|].
    intros j Hj. apply Hsame.
    unfold batches. rewrite length_map.
    rewrite enumerate_length in Hj. exact Hj.
  - intros Hfree j. apply entry_clock_free. exact Hfree.
  - intros Hclock j. rewrite Hclock. reflexivity.
Qed.

(** One student and departure 08:00 without a date; the first call is made
    at 07:00 and the second at 07:30, in the world the first one left: both
    resolve 08:00 of the same day and return the same table. *)
Lemma repeated_invocation_same_table_witness :
  let call :=
    calculate_commute_times Examples.clock_seven_then_half_past
      Examples.utc_epoch (Examples.echo_endpoint 1) [Examples.student "kim"]
      "school" "secret" "transit" (Some 8) 0 None true in
  clock_reads (snd (call initial_world)) = 1%nat
  /\ fst (call initial_world) = fst (call (snd (call initial_world))).
Proof.
  cbv zeta. split; [reflexivity|].
  apply (repeated_invocation_same_table
           Examples.clock_seven_then_half_past Examples.utc_epoch
           (Examples.echo_endpoint 1) [Examples.student "kim"]
           "school" "secret" "transit" (Some 8) 0 None true).
  - reflexivity.
  - intros [|j] Hj; [reflexivity|].
    exfalso. cbn in Hj. lia.
Defined.

(** ** Calendar arithmetic *)

Lemma Forall_range (P : Z -> Prop) (n : Z) :
  Forall P (map Z.of_nat (seq 0 (Z.to_nat n))) ->
  forall z, 0 <= z < n -> P z.
Proof.
  intros Hall z Hz. rewrite Forall_forall in Hall. apply Hall.
  apply in_map_iff. exists (Z.to_nat z). split; [lia|].
  apply in_seq. lia.
Qed.

Lemma all_from_spec (P : Z -> bool) : forall fuel z,
  all_from fuel P z = true ->
  forall k, z <= k < z + Z.of_nat fuel -> P k = true.
Proof.
  induction fuel as [|fuel IH]; intros z Hall k Hk; [lia|].
  cbn [all_from] in Hall. apply andb_true_iff in Hall as [Hz Hrest].
  destruct (Z.eq_dec k z) as [->|Hne]; [exact Hz|].
  apply (IH (z + 1) Hrest). lia.
Qed.

Lemma forallb_range (P : Z -> bool) (n : Z) :
  all_from (Z.to_nat n) P 0 = true ->
  forall z, 0 <= z < n -> P z = true.
Proof.
  intros Hall z Hz. apply (all_from_spec P (Z.to_nat n) 0 Hall). lia.
Qed.

Module DatetimeFacts.
Import Datetime.

(** A year written by its place in the 400-, 100-, 4- and 1-year cycles. *)
Lemma days_before_year_cycles q a b c :
  0 <= a <= 3 -> 0 <= b <= 24 -> 0 <= c <= 3 ->
  days_before_year (400 * q + 100 * a + 4 * b + c + 1)
  = DI400Y * q + DI100Y * a + DI4Y * b + 365 * c.
Proof.
  intros Ha Hb Hc. unfold days_before_year, DI400Y, DI100Y, DI4Y. cbv zeta.
  replace (400 * q + 100 * a + 4 * b + c + 1 - 1)
    with (400 * q + 100 * a + 4 * b + c) by lia.
  assert (H4 : (400 * q + 100 * a + 4 * b + c) / 4 = 100 * q + 25 * a + b)
    by (Z.div_mod_to_equations; lia).
  assert (H100 : (400 * q + 100 * a + 4 * b + c) / 100 = 4 * q + a)
    by (Z.div_mod_to_equations; lia).
  assert (H400 : (400 * q + 100 * a + 4 * b + c) / 400 = q)
    by (Z.div_mod_to_equations; lia).
  rewrite H4, H100, H400. lia.
Qed.

Lemma is_leap_cycles q a b c :
  0 <= a <= 3 -> 0 <= b <= 24 -> 0 <= c <= 3 ->
  is_leap (400 * q + 100 * a + 4 * b + c + 1)
  = (c =? 3) && (negb (b =? 24) || (a =? 3)).
Proof.
  intros Ha Hb Hc. unfold is_leap.
  set (y := 400 * q + 100 * a + 4 * b + c + 1).
  assert (H4 : y mod 4 = (c + 1) mod 4)
    by (unfold y; Z.div_mod_to_equations; lia).
  assert (H100 : y mod 100 = (4 * b + c + 1) mod 100)
    by (unfold y; Z.div_mod_to_equations; lia).
  assert (H400 : y mod 400 = (100 * a + 4 * b + c + 1) mod 400)
    by (unfold y; Z.div_mod_to_equations; lia).
  rewrite H4, H100, H400.
  destruct (Z.eqb_spec c 3) as [->|Hc3].
  - cbn [andb].
    destruct (Z.eqb_spec b 24) as [->|Hb24].
    + cbn [negb orb].
      destruct (Z.eqb_spec a 3) as [->|Ha3]; [reflexivity|].
      assert (a = 0 \/ a = 1 \/ a = 2) as [->|[->| ->]] by lia; reflexivity.
    + replace ((4 * b + 3 + 1) mod 100 =? 0) with false; [reflexivity|].
      symmetry. apply Z.eqb_neq. Z.div_mod_to_equations. lia.
  - replace ((c + 1) mod 4 =? 0) with false; [reflexivity|].
    symmetry. apply Z.eqb_neq. Z.div_mod_to_equations. lia.
Qed.

Lemma month_day_spec leapyear n :
  0 <= n <= 364 -> month_day_ok leapyear n = true.
Proof.
  intros Hn. revert n Hn.
  assert (H : forall n, 0 <= n < 365 -> month_day_ok leapyear n = true).
  { apply forallb_range. destruct leapyear; vm_compute; reflexivity. }
  intros n Hn. apply H. lia.
Qed.
Lemma ord2ymd_month_day n :
  ord2ymd n
  = let r0 := n - 1 in
    let q := r0 / DI400Y in
    let r1 := r0 mod DI400Y in
    let a := r1 / DI100Y in
    let r2 := r1 mod DI100Y in
    let b := r2 / DI4Y in
    let r3 := r2 mod DI4Y in
    let c := r3 / 365 in
    let r4 := r3 mod 365 in
    let year := q * 400 + 1 + a * 100 + b * 4 + c in
    if (c =? 4) || (a =? 4) then (year - 1, 12, 31)
    else
      let md := month_day r4 ((c =? 3) && (negb (b =? 24) || (a =? 3))) in
      (year, fst md, snd md).
Proof.
  unfold ord2ymd, month_day. cbv zeta.
  destruct (_ || _); [reflexivity|].
  destruct (_ <? _); reflexivity.
Qed.

Lemma ord2ymd_spec n :
  1 <= n ->
  let ymd := ord2ymd n in
  let y := fst (fst ymd) in
  let m := snd (fst ymd) in
  let d := snd ymd in
  ymd2ord y m d = n
  /\ 1 <= m <= 12 /\ 1 <= d <= days_in_month y m
  /\ 1 <= y /\ (n <= MAXORDINAL -> y <= MAXYEAR).
Proof.
  intros Hn. cbv zeta. rewrite ord2ymd_month_day. cbv zeta.
  remember (n - 1) as r0 eqn:Hn1.
  set (q := r0 / DI400Y). set (r1 := r0 mod DI400Y).
  set (a := r1 / DI100Y). set (r2 := r1 mod DI100Y).
  set (b := r2 / DI4Y). set (r3 := r2 mod DI4Y).
  set (c := r3 / 365). set (r4 := r3 mod 365).
  assert (E0 : r0 = DI400Y * q + r1 /\ 0 <= r1 < DI400Y).
  { unfold q, r1, DI400Y. split; [apply Z.div_mod; lia|].
    apply Z.mod_pos_bound. lia. }
  assert (E1 : r1 = DI100Y * a + r2 /\ 0 <= r2 < DI100Y).
  { unfold a, r2, DI100Y. split; [apply Z.div_mod; lia|].
    apply Z.mod_pos_bound. lia. }
  assert (E2 : r2 = DI4Y * b + r3 /\ 0 <= r3 < DI4Y).
  { unfold b, r3, DI4Y. split; [apply Z.div_mod; lia|].
    apply Z.mod_pos_bound. lia. }
  assert (E3 : r3 = 365 * c + r4 /\ 0 <= r4 < 365).
  { unfold c, r4. split; [apply Z.div_mod; lia|].
    apply Z.mod_pos_bound. lia. }
  clearbody q r1 a r2 b r3 c r4. unfold DI400Y, DI100Y, DI4Y in *.
  destruct E0 as [E0 B0], E1 as [E1 B1], E2 as [E2 B2], E3 as [E3 B3].
  assert (Ha : 0 <= a <= 4) by lia.
  assert (Hb : 0 <= b <= 24) by lia.
  assert (Hc : 0 <= c <= 4) by lia.
  destruct ((c =? 4) || (a =? 4)) eqn:Hspecial.
  - cbn [fst snd].
    assert (Hyear : exists a' b',
               0 <= a' <= 3 /\ 0 <= b' <= 24
               /\ (negb (b' =? 24) || (a' =? 3)) = true
               /\ q * 400 + 1 + a * 100 + b * 4 + c - 1
                  = 400 * q + 100 * a' + 4 * b' + 3 + 1
               /\ r0 = 146097 * q + 36524 * a' + 1461 * b' + 365 * 3 + 365).
    { apply orb_true_iff in Hspecial as [Hc4|Ha4].
      - apply Z.eqb_eq in Hc4. exists a, b.
        assert (b <> 24) by lia. assert (a <= 3) by lia.
        assert (Hnot : (negb (b =? 24) || (a =? 3)) = true).
        { apply orb_true_iff. left. apply negb_true_iff.
          apply Z.eqb_neq. assumption. }
        repeat split; try lia; exact Hnot.
      - apply Z.eqb_eq in Ha4. exists 3, 24. repeat split; lia. }
    destruct Hyear as (a' & b' & Ha' & Hb' & Hleap & -> & Hr0).
    unfold ymd2ord, days_before_month, days_in_month.
    rewrite days_before_year_cycles, is_leap_cycles by lia.
    rewrite Hleap.
    change (2 <? 12) with true. change (12 =? 2) with false.
    change (3 =? 3) with true.
    change (DAYS_BEFORE_MONTH 12) with 334. change (DAYS_IN_MONTH 12) with 31.
    cbn [andb]. unfold DI400Y, DI100Y, DI4Y, MAXORDINAL, MAXYEAR.
    assert (0 <= q) by lia.
    repeat split; try lia.
  - cbn [fst snd]. apply orb_false_iff in Hspecial as [Hc4 Ha4].
    apply Z.eqb_neq in Hc4, Ha4.
    replace (q * 400 + 1 + a * 100 + b * 4 + c)
      with (400 * q + 100 * a + 4 * b + c + 1) by lia.
    pose proof (month_day_spec ((c =? 3) && (negb (b =? 24) || (a =? 3))) r4
                  ltac:(lia)) as Hmd.
    unfold month_day_ok in Hmd.
    destruct (month_day r4 _) as [m d]. cbn [fst snd].
    unfold ymd2ord, days_before_month, days_in_month.
    rewrite days_before_year_cycles, is_leap_cycles by lia.
    unfold DI400Y, DI100Y, DI4Y.
    rewrite !andb_true_iff in Hmd.
    destruct Hmd as ((((Hm1 & Hm2) & Hd1) & Hd2) & Hsum).
    apply Z.leb_le in Hm1, Hm2, Hd1, Hd2. apply Z.eqb_eq in Hsum.
    unfold MAXORDINAL, MAXYEAR. assert (0 <= q) by lia.
    split; [lia|]. split; [lia|]. split; [|split; [lia|]].
    2:{ intros Hmax. assert (Hq : q <= 23 \/ q = 24) by lia.
        destruct Hq as [Hq| ->]; [lia|].
        assert (Ha3 : a <= 2 \/ a = 3) by lia.
        destruct Ha3 as [Ha3| ->]; [lia|].
        assert (Hb3 : b <= 23 \/ b = 24) by lia.
        destruct Hb3 as [Hb3| ->]; lia. }
    split; [lia|].
    destruct ((m =? 2) && _) eqn:Hfeb.
    + apply andb_true_iff in Hfeb as [Hm _]. apply Z.eqb_eq in Hm. subst m.
      change (DAYS_IN_MONTH 2) with 28 in Hd2. lia.
    + lia.
Qed.

End DatetimeFacts.

(** ** Formatting and parsing the text handed to [strptime] *)

Module TextFacts.
Import Text.

Lemma append_assoc (a b c : string) : ((a ++ b) ++ c = a ++ (b ++ c))%string.
Proof. induction a as [|x a IH]; cbn; [reflexivity|]. rewrite IH. reflexivity. Qed.

Lemma append_nil_r (a : string) : (a ++ "")%string = a.
Proof. induction a as [|x a IH]; cbn; [reflexivity|]. rewrite IH. reflexivity. Qed.

Lemma format_04d y :
  0 <= y <= 9999 ->
  format_0d 4 y
  = String (digit_char (y / 1000)) (String (digit_char (y / 100 mod 10))
      (String (digit_char (y / 10 mod 10)) (String (digit_char (y mod 10)) ""))).
Proof.
  intros Hy. apply String.eqb_eq. revert y Hy.
  assert (H : forall y, 0 <= y < 10000 ->
            (format_0d 4 y
             =? String (digit_char (y / 1000))
                  (String (digit_char (y / 100 mod 10))
                     (String (digit_char (y / 10 mod 10))
                        (String (digit_char (y mod 10)) ""))))%string = true).
  { apply forallb_range. vm_compute. reflexivity. }
  intros y Hy. apply H. lia.
Qed.

Lemma digit_round_trip k :
  0 <= k <= 9 -> digit_of_char (digit_char k) = Some k.
Proof.
  intros Hk.
  assert (H : k = 0 \/ k = 1 \/ k = 2 \/ k = 3 \/ k = 4 \/ k = 5 \/ k = 6
              \/ k = 7 \/ k = 8 \/ k = 9) by lia.
  repeat (destruct H as [->|H]; [reflexivity|]). subst. reflexivity.
Qed.

Lemma in_range_true lo v hi :
  lo <= v <= hi -> (lo <=? v) && (v <=? hi) = true.
Proof. intros [H1 H2]. apply andb_true_iff. split; apply Z.leb_le; assumption. Qed.

Lemma p_digit_char lo hi k rest :
  0 <= k <= 9 -> lo <= k <= hi ->
  p_digit lo hi (String (digit_char k) rest) = Some (k, rest).
Proof.
  intros Hk Hr. unfold p_digit.
  rewrite digit_round_trip, in_range_true by assumption. reflexivity.
Qed.

Lemma p_Y_format y rest :
  0 <= y <= 9999 -> p_Y (format_0d 4 y ++ rest)%string = Some (y, rest).
Proof.
  intros Hy. rewrite format_04d by exact Hy. cbn [append].
  assert (H1 : 0 <= y / 1000 <= 9) by (Z.div_mod_to_equations; lia).
  assert (H2 : 0 <= y / 100 mod 10 <= 9) by (Z.div_mod_to_equations; lia).
  assert (H3 : 0 <= y / 10 mod 10 <= 9) by (Z.div_mod_to_equations; lia).
  assert (H4 : 0 <= y mod 10 <= 9) by (Z.div_mod_to_equations; lia).
  unfold p_Y, p_bind, p_ret.
  do 4 (rewrite p_digit_char by assumption; cbv beta iota).
  do 2 f_equal.
  pose proof (Z.div_mod y 10 ltac:(lia)) as E1.
  pose proof (Z.div_mod (y / 10) 10 ltac:(lia)) as E2.
  pose proof (Z.div_mod (y / 100) 10 ltac:(lia)) as E3.
  rewrite (Z.div_div y 10 10) in E2 by lia.
  rewrite (Z.div_div y 100 10) in E3 by lia.
  change (10 * 10) with 100 in E2. change (100 * 10) with 1000 in E3.
  lia.
Qed.

(** The two-digit fields, value by value. *)

Lemma p_m_format rest : forall m,
  1 <= m <= 12 -> p_m (format_0d 2 m ++ rest)%string = Some (m, rest).
Proof.
  intros m Hm.
  assert (H : forall z, 0 <= z < 12 ->
            p_m (format_0d 2 (z + 1) ++ rest)%string = Some (z + 1, rest)).
  { apply (Forall_range _ 12). repeat constructor. }
  replace m with (m - 1 + 1) by lia. apply H. lia.
Qed.

Lemma p_d_format rest : forall d,
  1 <= d <= 31 -> p_d (format_0d 2 d ++ rest)%string = Some (d, rest).
Proof.
  intros d Hd.
  assert (H : forall z, 0 <= z < 31 ->
            p_d (format_0d 2 (z + 1) ++ rest)%string = Some (z + 1, rest)).
  { apply (Forall_range _ 31). repeat constructor. }
  replace d with (d - 1 + 1) by lia. apply H. lia.
Qed.

Lemma p_spaces_H_format rest : forall h,
  0 <= h <= 23 ->
  p_spaces (String " " (format_0d 2 h ++ rest))
  = Some (tt, (format_0d 2 h ++ rest)%string)
  /\ p_H (format_0d 2 h ++ rest)%string = Some (h, rest).
Proof.
  intros h Hh.
  assert (H : forall z, 0 <= z < 24 ->
            p_spaces (String " " (format_0d 2 z ++ rest))
            = Some (tt, (format_0d 2 z ++ rest)%string)
            /\ p_H (format_0d 2 z ++ rest)%string = Some (z, rest)).
  { apply (Forall_range _ 24). repeat constructor. }
  apply H. lia.
Qed.

Lemma p_M_format rest : forall mi,
  0 <= mi <= 59 -> p_M (format_0d 2 mi ++ rest)%string = Some (mi, rest).
Proof.
  intros mi Hmi.
  assert (H : forall z, 0 <= z < 60 ->
            p_M (format_0d 2 z ++ rest)%string = Some (z, rest)).
  { apply (Forall_range _ 60). repeat constructor. }
  apply H. lia.
Qed.

Lemma p_char_same c rest : p_char c (String c rest) = Some (tt, rest).
Proof. unfold p_char. rewrite Ascii.eqb_refl. reflexivity. Qed.

Lemma date_str_nonempty y m d :
  0 <= y <= 9999 -> truthy (Some (date_str y m d)) = true.
Proof.
  intros Hy. unfold date_str. rewrite format_04d by exact Hy. reflexivity.
Qed.

(** [strptime] reads back what the format strings of line 21 print. *)
Lemma strptime_format y m d h mi :
  0 <= y <= 9999 -> 1 <= m <= 12 -> 1 <= d <= 31 ->
  0 <= h <= 23 -> 0 <= mi <= 59 ->
  strptime (date_str y m d ++ " " ++ format_0d 2 h ++ ":" ++ format_0d 2 mi)
  = Datetime.make y m d h mi 0 0 false.
Proof.
  intros Hy Hm Hd Hh Hmi. unfold date_str.
  rewrite !append_assoc. cbn [append].
  unfold strptime, p_bind, p_ret.
  rewrite p_Y_format by exact Hy. cbv beta iota.
  rewrite p_char_same. cbv beta iota.
  rewrite p_m_format by exact Hm. cbv beta iota.
  rewrite p_char_same. cbv beta iota.
  rewrite p_d_format by exact Hd. cbv beta iota.
  destruct (p_spaces_H_format (String ":" (format_0d 2 mi)) h Hh) as [Hsp HH].
  rewrite Hsp. cbv beta iota. rewrite HH. cbv beta iota.
  rewrite p_char_same. cbv beta iota.
  rewrite <- (append_nil_r (format_0d 2 mi)).
  rewrite p_M_format by exact Hmi. reflexivity.
Qed.

End TextFacts.

(** ** The departure-time resolver *)

Module ResolverFacts.
Import Datetime.

Lemma check_date_fields_bounds y m d :
  check_date_fields y m d = true ->
  1 <= y <= 9999 /\ 1 <= m <= 12 /\ 1 <= d <= days_in_month y m.
Proof.
  unfold check_date_fields, MINYEAR, MAXYEAR. rewrite !andb_true_iff.
  intros (((((H1 & H2) & H3) & H4) & H5) & H6).
  apply Z.leb_le in H1, H2, H3, H4, H5, H6. lia.
Qed.

Lemma check_time_fields_bounds h mi s us :
  check_time_fields h mi s us = true ->
  0 <= h <= 23 /\ 0 <= mi <= 59 /\ 0 <= s <= 59 /\ 0 <= us <= 999999.
Proof.
  unfold check_time_fields. rewrite !andb_true_iff.
  intros (((((((H1 & H2) & H3) & H4) & H5) & H6) & H7) & H8).
  apply Z.leb_le in H1, H2, H3, H4, H5, H6, H7, H8. lia.
Qed.

Lemma check_time_fields_whole_minute h mi :
  0 <= h <= 23 -> 0 <= mi <= 59 -> check_time_fields h mi 0 0 = true.
Proof.
  intros [H1 H2] [H3 H4]. unfold check_time_fields.
  apply Z.leb_le in H1, H2, H3, H4. rewrite H1, H2, H3, H4. reflexivity.
Qed.

Lemma days_in_month_le y m : 1 <= m <= 12 -> days_in_month y m <= 31.
Proof.
  intros Hm. unfold days_in_month.
  destruct (_ && _); [lia|].
  assert (H : m = 1 \/ m = 2 \/ m = 3 \/ m = 4 \/ m = 5 \/ m = 6 \/ m = 7
              \/ m = 8 \/ m = 9 \/ m = 10 \/ m = 11 \/ m = 12) by lia.
  repeat (destruct H as [->|H]; [cbn; lia|]). subst. cbn. lia.
Qed.

Lemma toordinal_positive dt : valid dt = true -> 1 <= toordinal dt.
Proof.
  unfold valid. intros H. apply andb_true_iff in H as [Hd _].
  apply check_date_fields_bounds in Hd as (Hy & Hm & Hday).
  unfold toordinal, ymd2ord, days_before_year, days_before_month. cbv zeta.
  assert (0 <= DAYS_BEFORE_MONTH (month dt)).
  { assert (H : month dt = 1 \/ month dt = 2 \/ month dt = 3 \/ month dt = 4
                \/ month dt = 5 \/ month dt = 6 \/ month dt = 7
                \/ month dt = 8 \/ month dt = 9 \/ month dt = 10
                \/ month dt = 11 \/ month dt = 12) by lia.
    repeat (destruct H as [->|H]; [cbn; lia|]). rewrite H. cbn. lia. }
  assert (0 <= (year dt - 1) * 365 + (year dt - 1) / 4 - (year dt - 1) / 100
               + (year dt - 1) / 400)
    by (Z.div_mod_to_equations; lia).
  destruct (_ && _); lia.
Qed.

(** Adding one day to a valid datetime before the last representable day
    moves the date to the next ordinal and keeps the time of day. *)
Lemma add_one_day dt :
  valid dt = true -> toordinal dt < MAXORDINAL ->
  exists dt',
    add_days dt 1 = Ok dt'
    /\ toordinal dt' = toordinal dt + 1
    /\ valid dt' = true
    /\ hour dt' = hour dt /\ minute dt' = minute dt
    /\ second dt' = second dt /\ microsecond dt' = microsecond dt
    /\ fold dt' = false.
Proof.
  intros Hvalid Hlast. pose proof (toordinal_positive dt Hvalid) as Hpos.
  unfold valid in Hvalid. apply andb_true_iff in Hvalid as [_ Ht].
  pose proof Ht as Ht'.
  apply check_time_fields_bounds in Ht as (Hh & Hmi & Hs & Hus).
  unfold add_days. cbv zeta.
  set (secs := hour dt * 3600 + minute dt * 60 + second dt).
  assert (Hsecs : 0 <= secs < 86400) by (unfold secs; lia).
  rewrite (Z.div_small secs 86400), (Z.mod_small secs 86400) by exact Hsecs.
  assert (H1 : secs / 3600 = hour dt)
    by (unfold secs; Z.div_mod_to_equations; lia).
  assert (H2 : secs mod 3600 = minute dt * 60 + second dt)
    by (unfold secs; Z.div_mod_to_equations; lia).
  rewrite H1, H2.
  assert (H3 : (minute dt * 60 + second dt) / 60 = minute dt)
    by (Z.div_mod_to_equations; lia).
  assert (H4 : (minute dt * 60 + second dt) mod 60 = second dt)
    by (Z.div_mod_to_equations; lia).
  rewrite H3, H4, Z.add_0_r.
  replace ((0 <? toordinal dt + 1) && (toordinal dt + 1 <=? MAXORDINAL))
    with true
    by (symmetry; apply andb_true_iff; split;
        [apply Z.ltb_lt|apply Z.leb_le]; lia).
  pose proof (DatetimeFacts.ord2ymd_spec (toordinal dt + 1) ltac:(lia)) as Hord.
  cbv zeta in Hord.
  destruct (ord2ymd (toordinal dt + 1)) as [[y m] d]. cbn [fst snd] in Hord.
  destruct Hord as (Hback & Hm & Hd & Hy1 & Hy2).
  eexists. split; [reflexivity|]. cbn [hour minute second microsecond fold].
  unfold toordinal at 1. cbn [year month day].
  split; [exact Hback|]. split; [|repeat split; reflexivity].
  unfold valid. cbn [year month day hour minute second microsecond].
  rewrite Ht', andb_true_r. unfold check_date_fields.
  specialize (Hy2 ltac:(lia)). unfold MINYEAR, MAXYEAR in *.
  rewrite !andb_true_iff. repeat split; apply Z.leb_le; lia.
Qed.

Lemma int_timestamp_whole_second local_to_epoch dt :
  microsecond dt = 0 ->
  int_timestamp local_to_epoch dt = timestamp_second (local_to_epoch dt).
Proof.
  unfold int_timestamp, timestamp_second. intros ->.
  destruct (local_to_epoch dt) as [s|e]; [|reflexivity].
  rewrite Z.add_0_r, Z.quot_mul by lia. reflexivity.
Qed.

Lemma as_c_int_fits n : INT_MIN <= n <= INT_MAX -> as_c_int n = Ok n.
Proof.
  intros [Hlo Hhi]. unfold as_c_int.
  apply Z.leb_le in Hlo, Hhi. rewrite Hlo, Hhi. reflexivity.
Qed.

(** Replacing hour and minute of a valid datetime by ones in range. *)
Lemma replace_hmsu_in_range now h mi :
  0 <= h <= 23 -> 0 <= mi <= 59 -> valid now = true ->
  replace_hmsu now h mi
  = Ok (mk (year now) (month now) (day now) h mi 0 0 (fold now)).
Proof.
  intros Hh Hmi Hvalid. unfold replace_hmsu.
  rewrite !as_c_int_fits by (unfold INT_MIN, INT_MAX; lia).
  cbn [res_bind]. unfold make. unfold valid in Hvalid.
  apply andb_true_iff in Hvalid as [-> _]. cbn [negb].
  rewrite check_time_fields_whole_minute by assumption.
  reflexivity.
Qed.

(** The resolver without a date, as a function of the clock reading. *)
Lemma resolve_next_occurrence local_to_epoch h mi now :
  0 <= h <= 23 -> 0 <= mi <= 59 ->
  valid now = true -> toordinal now < MAXORDINAL ->
  let today := mk (year now) (month now) (day now) h mi 0 0 (fold now) in
  exists dt,
    resolve local_to_epoch h mi None now
    = timestamp_second (local_to_epoch dt)
    /\ valid dt = true
    /\ hour dt = h /\ minute dt = mi /\ second dt = 0 /\ microsecond dt = 0
    /\ (if leb today now
        then toordinal dt = toordinal now + 1 /\ fold dt = false
        else dt = today).
Proof.
  intros Hh Hmi Hvalid Hlast today.
  assert (Htoday : replace_hmsu now h mi = Ok today).
  { apply replace_hmsu_in_range; assumption. }
  assert (Hvtoday : valid today = true).
  { unfold valid, today. cbn [year month day hour minute second microsecond].
    unfold valid in Hvalid. apply andb_true_iff in Hvalid as [-> _].
    rewrite check_time_fields_whole_minute by assumption.
    reflexivity. }
  unfold resolve. cbn [truthy]. rewrite Htoday. cbn [res_bind].
  destruct (leb today now).
  - destruct (add_one_day today Hvtoday) as (dt & Hadd & Hord & Hv & H1 & H2 & H3 & H4 & H5).
    { exact Hlast. }
    exists dt. rewrite Hadd. cbn [res_bind].
    rewrite int_timestamp_whole_second by (rewrite H4; reflexivity).
    repeat split; try assumption.
  - exists today. cbn [res_bind].
    rewrite int_timestamp_whole_second by reflexivity.
    repeat split. exact Hvtoday.
Qed.

(** The resolver with a date printed by [str(date)]. *)
Lemma resolve_dated_iso local_to_epoch h mi y m d now :
  0 <= h <= 23 -> 0 <= mi <= 59 -> check_date_fields y m d = true ->
  resolve local_to_epoch h mi (Some (Text.date_str y m d)) now
  = timestamp_second (local_to_epoch (mk y m d h mi 0 0 false)).
Proof.
  intros Hh Hmi Hdate.
  pose proof (check_date_fields_bounds y m d Hdate) as (Hy & Hm & Hd).
  pose proof (days_in_month_le y m Hm) as Hd31.
  unfold resolve. rewrite TextFacts.date_str_nonempty by lia.
  rewrite TextFacts.strptime_format by lia.
  unfold make. rewrite Hdate. cbn [negb].
  rewrite check_time_fields_whole_minute by assumption.
  cbn [res_bind negb].
  rewrite int_timestamp_whole_second by reflexivity. reflexivity.
Qed.

End ResolverFacts.

(** C7. For an hour in 0..23 and a minute in 0..59, the resolver without a
    date reads the clock once, replaces the hour, minute, second and
    microsecond of the reading by hour:minute:00.0 and, when that is not
    strictly after the reading, moves it to the next calendar day (the next
    ordinal, same time of day); it returns the integer POSIX second that
    [timestamp()] gives for the result, and raises what [timestamp()] raises
    when the host has no second for it. The clock reading is a valid datetime
    before 9999-12-31, the last day a datetime can hold. With
    now = 2024-01-01T09:00:00 and 8:00 the result is 2024-01-02T08:00:00, and
    with now = 2024-01-01T07:00:00 it is 2024-01-01T08:00:00. With a date,
    printed as [str(date)] prints it, the result is that date at
    hour:minute:00, the clock is not read and nothing is adjusted. *)
Theorem departure_timestamp_resolution clock local_to_epoch w :
  let now := clock (clock_reads w) in
  (forall hour minute,
     0 <= hour <= 23 -> 0 <= minute <= 59 ->
     Datetime.valid now = true ->
     Datetime.toordinal now < Datetime.MAXORDINAL ->
     let today :=
       Datetime.mk (Datetime.year now) (Datetime.month now) (Datetime.day now)
                   hour minute 0 0 (Datetime.fold now) in
     exists dt,
       get_departure_timestamp clock local_to_epoch hour minute None w
       = (timestamp_second (local_to_epoch dt), tick w)
       /\ (forall s, local_to_epoch dt = inl s ->
           get_departure_timestamp clock local_to_epoch hour minute None w
           = (Ok s, tick w))
       /\ Datetime.valid dt = true
       /\ Datetime.hour dt = hour /\ Datetime.minute dt = minute
       /\ Datetime.second dt = 0 /\ Datetime.microsecond dt = 0
       /\ (if Datetime.leb today now
           then Datetime.toordinal dt = Datetime.toordinal now + 1
                /\ Datetime.fold dt = false
           else dt = today))
  /\ (now = Datetime.mk 2024 1 1 9 0 0 0 false ->
      get_departure_timestamp clock local_to_epoch 8 0 None w
      = (timestamp_second
           (local_to_epoch (Datetime.mk 2024 1 2 8 0 0 0 false)), tick w))
  /\ (now = Datetime.mk 2024 1 1 7 0 0 0 false ->
      get_departure_timestamp clock local_to_epoch 8 0 None w
      = (timestamp_second
           (local_to_epoch (Datetime.mk 2024 1 1 8 0 0 0 false)), tick w))
  /\ (forall hour minute y m d,
        0 <= hour <= 23 -> 0 <= minute <= 59 ->
        Datetime.check_date_fields y m d = true ->
        get_departure_timestamp clock local_to_epoch hour minute
          (Some (Text.date_str y m d)) w
        = (timestamp_second
             (local_to_epoch (Datetime.mk y m d hour minute 0 0 false)), w)).
Proof.
  cbv zeta. split; [|split; [|split]].
  - intros hour minute Hh Hmi Hvalid Hlast.
    destruct (ResolverFacts.resolve_next_occurrence local_to_epoch hour minute
                (clock (clock_reads w)) Hh Hmi Hvalid Hlast)
      as (dt & Hres & Hrest).
    exists dt. rewrite get_departure_timestamp_resolve, Hres.
    split; [reflexivity|]. split; [|exact Hrest].
    intros s Hs. rewrite Hs. reflexivity.
  - intros Hnow. rewrite get_departure_timestamp_resolve, Hnow.
    unfold resolve. cbn [truthy].
    change (Datetime.replace_hmsu (Datetime.mk 2024 1 1 9 0 0 0 false) 8 0)
      with (Ok (Datetime.mk 2024 1 1 8 0 0 0 false)).
    cbn [res_bind].
    change (Datetime.leb (Datetime.mk 2024 1 1 8 0 0 0 false)
                         (Datetime.mk 2024 1 1 9 0 0 0 false)) with true.
    cbv iota.
    change (Datetime.add_days (Datetime.mk 2024 1 1 8 0 0 0 false) 1)
      with (Ok (Datetime.mk 2024 1 2 8 0 0 0 false)).
    cbn [res_bind].
    rewrite ResolverFacts.int_timestamp_whole_second by reflexivity.
    reflexivity.
  - intros Hnow. rewrite get_departure_timestamp_resolve, Hnow.
    unfold resolve. cbn [truthy].
    change (Datetime.replace_hmsu (Datetime.mk 2024 1 1 7 0 0 0 false) 8 0)
      with (Ok (Datetime.mk 2024 1 1 8 0 0 0 false)).
    cbn [res_bind].
    change (Datetime.leb (Datetime.mk 2024 1 1 8 0 0 0 false)
                         (Datetime.mk 2024 1 1 7 0 0 0 false)) with false.
    cbv iota. cbn [res_bind].
    rewrite ResolverFacts.int_timestamp_whole_second by reflexivity.
    reflexivity.
  - intros hour minute y m d Hh Hmi Hdate.
    rewrite get_departure_timestamp_resolve.
    rewrite ResolverFacts.resolve_dated_iso by assumption.
    rewrite TextFacts.date_str_nonempty; [reflexivity|].
    apply ResolverFacts.check_date_fields_bounds in Hdate. lia.
Qed.

(** On a host in UTC: the two examples, a dated call, a call late in the
    evening, and a call on 0001-01-01, for which [timestamp()] raises. *)
Lemma departure_timestamp_resolution_witness :
  get_departure_timestamp (fun _ => Examples.at_2024_01_01 9 0 0)
    Examples.utc_epoch 8 0 None initial_world
  = (Ok 1704182400, tick initial_world)
  /\ get_departure_timestamp (fun _ => Examples.at_2024_01_01 7 0 0)
       Examples.utc_epoch 8 0 None initial_world
     = (Ok 1704096000, tick initial_world)
  /\ get_departure_timestamp (fun _ => Examples.at_2024_01_01 9 0 0)
       Examples.utc_epoch 8 0 (Some "2024-01-02") initial_world
     = (Ok 1704182400, initial_world)
  /\ get_departure_timestamp (fun _ => Examples.at_2024_01_01 9 0 0)
       Examples.utc_epoch 8 0 (Some "0001-01-01") initial_world
     = (Raise (ValueError "year 0 is out of range"), initial_world)
  /\ exists dt,
       get_departure_timestamp (fun _ => Examples.at_2024_01_01 9 0 0)
         Examples.utc_epoch 23 59 None initial_world
       = (Ok 1704153540, tick initial_world)
       /\ Datetime.valid dt = true
       /\ Datetime.hour dt = 23 /\ Datetime.minute dt = 59
       /\ Datetime.second dt = 0 /\ Datetime.microsecond dt = 0
       /\ dt = Datetime.mk 2024 1 1 23 59 0 0 false.
Proof.
  destruct (departure_timestamp_resolution
              (fun _ => Examples.at_2024_01_01 9 0 0) Examples.utc_epoch
              initial_world) as (Hgeneral & Hnine & _ & Hdated).
  destruct (departure_timestamp_resolution
              (fun _ => Examples.at_2024_01_01 7 0 0) Examples.utc_epoch
              initial_world) as (_ & _ & Hseven & _).
  split; [exact (Hnine eq_refl)|].
  split; [exact (Hseven eq_refl)|].
  split; [exact (Hdated 8 0 2024 1 2 ltac:(lia) ltac:(lia) eq_refl)|].
  split; [exact (Hdated 8 0 1 1 1 ltac:(lia) ltac:(lia) eq_refl)|].
  destruct (Hgeneral 23 59 ltac:(lia) ltac:(lia) eq_refl eq_refl)
    as (dt & _ & Hok & Hvalid & Hh & Hmi & Hs & Hus & Hdt).
  exists dt. cbv zeta in Hdt. cbn in Hdt. subst dt.
  split; [exact (Hok 1704153540 eq_refl)|].
  repeat split.
Defined.

(** * Further properties of the code *)

(** ** Runs that return *)

Lemma element0s_heads data els :
  map (fun row => hd_error (elements row)) (resp_rows data) = map Some els ->
  element0s data = els.
Proof.
  unfold element0s. generalize (resp_rows data). clear data.
  intros rows. revert els.
  induction rows as [|row rows IH]; intros [|e els] H; try discriminate;
    [reflexivity|].
  cbn [map] in H. injection H as Hhd Hrest.
  cbn [flat_map]. destruct (elements row) as [|e' rest]; [discriminate|].
  cbn in Hhd. injection Hhd as ->. cbn [app]. f_equal. apply IH. exact Hrest.
Qed.

Lemma rows_loop_rows_of batch data results out :
  status_ok data = true ->
  rows_loop batch (enumerate (resp_rows data)) results = Ok out ->
  out = results ++ rows_of batch data
  /\ (List.length (resp_rows data) <= List.length batch)%nat
  /\ forallb readable_row (resp_rows data) = true.
Proof.
  intros Hok Hloop.
  pose proof (rows_loop_ok batch (resp_rows data) 0 results) as Hisok.
  unfold enumerate in Hloop. rewrite Hloop in Hisok. cbn [is_ok] in Hisok.
  assert (Hcond : (List.length (resp_rows data) <= List.length batch)%nat
                  /\ forallb readable_row (resp_rows data) = true).
  { destruct (resp_rows data) as [|row rows]; [cbn; split; [lia|reflexivity]|].
    symmetry in Hisok. apply andb_true_iff in Hisok as [Hlen Hread].
    apply Nat.leb_le in Hlen. split; [lia|exact Hread]. }
  split; [|exact Hcond].
  apply rows_loop_result in Hloop as (els & Hels & ->).
  unfold rows_of. rewrite Hok. f_equal. f_equal.
  rewrite (element0s_heads data els Hels).
  assert (Hlen : List.length (resp_rows data) = List.length els).
  { apply (f_equal (@List.length _)) in Hels. rewrite !length_map in Hels.
    exact Hels. }
  cbn [skipn]. rewrite Hlen. symmetry. apply combine_firstn_r.
Qed.

Section ReturnFacts.

Variable clock : nat -> Datetime.datetime.
Variable local_to_epoch : Datetime.datetime -> Z + timestamp_error.
Variable endpoint : nat -> Params -> Response.
Variable students : list Student.
Variable school_address api_key mode : string.
Variable departure_hour : option Z.
Variable departure_minute : Z.
Variable departure_date : option string.
Variable progress_bar : bool.

Local Abbreviation step :=
  (process_batch clock local_to_epoch endpoint students school_address
     api_key mode departure_hour departure_minute departure_date progress_bar).
Local Abbreviation loop :=
  (batches_loop clock local_to_epoch endpoint students school_address
     api_key mode departure_hour departure_minute departure_date progress_bar).
Local Abbreviation batch_at it :=
  (slice students (snd it) (snd it + batch_size)).

(** An iteration that returns has sent one request; an "OK" answer had no
    more rows than the batch has students, all decodable, and gave the rows of
    [rows_of]; a refusal gave a diagnostic and no row. *)
Lemma step_returns total_batches batch_idx i results w out w' :
  step total_batches batch_idx i results w = (Ok out, w') ->
  exists data,
    map snd (http_log w') = map snd (http_log w) ++ [data]
    /\ out = results ++ rows_of (slice students i (i + batch_size)) data
    /\ (status_ok data = true ->
        (List.length (resp_rows data)
         <= List.length (slice students i (i + batch_size)))%nat
        /\ forallb readable_row (resp_rows data) = true)
    /\ diagnostics w'
       = diagnostics w ++ (if status_ok data then [] else [diagnostic_of data])
    /\ progress_calls w'
       = progress_calls w
         ++ (if progress_bar && status_ok data
             then [fraction (batch_idx + 1) total_batches] else []).
Proof.
  rewrite process_batch_eq. cbv zeta.
  destruct (resolved_frame departure_hour departure_date w)
    as (Hlog & Hdiag & Hprog).
  destruct (departure_entry _ _ _ _ _) as [t|e]; [|discriminate].
  set (batch := slice students i (i + batch_size)).
  set (params := mkParams _ _ _ _ _ _).
  set (data := endpoint _ params).
  destruct (status_ok data) eqn:Hok.
  - destruct (rows_loop batch _ results) as [rows|e] eqn:Hrows; [|discriminate].
    destruct (rows_loop_rows_of batch data results rows Hok Hrows)
      as (Hout & Hcond).
    destruct progress_bar.
    + destruct total_batches; [discriminate|].
      intros [= <- <-]. exists data. rewrite Hok.
      cbn [http_log diagnostics progress_calls log_progress log_request andb].
      rewrite Hlog, Hdiag, Hprog, map_app, app_nil_r. auto.
    + intros [= <- <-]. exists data. rewrite Hok.
      cbn [http_log diagnostics progress_calls log_request andb].
      rewrite Hlog, Hdiag, Hprog, map_app, !app_nil_r. auto.
  - intros [= <- <-]. exists data. rewrite Hok.
    cbn [http_log diagnostics progress_calls log_diagnostic log_request].
    rewrite Hlog, Hdiag, Hprog, map_app, andb_false_r, app_nil_r.
    unfold rows_of. rewrite Hok, app_nil_r.
    repeat split; try reflexivity; discriminate.
Qed.

Lemma loop_returns total_batches : forall its results w out w',
  loop total_batches its results w = (Ok out, w') ->
  exists answers,
    map snd (http_log w') = map snd (http_log w) ++ answers
    /\ List.length answers = List.length its
    /\ out = results ++ table_of (map (fun it => batch_at it) its) answers
    /\ (forall j it a,
          nth_error its j = Some it -> nth_error answers j = Some a ->
          status_ok a = true ->
          (List.length (resp_rows a) <= List.length (batch_at it))%nat
          /\ forallb readable_row (resp_rows a) = true)
    /\ diagnostics w' = diagnostics w ++ diagnosed answers
    /\ progress_calls w'
       = progress_calls w
         ++ (if progress_bar
             then reported total_batches (map fst its) answers else []).
Proof.
  induction its as [|[batch_idx i] rest IH]; intros results w out w' Hrun.
  - cbn in Hrun. injection Hrun as <- <-. exists [].
    cbn. rewrite !app_nil_r.
    assert (Hnone : forall j (it : nat * nat) (a : Response),
              nth_error (@nil (nat * nat)) j = Some it ->
              nth_error (@nil Response) j = Some a ->
              status_ok a = true ->
              (List.length (resp_rows a) <= List.length (batch_at it))%nat
              /\ forallb readable_row (resp_rows a) = true).
    { intros [|j] it a; discriminate. }
    destruct progress_bar; rewrite ?app_nil_r;
      (split; [reflexivity|split; [reflexivity|split; [reflexivity|
       split; [exact Hnone|split; reflexivity]]]]).
  - cbn [batches_loop] in Hrun. unfold bind in Hrun.
    destruct (step total_batches batch_idx i results w) as [[mid|e] w1] eqn:Hstep;
      [|discriminate].
    apply step_returns in Hstep
      as (data & Hlog & Hmid & Hcond & Hdiag & Hprog).
    apply IH in Hrun
      as (answers & Hlog' & Hlen & Hout & Hconds & Hdiag' & Hprog').
    exists (data :: answers). split; [|split; [|split; [|split; [|split]]]].
    + rewrite Hlog', Hlog, <- app_assoc. reflexivity.
    + cbn [List.length]. lia.
    + rewrite Hout, Hmid, <- app_assoc. reflexivity.
    + intros [|j] it a Hit Ha Hok.
      * injection Hit as <-. injection Ha as <-. exact (Hcond Hok).
      * exact (Hconds j it a Hit Ha Hok).
    + rewrite Hdiag', Hdiag, <- app_assoc. reflexivity.
    + rewrite Hprog', Hprog, <- app_assoc. f_equal.
      destruct progress_bar; reflexivity.
Qed.

End ReturnFacts.

(** The batches of the loop, from its iterations. *)
Lemma batches_of_iterations (students : list Student) :
  map (fun it => slice students (snd it) (snd it + batch_size))
      (enumerate (range 0 (List.length students) batch_size))
  = batches students.
Proof.
  unfold batches.
  rewrite <- (enumerate_snd (range 0 (List.length students) batch_size)) at 2.
  rewrite map_map. reflexivity.
Qed.

(** A run that returns, in terms of the answers it received. *)
Lemma run_returns clock local_to_epoch endpoint students school_address
    api_key mode departure_hour departure_minute departure_date progress_bar
    w table w' :
  calculate_commute_times clock local_to_epoch endpoint students
    school_address api_key mode departure_hour departure_minute
    departure_date progress_bar w = (Ok table, w') ->
  let answers := map snd (exchanged w w') in
  List.length answers = List.length (batches students)
  /\ table = table_of (batches students) answers
  /\ (forall j batch a,
        nth_error (batches students) j = Some batch ->
        nth_error answers j = Some a ->
        status_ok a = true ->
        (List.length (resp_rows a) <= List.length batch)%nat
        /\ forallb readable_row (resp_rows a) = true)
  /\ diagnostics w' = diagnostics w ++ diagnosed answers
  /\ progress_calls w'
     = progress_calls w
       ++ (if progress_bar
           then reported (total_batches_of (List.length students))
                  (seq 0 (List.length (batches students))) answers
           else []).
Proof.
  unfold calculate_commute_times. intros Hrun.
  apply loop_returns in Hrun
    as (answers & Hlog & Hlen & Hout & Hconds & Hdiag & Hprog).
  cbv zeta. rewrite (exchanged_answers _ _ _ Hlog).
  rewrite batches_of_iterations in Hout.
  rewrite enumerate_length in Hlen.
  rewrite enumerate_fst in Hprog.
  assert (Hb : List.length (batches students)
               = List.length (range 0 (List.length students) batch_size)).
  { unfold batches. apply length_map. }
  split; [lia|]. split; [exact Hout|]. split; [|split; [exact Hdiag|]].
  - intros j batch a Hbatch Ha Hok.
    rewrite <- batches_of_iterations in Hbatch.
    rewrite nth_error_map in Hbatch.
    destruct (nth_error (enumerate _) j) as [it|] eqn:Hit; [|discriminate].
    injection Hbatch as <-. exact (Hconds j it a Hit Ha Hok).
  - rewrite Hprog, Hb. reflexivity.
Qed.

(** ** What any run does to the world *)

Section FrameFacts.

Variable clock : nat -> Datetime.datetime.
Variable local_to_epoch : Datetime.datetime -> Z + timestamp_error.
Variable endpoint : nat -> Params -> Response.
Variable students : list Student.
Variable school_address api_key mode : string.
Variable departure_hour : option Z.
Variable departure_minute : Z.
Variable departure_date : option string.
Variable progress_bar : bool.

Local Abbreviation step :=
  (process_batch clock local_to_epoch endpoint students school_address
     api_key mode departure_hour departure_minute departure_date progress_bar).
Local Abbreviation loop :=
  (batches_loop clock local_to_epoch endpoint students school_address
     api_key mode departure_hour departure_minute departure_date progress_bar).

Lemma step_frame total_batches batch_idx i results w :
  let rw := step total_batches batch_idx i results w in
  (progress_bar = false -> progress_calls (snd rw) = progress_calls w)
  /\ exists d, diagnostics (snd rw) = diagnostics w ++ d
               /\ (List.length d <= 1)%nat.
Proof.
  cbv zeta. rewrite process_batch_eq. cbv zeta.
  destruct (resolved_frame departure_hour departure_date w)
    as (_ & Hdiag & Hprog).
  destruct (departure_entry _ _ _ _ _) as [t|e]; cbn [snd].
  - destruct (status_ok _).
    + destruct (rows_loop _ _ _); cbn [snd].
      * destruct progress_bar.
        -- split; [discriminate|].
           exists []. rewrite app_nil_r.
           destruct total_batches; cbn; rewrite Hdiag; split; auto.
        -- cbn. rewrite Hdiag, Hprog. split; [reflexivity|].
           exists []. rewrite app_nil_r. auto.
      * cbn. rewrite Hdiag, Hprog. split; [reflexivity|].
        exists []. rewrite app_nil_r. auto.
    + cbn. rewrite Hdiag, Hprog. split; [reflexivity|].
      eexists [_]. split; [reflexivity|]. cbn. lia.
  - rewrite Hdiag, Hprog. split; [reflexivity|].
    exists []. rewrite app_nil_r. auto.
Qed.

(** Whatever the answers, and whether the loop returns or raises: the clock
    is read at most once per batch (and only by the resolver), the progress
    bar is untouched when none was passed, and at most one diagnostic per
    batch is added to those already recorded. *)
Lemma loop_frame total_batches : forall its results w,
  let rw := loop total_batches its results w in
  (clock_reads w <= clock_reads (snd rw)
   <= clock_reads w
      + List.length its * reads_per_batch departure_hour departure_date)%nat
  /\ (progress_bar = false -> progress_calls (snd rw) = progress_calls w)
  /\ exists d, diagnostics (snd rw) = diagnostics w ++ d
               /\ (List.length d <= List.length its)%nat.
Proof.
  induction its as [|[batch_idx i] rest IH]; intros results w; cbv zeta.
  - cbn. split; [lia|]. split; [reflexivity|].
    exists []. rewrite app_nil_r. auto.
  - cbn [batches_loop]. unfold bind.
    pose proof (step_requests clock local_to_epoch endpoint students
                  school_address api_key mode departure_hour departure_minute
                  departure_date progress_bar total_batches batch_idx i
                  results w) as [Hreads _].
    pose proof (step_frame total_batches batch_idx i results w) as Hframe.
    cbv zeta in Hreads, Hframe.
    destruct (step total_batches batch_idx i results w) as [[mid|e] w1];
      cbn [fst snd] in *; destruct Hframe as (Hprog & d & Hdiag & Hd).
    + specialize (IH mid w1). cbv zeta in IH.
      destruct IH as (Hclock & Hprog' & d' & Hdiag' & Hd').
      split; [cbn [List.length]; lia|]. split.
      * intros Hbar. rewrite (Hprog' Hbar). exact (Hprog Hbar).
      * exists (d ++ d'). rewrite Hdiag', Hdiag, app_assoc, length_app.
        split; [reflexivity|]. cbn [List.length]. lia.
    + split; [cbn [List.length]; lia|]. split; [exact Hprog|].
      exists d. split; [exact Hdiag|]. cbn [List.length]. lia.
Qed.

End FrameFacts.

(** ** The requests of a run *)

Lemma batch_size_bounds (students : list Student) j batch :
  nth_error (batches students) j = Some batch ->
  (1 <= List.length batch <= batch_size)%nat.
Proof.
  intros Hj.
  assert (Hin : In (List.length batch) (chunk_sizes (List.length students))).
  { rewrite <- batches_sizes. apply in_map. eapply nth_error_In. exact Hj. }
  unfold chunk_sizes in Hin. apply in_app_or in Hin as [Hin|Hin].
  - apply repeat_spec in Hin. rewrite Hin. unfold batch_size. lia.
  - destruct (Nat.eqb_spec (List.length students mod batch_size) 0) as [|Hne];
      [destruct Hin|].
    destruct Hin as [<-|[]].
    pose proof (Nat.mod_upper_bound (List.length students) batch_size
                  ltac:(unfold batch_size; lia)).
    lia.
Qed.

(** X6. Whatever the answers, and whether the run returns or raises: request
    j of a run is the request of batch j, which has between 1 and 25
    students; its origins are the addresses of that batch joined by "|", its
    destination, mode and key are the arguments of the call, its language is
    "ko", and the answer logged with it is the endpoint's answer to it. No
    run sends more requests than there are batches. *)
Theorem requests_of_run clock local_to_epoch endpoint students school_address
    api_key travel_mode departure_hour departure_minute departure_date
    progress_bar w :
  let run :=
    calculate_commute_times clock local_to_epoch endpoint students
      school_address api_key travel_mode departure_hour departure_minute
      departure_date progress_bar w in
  http_log (snd run) = http_log w ++ exchanged w (snd run)
  /\ (List.length (exchanged w (snd run))
      <= total_batches_of (List.length students))%nat
  /\ forall j p a,
       nth_error (exchanged w (snd run)) j = Some (p, a) ->
       exists batch,
         nth_error (batches students) j = Some batch
         /\ (1 <= List.length batch <= 25)%nat
         /\ origins p = String.concat "|" (map 주소 batch)
         /\ destinations p = school_address
         /\ mode p = travel_mode
         /\ language p = "ko"
         /\ key p = api_key
         /\ a = endpoint (List.length (http_log w) + j)%nat p.
Proof.
  cbv zeta. unfold calculate_commute_times.
  pose proof (loop_requests clock local_to_epoch endpoint students
                school_address api_key travel_mode departure_hour
                departure_minute departure_date progress_bar
                ((List.length students + batch_size - 1) / batch_size)%nat
                (enumerate (range 0 (List.length students) batch_size)) [] w)
    as Hloop.
  cbv zeta in Hloop. destruct Hloop as (new & Hlog & Hle & _ & Hnth).
  rewrite (exchanged_app _ _ _ Hlog).
  split; [exact Hlog|]. split.
  - rewrite enumerate_length, range_length in Hle. exact Hle.
  - intros j p a Hj.
    destruct (Hnth j p a Hj) as (it & Hit & _ & Hp & Ha).
    exists (slice students (snd it) (snd it + batch_size)).
    assert (Hbatch : nth_error (batches students) j
                     = Some (slice students (snd it) (snd it + batch_size))).
    { rewrite <- batches_of_iterations, nth_error_map, Hit. reflexivity. }
    split; [exact Hbatch|].
    split; [exact (batch_size_bounds students j _ Hbatch)|].
    rewrite Hp at 1 2 3 4 5. cbn [origins destinations mode language key].
    repeat split. exact Ha.
Qed.

Lemma requests_of_run_witness :
  let run :=
    calculate_commute_times Examples.clock_around_eight Examples.utc_epoch
      (Examples.echo_sized [25; 1]%nat) (repeat (Examples.student "kim") 26)
      "school" "secret" "transit" None 0 None false initial_world in
  exists batch,
    nth_error (batches (repeat (Examples.student "kim") 26)) 1 = Some batch
    /\ (1 <= List.length batch <= 25)%nat
    /\ "addr kim" = String.concat "|" (map 주소 batch).
Proof.
  cbv zeta.
  destruct (requests_of_run Examples.clock_around_eight Examples.utc_epoch
              (Examples.echo_sized [25; 1]%nat)
              (repeat (Examples.student "kim") 26)
              "school" "secret" "transit" None 0 None false initial_world)
    as (_ & _ & Hreq).
  destruct (Hreq 1%nat
              (mkParams "addr kim" "school" "transit" "ko" "secret" None)
              (Examples.echo_sized [25; 1]%nat 1
                 (mkParams "addr kim" "school" "transit" "ko" "secret" None))
              ltac:(vm_compute; reflexivity))
    as (batch & Hbatch & Hsize & Horigins & _).
  exists batch. auto.
Defined.

(** X7. Without a departure hour no request of a run carries a departure
    time and the clock is never read, whatever the answers and whether the run
    returns or raises. *)
Theorem timeless_run clock local_to_epoch endpoint students school_address
    api_key travel_mode departure_minute departure_date progress_bar w :
  let run :=
    calculate_commute_times clock local_to_epoch endpoint students
      school_address api_key travel_mode None departure_minute departure_date
      progress_bar w in
  clock_reads (snd run) = clock_reads w
  /\ Forall (fun e => departure_time (fst e) = None) (exchanged w (snd run)).
Proof.
  cbv zeta. unfold calculate_commute_times. split.
  - pose proof (loop_frame clock local_to_epoch endpoint students
                  school_address api_key travel_mode None departure_minute
                  departure_date progress_bar
                  ((List.length students + batch_size - 1) / batch_size)%nat
                  (enumerate (range 0 (List.length students) batch_size)) [] w)
      as [Hclock _].
    cbv zeta in Hclock. cbn [reads_per_batch] in Hclock. lia.
  - pose proof (loop_requests clock local_to_epoch endpoint students
                  school_address api_key travel_mode None departure_minute
                  departure_date progress_bar
                  ((List.length students + batch_size - 1) / batch_size)%nat
                  (enumerate (range 0 (List.length students) batch_size)) [] w)
      as Hloop.
    cbv zeta in Hloop. destruct Hloop as (new & Hlog & _ & _ & Hnth).
    rewrite (exchanged_app _ _ _ Hlog).
    apply Forall_forall. intros [p a] Hin.
    apply In_nth_error in Hin as [j Hj].
    destruct (Hnth j p a Hj) as (_ & _ & Hentry & _).
    cbn [departure_entry] in Hentry. cbn [fst]. congruence.
Qed.

(** ** The contents of the table *)

Lemma row_for_student student element :
  row_이름 (row_for student element) = 이름 student
  /\ row_주소 (row_for student element) = 주소 student.
Proof. unfold row_for. destruct (_ =? _)%string; split; reflexivity. Qed.

Lemma element0s_length data :
  forallb readable_row (resp_rows data) = true ->
  List.length (element0s data) = List.length (resp_rows data).
Proof.
  unfold element0s. induction (resp_rows data) as [|row rows IH];
    [reflexivity|].
  cbn [forallb flat_map]. intros H. apply andb_true_iff in H as [Hrow Hrows].
  rewrite length_app, (IH Hrows). unfold readable_row in Hrow.
  destruct (elements row); [discriminate|reflexivity].
Qed.

Lemma rows_of_students batch data :
  conforms batch data = true ->
  map row_이름 (rows_of batch data)
  = map 이름 (if status_ok data then batch else [])
  /\ map row_주소 (rows_of batch data)
     = map 주소 (if status_ok data then batch else []).
Proof.
  unfold conforms, rows_of, status_ok.
  destruct (resp_status data =? "OK")%string; [|split; reflexivity].
  intros H. apply andb_true_iff in H as [Hlen Hread].
  apply Nat.eqb_eq in Hlen. apply element0s_length in Hread.
  fold (element0s data) in *.
  assert (Hels : List.length (element0s data) = List.length batch) by lia.
  clear Hlen Hread. revert Hels. generalize (element0s data) as els.
  induction batch as [|student batch IH]; intros [|e els] Hels;
    try discriminate; [split; reflexivity|].
  injection Hels as Hels. destruct (IH els Hels) as [IH1 IH2].
  destruct (row_for_student student e) as [Hn Ha].
  cbn [combine map fst snd]. rewrite Hn, Ha, IH1, IH2. split; reflexivity.
Qed.

(** The answers received in a run conform when the endpoint's answers do. *)
Lemma run_answers_conform clock local_to_epoch endpoint students
    school_address api_key mode departure_hour departure_minute departure_date
    progress_bar w :
  (forall k batch p,
     nth_error (batches students) k = Some batch ->
     conforms batch (endpoint (List.length (http_log w) + k)%nat p) = true) ->
  let run :=
    calculate_commute_times clock local_to_epoch endpoint students
      school_address api_key mode departure_hour departure_minute
      departure_date progress_bar w in
  forall j batch a,
    nth_error (batches students) j = Some batch ->
    nth_error (map snd (exchanged w (snd run))) j = Some a ->
    conforms batch a = true.
Proof.
  intros Hconf. cbv zeta. unfold calculate_commute_times.
  pose proof (loop_requests clock local_to_epoch endpoint students
                school_address api_key mode departure_hour departure_minute
                departure_date progress_bar
                ((List.length students + batch_size - 1) / batch_size)%nat
                (enumerate (range 0 (List.length students) batch_size)) [] w)
    as Hloop.
  cbv zeta in Hloop. destruct Hloop as (new & Hlog & _ & _ & Hnth).
  rewrite (exchanged_app _ _ _ Hlog).
  intros j batch a Hbatch Ha. rewrite nth_error_map in Ha.
  destruct (nth_error new j) as [[p a']|] eqn:Hj; [|discriminate].
  injection Ha as <-.
  destruct (Hnth j p a' Hj) as (_ & _ & _ & _ & ->).
  apply Hconf. exact Hbatch.
Qed.

(** Every answer in the log is an answer of the endpoint. *)
Lemma requests_log_answers clock local_to_epoch endpoint students
    school_address api_key mode departure_hour departure_minute departure_date
    progress_bar w :
  let run :=
    calculate_commute_times clock local_to_epoch endpoint students
      school_address api_key mode departure_hour departure_minute
      departure_date progress_bar w in
  forall a, In a (map snd (exchanged w (snd run))) ->
            exists k p, a = endpoint k p.
Proof.
  cbv zeta. unfold calculate_commute_times.
  pose proof (loop_requests clock local_to_epoch endpoint students
                school_address api_key mode departure_hour departure_minute
                departure_date progress_bar
                ((List.length students + batch_size - 1) / batch_size)%nat
                (enumerate (range 0 (List.length students) batch_size)) [] w)
    as Hloop.
  cbv zeta in Hloop. destruct Hloop as (new & Hlog & _ & _ & Hnth).
  rewrite (exchanged_app _ _ _ Hlog).
  intros a Ha. apply in_map_iff in Ha as ([p a'] & <- & Hin).
  apply In_nth_error in Hin as [j Hj].
  destruct (Hnth j p a' Hj) as (_ & _ & _ & _ & ->).
  cbn [snd]. eauto.
Qed.

Lemma table_of_students : forall bs answers,
  (forall j batch a,
     nth_error bs j = Some batch -> nth_error answers j = Some a ->
     conforms batch a = true) ->
  map row_이름 (table_of bs answers) = map 이름 (accepted_students bs answers)
  /\ map row_주소 (table_of bs answers)
     = map 주소 (accepted_students bs answers).
Proof.
  unfold table_of, accepted_students.
  induction bs as [|batch bs IH]; intros [|a answers] Hconf;
    try (split; reflexivity).
  cbn [combine flat_map fst snd]. rewrite !map_app.
  destruct (rows_of_students batch a (Hconf 0%nat batch a eq_refl eq_refl))
    as [-> ->].
  destruct (IH answers (fun j => Hconf (S j))) as [-> ->].
  split; reflexivity.
Qed.

Lemma accepted_students_all : forall bs answers,
  List.length answers = List.length bs ->
  Forall (fun a => status_ok a = true) answers ->
  accepted_students bs answers = List.concat bs.
Proof.
  unfold accepted_students.
  induction bs as [|batch bs IH]; intros [|a answers] Hlen Hall;
    try discriminate; [reflexivity|].
  injection Hlen as Hlen. inversion Hall as [|? ? Ha Hall']; subst.
  cbn [combine flat_map fst snd List.concat]. rewrite Ha. f_equal.
  apply IH; assumption.
Qed.

(** X8. With answers that conform and a departure specification that
    resolves, the run returns the table that the answers determine: batch by
    batch, nothing for a refused batch and, for an accepted one, the row of
    student j and element 0 of response row j, in order. Its name and address
    columns are those of the students of the accepted batches, in roster
    order. *)
Theorem table_contents clock local_to_epoch endpoint students school_address
    api_key travel_mode departure_hour departure_minute departure_date
    progress_bar w :
  (forall k, is_ok (departure_entry local_to_epoch departure_hour
                      departure_minute departure_date (clock k)) = true) ->
  (forall k batch p,
     nth_error (batches students) k = Some batch ->
     conforms batch (endpoint (List.length (http_log w) + k)%nat p) = true) ->
  exists table w',
    calculate_commute_times clock local_to_epoch endpoint students
      school_address api_key travel_mode departure_hour departure_minute
      departure_date progress_bar w = (Ok table, w')
    /\ table = table_of (batches students) (map snd (exchanged w w'))
    /\ map row_이름 table
       = map 이름 (accepted_students (batches students)
                     (map snd (exchanged w w')))
    /\ map row_주소 table
       = map 주소 (accepted_students (batches students)
                     (map snd (exchanged w w'))).
Proof.
  intros Hentry Hconf.
  destruct (run_conforming clock local_to_epoch endpoint students
              school_address api_key travel_mode departure_hour
              departure_minute departure_date progress_bar w Hentry Hconf)
    as (table & w' & Hrun & _).
  exists table, w'. split; [exact Hrun|].
  pose proof (run_answers_conform clock local_to_epoch endpoint students
                school_address api_key travel_mode departure_hour
                departure_minute departure_date progress_bar w Hconf) as Hans.
  cbv zeta in Hans. rewrite Hrun in Hans. cbn [snd] in Hans.
  destruct (run_returns _ _ _ _ _ _ _ _ _ _ _ _ _ _ Hrun) as (_ & Htable & _).
  split; [exact Htable|]. rewrite Htable.
  apply table_of_students. exact Hans.
Qed.

Lemma table_contents_witness :
  exists table w',
    calculate_commute_times (fun _ => Examples.at_2024_01_01 7 0 0)
      Examples.utc_epoch (Examples.refuse_first 1)
      (repeat (Examples.student "kim") 26) "school" "secret" "transit"
      None 0 None true initial_world = (Ok table, w')
    /\ table = table_of (batches (repeat (Examples.student "kim") 26))
                 (map snd (exchanged initial_world w'))
    /\ map row_이름 table
       = map 이름 (accepted_students
                     (batches (repeat (Examples.student "kim") 26))
                     (map snd (exchanged initial_world w')))
    /\ map row_주소 table
       = map 주소 (accepted_students
                     (batches (repeat (Examples.student "kim") 26))
                     (map snd (exchanged initial_world w'))).
Proof.
  apply table_contents.
  - intros k. reflexivity.
  - intros [|[|k]] batch p H; vm_compute in H.
    + reflexivity.
    + injection H as <-. reflexivity.
    + destruct k; discriminate H.
Defined.

(** X9. When, in addition, the endpoint accepts every request, nobody is
    dropped, duplicated or moved: the name and address columns of the table
    are those of the roster, in roster order. *)
Theorem accepted_roster_preserved clock local_to_epoch endpoint students
    school_address api_key travel_mode departure_hour departure_minute
    departure_date progress_bar w :
  (forall k, is_ok (departure_entry local_to_epoch departure_hour
                      departure_minute departure_date (clock k)) = true) ->
  (forall k batch p,
     nth_error (batches students) k = Some batch ->
     conforms batch (endpoint (List.length (http_log w) + k)%nat p) = true) ->
  (forall k p, status_ok (endpoint k p) = true) ->
  exists table w',
    calculate_commute_times clock local_to_epoch endpoint students
      school_address api_key travel_mode departure_hour departure_minute
      departure_date progress_bar w = (Ok table, w')
    /\ map row_이름 table = map 이름 students
    /\ map row_주소 table = map 주소 students.
Proof.
  intros Hentry Hconf Hok.
  destruct (run_conforming clock local_to_epoch endpoint students
              school_address api_key travel_mode departure_hour
              departure_minute departure_date progress_bar w Hentry Hconf)
    as (table & w' & Hrun & _).
  exists table, w'. split; [exact Hrun|].
  pose proof (run_answers_conform clock local_to_epoch endpoint students
                school_address api_key travel_mode departure_hour
                departure_minute departure_date progress_bar w Hconf) as Hans.
  pose proof (requests_log_answers clock local_to_epoch endpoint students
                school_address api_key travel_mode departure_hour
                departure_minute departure_date progress_bar w) as Hfrom.
  cbv zeta in Hans, Hfrom. rewrite Hrun in Hans, Hfrom. cbn [snd] in Hans, Hfrom.
  destruct (run_returns _ _ _ _ _ _ _ _ _ _ _ _ _ _ Hrun)
    as (Hlen & Htable & _).
  cbv zeta in Hlen.
  destruct (table_of_students _ _ Hans) as [Hnames Haddrs].
  rewrite Htable, Hnames, Haddrs.
  rewrite accepted_students_all, batches_concat; [split; reflexivity|exact Hlen|].
  apply Forall_forall. intros a Ha. apply Hfrom in Ha as (k & p & ->).
  apply Hok.
Qed.

Lemma accepted_roster_preserved_witness :
  exists table w',
    calculate_commute_times (fun _ => Examples.at_2024_01_01 7 0 0)
      Examples.utc_epoch (Examples.echo_sized [25; 1]%nat)
      (repeat (Examples.student "kim") 26) "school" "secret" "transit"
      None 0 None true initial_world = (Ok table, w')
    /\ map row_이름 table = map 이름 (repeat (Examples.student "kim") 26)
    /\ map row_주소 table = map 주소 (repeat (Examples.student "kim") 26).
Proof.
  apply accepted_roster_preserved.
  - intros k. reflexivity.
  - intros [|[|k]] batch p H; vm_compute in H.
    + injection H as <-. reflexivity.
    + injection H as <-. reflexivity.
    + destruct k; discriminate H.
  - intros k p. reflexivity.
Defined.



Lemma diagnosed_refusals answers :
  diagnosed answers
  = map diagnostic_of (filter (fun a => negb (status_ok a)) answers).
Proof.
  unfold diagnosed. induction answers as [|a answers IH]; [reflexivity|].
  cbn [flat_map filter]. destruct (status_ok a); cbn [negb app map];
    rewrite IH; reflexivity.
Qed.

(** X11. With answers that conform and a departure specification that
    resolves, the diagnostics a run adds are exactly the messages of the
    refused batches, one each, in batch order; the diagnostics recorded before
    the run are kept. *)
Theorem refusals_diagnosed clock local_to_epoch endpoint students
    school_address api_key travel_mode departure_hour departure_minute
    departure_date progress_bar w :
  (forall k, is_ok (departure_entry local_to_epoch departure_hour
                      departure_minute departure_date (clock k)) = true) ->
  (forall k batch p,
     nth_error (batches students) k = Some batch ->
     conforms batch (endpoint (List.length (http_log w) + k)%nat p) = true) ->
  exists table w',
    calculate_commute_times clock local_to_epoch endpoint students
      school_address api_key travel_mode departure_hour departure_minute
      departure_date progress_bar w = (Ok table, w')
    /\ diagnostics w'
       = diagnostics w
         ++ map diagnostic_of
              (filter (fun a => negb (status_ok a))
                      (map snd (exchanged w w'))).
Proof.
  intros Hentry Hconf.
  destruct (run_conforming clock local_to_epoch endpoint students
              school_address api_key travel_mode departure_hour
              departure_minute departure_date progress_bar w Hentry Hconf)
    as (table & w' & Hrun & _ & _ & _ & Hdiag).
  exists table, w'. split; [exact Hrun|].
  rewrite Hdiag, diagnosed_refusals. reflexivity.
Qed.

Lemma refusals_diagnosed_witness :
  exists table w',
    calculate_commute_times (fun _ => Examples.at_2024_01_01 7 0 0)
      Examples.utc_epoch (Examples.refuse_first 1)
      (repeat (Examples.student "kim") 26) "school" "secret" "transit"
      None 0 None true initial_world = (Ok table, w')
    /\ diagnostics w'
       = diagnostics initial_world
         ++ map diagnostic_of
              (filter (fun a => negb (status_ok a))
                      (map snd (exchanged initial_world w'))).
Proof.
  apply refusals_diagnosed.
  - intros k. reflexivity.
  - intros [|[|k]] batch p H; vm_compute in H.
    + reflexivity.
    + injection H as <-. reflexivity.
    + destruct k; discriminate H.
Defined.

(** X12. When the endpoint accepts every request (and its answers conform,
    and the departure specification resolves), a run with a progress bar
    reports once per batch, 1/n, 2/n, ..., n/n for n batches: every report is
    in (0, 1], each is larger than the one before, and the last one is 1. A
    run without a progress bar reports nothing. *)
Theorem progress_of_accepted_run clock local_to_epoch endpoint students
    school_address api_key travel_mode departure_hour departure_minute
    departure_date progress_bar w :
  (forall k, is_ok (departure_entry local_to_epoch departure_hour
                      departure_minute departure_date (clock k)) = true) ->
  (forall k batch p,
     nth_error (batches students) k = Some batch ->
     conforms batch (endpoint (List.length (http_log w) + k)%nat p) = true) ->
  (forall k p, status_ok (endpoint k p) = true) ->
  let n := total_batches_of (List.length students) in
  exists table w',
    calculate_commute_times clock local_to_epoch endpoint students
      school_address api_key travel_mode departure_hour departure_minute
      departure_date progress_bar w = (Ok table, w')
    /\ progress_calls w'
       = progress_calls w
         ++ (if progress_bar
             then map (fun k => fraction (k + 1) n) (seq 0 n) else [])
    /\ (forall k, (k < n)%nat ->
          (0 < fraction (k + 1) n)%Q /\ (fraction (k + 1) n <= 1)%Q)
    /\ (forall k k', (k < k' < n)%nat ->
          (fraction (k + 1) n < fraction (k' + 1) n)%Q)
    /\ ((0 < n)%nat -> (fraction (n - 1 + 1) n == 1)%Q).
Proof.
  intros Hentry Hconf Hok n.
  destruct (run_conforming clock local_to_epoch endpoint students
              school_address api_key travel_mode departure_hour
              departure_minute departure_date progress_bar w Hentry Hconf)
    as (table & w' & Hrun & Hsent & _ & Hprog & _).
  exists table, w'. split; [exact Hrun|].
  pose proof (requests_log_answers clock local_to_epoch endpoint students
                school_address api_key travel_mode departure_hour
                departure_minute departure_date progress_bar w) as Hfrom.
  cbv zeta in Hfrom. rewrite Hrun in Hfrom. cbn [snd] in Hfrom.
  split; [|split; [|split]].
  - rewrite Hprog. f_equal. destruct progress_bar; [|reflexivity].
    rewrite reported_all_ok.
    + rewrite batches_length. reflexivity.
    + rewrite length_seq, length_map. symmetry. exact Hsent.
    + apply Forall_forall. intros a Ha. apply Hfrom in Ha as (k & p & ->).
      apply Hok.
  - intros k Hk. apply fraction_bounds. lia.
  - intros k k' Hk. apply fraction_increasing; lia.
  - intros Hn. replace (n - 1 + 1)%nat with n by lia.
    apply fraction_complete. exact Hn.
Qed.

Lemma progress_of_accepted_run_witness :
  exists table w',
    calculate_commute_times (fun _ => Examples.at_2024_01_01 7 0 0)
      Examples.utc_epoch (Examples.echo_sized [25; 1]%nat)
      (repeat (Examples.student "kim") 26) "school" "secret" "transit"
      None 0 None true initial_world = (Ok table, w')
    /\ progress_calls w' = [] ++ [fraction 1 2; fraction 2 2].
Proof.
  destruct (progress_of_accepted_run (fun _ => Examples.at_2024_01_01 7 0 0)
              Examples.utc_epoch (Examples.echo_sized [25; 1]%nat)
              (repeat (Examples.student "kim") 26) "school" "secret"
              "transit" None 0 None true initial_world)
    as (table & w' & Hrun & Hprog & _).
  - intros k. reflexivity.
  - intros [|[|k]] batch p H; vm_compute in H.
    + injection H as <-. reflexivity.
    + injection H as <-. reflexivity.
    + destruct k; discriminate H.
  - intros k p. reflexivity.
  - exists table, w'. split; [exact Hrun|exact Hprog].
Defined.

(** ** The statistics under the table *)

Lemma valid_times_app t1 t2 :
  valid_times (t1 ++ t2) = valid_times t1 ++ valid_times t2.
Proof.
  unfold valid_times, dropna. rewrite map_app, flat_map_app. reflexivity.
Qed.

Lemma element0s_timed data :
  forallb readable_row (resp_rows data) = true ->
  forallb timed (element0s data) = true.
Proof.
  unfold element0s. induction (resp_rows data) as [|row rows IH];
    [reflexivity|].
  cbn [forallb flat_map]. intros H. apply andb_true_iff in H as [Hrow Hrows].
  rewrite forallb_app, (IH Hrows), andb_true_r.
  unfold readable_row in Hrow.
  destruct (elements row) as [|e rest]; [discriminate|].
  cbn [forallb]. rewrite andb_true_r. unfold timed, succeeded.
  destruct (el_status e =? "OK")%string; [|reflexivity].
  destruct (el_distance e); [|discriminate].
  destruct (el_duration e); [reflexivity|discriminate].
Qed.

Lemma rows_counts : forall (batch : list Student) (els : list Element),
  (List.length els <= List.length batch)%nat ->
  forallb timed els = true ->
  let rows := map (fun se => row_for (fst se) (snd se)) (combine batch els) in
  List.length rows = List.length els
  /\ List.length (valid_times rows) = List.length (filter succeeded els).
Proof.
  intros batch els. revert batch.
  induction els as [|e els IH]; intros batch Hlen Htimed; cbv zeta.
  - rewrite combine_nil. split; reflexivity.
  - destruct batch as [|student batch]; [cbn in Hlen; lia|].
    cbn [forallb] in Htimed. apply andb_true_iff in Htimed as [He Hels].
    cbn [List.length] in Hlen.
    destruct (IH batch ltac:(lia) Hels) as [IH1 IH2].
    cbn [combine map fst snd List.length filter].
    split; [rewrite IH1; reflexivity|].
    change (valid_times (?r :: ?rs))
      with (valid_times ([r] ++ rs)).
    rewrite valid_times_app, length_app, IH2.
    unfold timed in He. unfold valid_times, dropna, row_for.
    fold (succeeded e). destruct (succeeded e).
    + destruct (el_duration e); [reflexivity|discriminate].
    + reflexivity.
Qed.

Lemma table_counts : forall bs answers,
  List.length answers = List.length bs ->
  (forall j batch a,
     nth_error bs j = Some batch -> nth_error answers j = Some a ->
     status_ok a = true ->
     (List.length (resp_rows a) <= List.length batch)%nat
     /\ forallb readable_row (resp_rows a) = true) ->
  List.length (table_of bs answers) = List.length (accepted_elements answers)
  /\ List.length (valid_times (table_of bs answers))
     = List.length (filter succeeded (accepted_elements answers)).
Proof.
  unfold table_of, accepted_elements.
  induction bs as [|batch bs IH]; intros [|a answers] Hlen Hcond;
    try discriminate; [split; reflexivity|].
  injection Hlen as Hlen.
  destruct (IH answers Hlen (fun j => Hcond (S j))) as [IH1 IH2].
  cbn [combine flat_map fst snd].
  rewrite valid_times_app, filter_app, !length_app, IH1, IH2.
  unfold rows_of. destruct (status_ok a) eqn:Hok; [|split; reflexivity].
  destruct (Hcond 0%nat batch a eq_refl eq_refl Hok) as [Hrows Hread].
  destruct (rows_counts batch (element0s a)) as [H1 H2].
  - rewrite element0s_length by exact Hread. exact Hrows.
  - apply element0s_timed. exact Hread.
  - cbv zeta in H1, H2. rewrite H1, H2. split; reflexivity.
Qed.

(** X13. For the table a run returns, the numbers of the "계산 성공" metric
    are read off the answers: the table has one row per element 0 of the
    accepted answers, the valid times are those of the elements whose status
    is "OK", and the metric shows "k/n명" for k such elements among n, or
    nothing when there is none. *)
Theorem success_metric_counts clock local_to_epoch endpoint students
    school_address api_key travel_mode departure_hour departure_minute
    departure_date progress_bar w table w' :
  calculate_commute_times clock local_to_epoch endpoint students
    school_address api_key travel_mode departure_hour departure_minute
    departure_date progress_bar w = (Ok table, w') ->
  let es := accepted_elements (map snd (exchanged w w')) in
  let k := List.length (filter succeeded es) in
  let n := List.length es in
  List.length table = n
  /\ List.length (valid_times table) = k
  /\ success_metric table
     = if (0 <? k)%nat
       then Some (Text.str_int (Z.of_nat k) ++ "/"
                  ++ Text.str_int (Z.of_nat n) ++ "명")%string
       else None.
Proof.
  intros Hrun. cbv zeta.
  destruct (run_returns _ _ _ _ _ _ _ _ _ _ _ _ _ _ Hrun)
    as (Hlen & Htable & Hcond & _).
  cbv zeta in Hlen.
  destruct (table_counts (batches students) (map snd (exchanged w w'))
              Hlen Hcond) as [Hn Hk].
  rewrite <- Htable in Hn, Hk.
  split; [exact Hn|]. split; [exact Hk|].
  unfold success_metric. rewrite Hn, Hk.
  set (es := accepted_elements _).
  pose proof (filter_length_le succeeded es) as Hle.
  destruct (Nat.ltb_spec 0 (List.length (filter succeeded es))) as [Hpos|Hzero].
  - replace (0 <? List.length es)%nat with true; [reflexivity|].
    symmetry. apply Nat.ltb_lt. lia.
  - destruct (0 <? List.length es)%nat; reflexivity.
Qed.

(** Three students in one batch, the second element failed. *)
Lemma success_metric_counts_witness :
  success_metric
    [row_for (Examples.student "kim") (Examples.ok_element 119);
     row_for (Examples.student "lee") (Examples.failed_element "NOT_FOUND");
     row_for (Examples.student "park") (Examples.ok_element 120)]
  = Some "2/3명".
Proof.
  destruct (success_metric_counts
              (fun _ => Examples.at_2024_01_01 7 0 0) Examples.utc_epoch
              (fun _ _ => Examples.ok_response
                            [{| elements := [Examples.ok_element 119] |};
                             {| elements :=
                                  [Examples.failed_element "NOT_FOUND"] |};
                             {| elements := [Examples.ok_element 120] |}])
              [Examples.student "kim"; Examples.student "lee";
               Examples.student "park"]
              "school" "secret" "transit" None 0 None false initial_world
              _ _ eq_refl) as (_ & _ & Hmetric).
  exact Hmetric.
Defined.

(** ** The button of the page *)

Lemma date_str_truthy y m d : truthy (Some (Text.date_str y m d)) = true.
Proof.
  unfold Text.date_str. destruct (Text.format_0d 4 y); reflexivity.
Qed.

(** The call the handler makes, when it makes one. *)
Lemma on_click_run clock local_to_epoch endpoint api_key students s w :
  truthy (Some api_key) = true ->
  on_click clock local_to_epoch endpoint (Some api_key) (Some students) s w
  = let run :=
      calculate_commute_times clock local_to_epoch endpoint students
        SCHOOL_ADDRESS api_key "transit"
        (if use_departure_time s then Some (hour_input s) else None)
        (if use_departure_time s then minute_input s else 0)
        (if use_departure_time s
         then Some (Text.date_str (fst (fst (date_input s)))
                                  (snd (fst (date_input s)))
                                  (snd (date_input s)))
         else None)
        true w in
    (res_bind (fst run) (fun table => Ok (Some table)), snd run).
Proof.
  intros Hkey. unfold on_click, departure_settings. cbv zeta.
  destruct (date_input s) as [[y m] d]. cbn [fst snd].
  destruct (use_departure_time s); rewrite Hkey; cbn [negb];
    unfold bind, ret;
    destruct (calculate_commute_times _ _ _ _ _ _ _ _ _ _ _ _) as [[t|e] w'];
    reflexivity.
Qed.

(** X14. A click with a key, a roster and the departure time switched on,
    the widgets holding an hour in 0..23, a minute in 0..59 and a calendar
    date: the date is always handed to the resolver, so the clock is never
    read and every request of the run carries the same departure time, the
    second the host gives for that date at hour:minute:00. *)
Theorem page_departure_is_dated clock local_to_epoch endpoint api_key students
    s w y m d :
  truthy (Some api_key) = true ->
  use_departure_time s = true ->
  date_input s = (y, m, d) ->
  0 <= hour_input s <= 23 -> 0 <= minute_input s <= 59 ->
  Datetime.check_date_fields y m d = true ->
  let run :=
    on_click clock local_to_epoch endpoint (Some api_key) (Some students) s w in
  clock_reads (snd run) = clock_reads w
  /\ Forall (fun e =>
               exists t,
                 local_to_epoch
                   (Datetime.mk y m d (hour_input s) (minute_input s)
                                0 0 false) = inl t
                 /\ departure_time (fst e) = Some t)
            (exchanged w (snd run)).
Proof.
  intros Hkey Huse Hdate Hh Hmi Hvalid. cbv zeta.
  rewrite on_click_run by exact Hkey. cbv zeta. cbn [snd].
  rewrite Huse, Hdate. cbn [fst snd]. unfold calculate_commute_times.
  set (its := enumerate (range 0 (List.length students) batch_size)).
  set (tb := ((List.length students + batch_size - 1) / batch_size)%nat).
  split.
  - pose proof (loop_frame clock local_to_epoch endpoint students
                  SCHOOL_ADDRESS api_key "transit" (Some (hour_input s))
                  (minute_input s) (Some (Text.date_str y m d)) true tb its
                  [] w) as [Hclock _].
    cbv zeta in Hclock. unfold reads_per_batch in Hclock.
    rewrite date_str_truthy in Hclock. lia.
  - pose proof (loop_requests clock local_to_epoch endpoint students
                  SCHOOL_ADDRESS api_key "transit" (Some (hour_input s))
                  (minute_input s) (Some (Text.date_str y m d)) true tb its
                  [] w) as Hloop.
    cbv zeta in Hloop. destruct Hloop as (new & Hlog & _ & _ & Hnth).
    rewrite (exchanged_app _ _ _ Hlog).
    apply Forall_forall. intros [p a] Hin.
    apply In_nth_error in Hin as [j Hj].
    destruct (Hnth j p a Hj) as (_ & _ & Hentry & _).
    unfold departure_entry in Hentry.
    rewrite ResolverFacts.resolve_dated_iso in Hentry by assumption.
    unfold timestamp_second in Hentry.
    destruct (local_to_epoch _) as [t|e]; [|discriminate].
    exists t. cbn [res_bind fst] in *. split; congruence.
Qed.

Lemma page_departure_is_dated_witness :
  let s := {| use_departure_time := true; hour_input := 8; minute_input := 30;
              date_input := (2024, 1, 2) |} in
  let run :=
    on_click Examples.clock_around_eight Examples.utc_epoch
      (Examples.echo_sized [25; 1]%nat) (Some "secret")
      (Some (repeat (Examples.student "kim") 26)) s initial_world in
  clock_reads (snd run) = clock_reads initial_world
  /\ Forall (fun e => departure_time (fst e) = Some 1704184200)
            (exchanged initial_world (snd run)).
Proof.
  cbv zeta.
  destruct (page_departure_is_dated Examples.clock_around_eight
              Examples.utc_epoch (Examples.echo_sized [25; 1]%nat) "secret"
              (repeat (Examples.student "kim") 26)
              {| use_departure_time := true; hour_input := 8;
                 minute_input := 30; date_input := (2024, 1, 2) |}
              initial_world 2024 1 2
              eq_refl eq_refl eq_refl ltac:(cbn; lia) ltac:(cbn; lia) eq_refl)
    as [Hclock Hall].
  split; [exact Hclock|].
  eapply Forall_impl; [|exact Hall].
  intros e (t & Ht & He). injection Ht as <-. exact He.
Defined.

(** X15. With an endpoint that answers identical requests identically, two
    clicks with the same key, roster and sidebar have the same outcome (the
    same table, the same refusal to start, or the same exception) whatever
    the moment and the state of the page they are made in: the page never lets
    the resolver read the clock. *)
Theorem page_clicks_agree clock local_to_epoch endpoint api_key uploaded_file
    s w1 w2 :
  (forall k k' p, endpoint k p = endpoint k' p) ->
  fst (on_click clock local_to_epoch endpoint api_key uploaded_file s w1)
  = fst (on_click clock local_to_epoch endpoint api_key uploaded_file s w2).
Proof.
  intros Hdet.
  destruct api_key as [key|].
  2:{ unfold on_click. destruct (departure_settings s) as [[dh dm] dd].
      reflexivity. }
  destruct (truthy (Some key)) eqn:Hkey.
  2:{ unfold on_click. destruct (departure_settings s) as [[dh dm] dd].
      rewrite Hkey. reflexivity. }
  destruct uploaded_file as [students|].
  2:{ unfold on_click. destruct (departure_settings s) as [[dh dm] dd].
      rewrite Hkey. reflexivity. }
  rewrite !on_click_run by exact Hkey. cbv zeta. cbn [fst]. f_equal.
  unfold calculate_commute_times.
  apply loop_same_entries; [exact Hdet|].
  intros j _. apply entry_clock_free. unfold reads_per_batch.
  destruct (use_departure_time s); [|reflexivity].
  rewrite date_str_truthy. reflexivity.
Qed.

Lemma page_clicks_agree_witness :
  let s := {| use_departure_time := true; hour_input := 8; minute_input := 0;
              date_input := (2024, 1, 2) |} in
  let click :=
    on_click Examples.clock_seven_then_nine Examples.utc_epoch
      (Examples.echo_endpoint 1) (Some "secret")
      (Some [Examples.student "kim"]) s in
  fst (click initial_world) = fst (click (snd (click initial_world))).
Proof.
  cbv zeta. apply page_clicks_agree. reflexivity.
Defined.

(** ** Errors and the order of time in the resolver *)

Module CalendarOrder.
Import Datetime.

Lemma days_before_year_succ y :
  days_before_year (y + 1)
  = days_before_year y + 365 + (if is_leap y then 1 else 0).
Proof.
  unfold days_before_year, is_leap. cbv zeta.
  replace (y + 1 - 1) with y by lia.
  destruct (Z.eqb_spec (y mod 4) 0) as [H4|H4];
    destruct (Z.eqb_spec (y mod 100) 0) as [H100|H100];
    destruct (Z.eqb_spec (y mod 400) 0) as [H400|H400];
    cbn [andb orb negb]; Z.div_mod_to_equations; lia.
Qed.

Lemma days_before_year_mono y : forall n : nat,
  days_before_year y <= days_before_year (y + Z.of_nat n).
Proof.
  induction n as [|n IH]; [rewrite Z.add_0_r; lia|].
  replace (y + Z.of_nat (S n)) with (y + Z.of_nat n + 1) by lia.
  rewrite days_before_year_succ. destruct (is_leap _); lia.
Qed.

Lemma month_cases m :
  1 <= m <= 12 ->
  m = 1 \/ m = 2 \/ m = 3 \/ m = 4 \/ m = 5 \/ m = 6 \/ m = 7 \/ m = 8
  \/ m = 9 \/ m = 10 \/ m = 11 \/ m = 12.
Proof. lia. Qed.

Lemma day_of_year_bounds y m d :
  1 <= m <= 12 -> 1 <= d <= days_in_month y m ->
  1 <= days_before_month y m + d <= 365 + (if is_leap y then 1 else 0).
Proof.
  intros Hm. unfold days_before_month, days_in_month.
  destruct (month_cases m Hm) as
    [->|[->|[->|[->|[->|[->|[->|[->|[->|[->|[->| ->]]]]]]]]]]];
    destruct (is_leap y); cbn [DAYS_IN_MONTH DAYS_BEFORE_MONTH Z.eqb Z.ltb Z.compare Pos.compare Pos.compare_cont Pos.eqb andb]; intros; lia.
Qed.

Lemma month_order y m m' d :
  1 <= m -> m < m' -> m' <= 12 -> d <= days_in_month y m ->
  days_before_month y m + d <= days_before_month y m'.
Proof.
  intros H1 Hlt H12. unfold days_before_month, days_in_month.
  destruct (month_cases m ltac:(lia)) as
    [->|[->|[->|[->|[->|[->|[->|[->|[->|[->|[->| ->]]]]]]]]]]];
    destruct (month_cases m' ltac:(lia)) as
      [->|[->|[->|[->|[->|[->|[->|[->|[->|[->|[->| ->]]]]]]]]]]];
    try lia; destruct (is_leap y); cbn [DAYS_IN_MONTH DAYS_BEFORE_MONTH Z.eqb Z.ltb Z.compare Pos.compare Pos.compare_cont Pos.eqb andb]; intros; lia.
Qed.

(** The ordinal grows with the date. *)
Lemma ymd2ord_mono y m d y' m' d' :
  check_date_fields y m d = true -> check_date_fields y' m' d' = true ->
  y < y' \/ (y = y' /\ (m < m' \/ (m = m' /\ d <= d'))) ->
  ymd2ord y m d <= ymd2ord y' m' d'.
Proof.
  intros Ha Hb Hle.
  apply ResolverFacts.check_date_fields_bounds in Ha as (Hy & Hm & Hd).
  apply ResolverFacts.check_date_fields_bounds in Hb as (Hy' & Hm' & Hd').
  unfold ymd2ord.
  pose proof (day_of_year_bounds y m d Hm Hd) as Hdoy.
  pose proof (day_of_year_bounds y' m' d' Hm' Hd') as Hdoy'.
  destruct Hle as [Hlt|[-> [Hlt|[-> Hday]]]].
  - pose proof (days_before_year_succ y) as Hsucc.
    pose proof (days_before_year_mono (y + 1) (Z.to_nat (y' - (y + 1)))) as Hmono.
    replace (y + 1 + Z.of_nat (Z.to_nat (y' - (y + 1)))) with y' in Hmono by lia.
    lia.
  - pose proof (month_order y' m m' d ltac:(lia) Hlt ltac:(lia) ltac:(lia)). lia.
  - lia.
Qed.

(** What [a <= b] says about the dates of two naive datetimes. *)
Lemma leb_dates a b :
  leb a b = true ->
  year a < year b
  \/ (year a = year b
      /\ (month a < month b \/ (month a = month b /\ day a <= day b))).
Proof.
  unfold leb, fields. cbn [cmp_fields].
  destruct (Z.compare_spec (year a) (year b)) as [Hy|Hy|Hy];
    [|left; exact Hy|discriminate].
  destruct (Z.compare_spec (month a) (month b)) as [Hm|Hm|Hm];
    [|right; split; [exact Hy|left; exact Hm]|discriminate].
  destruct (Z.compare_spec (day a) (day b)) as [Hd|Hd|Hd];
    [| |discriminate]; intros _; right; (split; [exact Hy|]); right;
    (split; [exact Hm|lia]).
Qed.

End CalendarOrder.

(** X1. Without a date (absent or empty) the resolver reads the clock once
    and hands hour and minute to [replace]. An hour and a minute that fit a C
    [int] but lie outside 0..23 or 0..59 make it raise [ValueError]; an hour
    or a minute that does not fit a C [int] makes it raise [OverflowError]. *)
Theorem resolver_rejects_time clock local_to_epoch hour minute date w :
  truthy date = false ->
  Datetime.valid (clock (clock_reads w)) = true ->
  ~ (0 <= hour <= 23 /\ 0 <= minute <= 59) ->
  (Datetime.INT_MIN <= hour <= Datetime.INT_MAX ->
   Datetime.INT_MIN <= minute <= Datetime.INT_MAX ->
   exists msg,
     get_departure_timestamp clock local_to_epoch hour minute date w
     = (Raise (ValueError msg), tick w))
  /\ (~ (Datetime.INT_MIN <= hour <= Datetime.INT_MAX
         /\ Datetime.INT_MIN <= minute <= Datetime.INT_MAX) ->
      exists msg,
        get_departure_timestamp clock local_to_epoch hour minute date w
        = (Raise (OverflowError msg), tick w)).
Proof.
  intros Hdate Hvalid Hout. rewrite get_departure_timestamp_resolve.
  unfold resolve. rewrite Hdate. unfold Datetime.replace_hmsu. split.
  - intros Hh Hmi. rewrite !ResolverFacts.as_c_int_fits by assumption.
    cbn [res_bind]. unfold Datetime.make.
    unfold Datetime.valid in Hvalid. apply andb_true_iff in Hvalid as [-> _].
    cbn [negb].
    destruct (Datetime.check_time_fields hour minute 0 0) eqn:Htime.
    + exfalso. apply Hout.
      apply ResolverFacts.check_time_fields_bounds in Htime. lia.
    + cbn [negb res_bind]. eexists. reflexivity.
  - intros Hbig. unfold Datetime.as_c_int at 1.
    destruct ((Datetime.INT_MIN <=? hour) && (hour <=? Datetime.INT_MAX))
      eqn:Hh; cbn [res_bind]; [|eexists; reflexivity].
    unfold Datetime.as_c_int.
    destruct ((Datetime.INT_MIN <=? minute) && (minute <=? Datetime.INT_MAX))
      eqn:Hmi; cbn [res_bind]; [|eexists; reflexivity].
    exfalso. apply Hbig.
    apply andb_true_iff in Hh as [H1 H2]. apply andb_true_iff in Hmi as [H3 H4].
    apply Z.leb_le in H1, H2, H3, H4. lia.
Qed.

(** Hour 24, and hour 2^31. *)
Lemma resolver_rejects_time_witness :
  (exists msg,
     get_departure_timestamp (fun _ => Examples.at_2024_01_01 7 0 0)
       Examples.utc_epoch 24 0 (Some "") initial_world
     = (Raise (ValueError msg), tick initial_world))
  /\ (exists msg,
        get_departure_timestamp (fun _ => Examples.at_2024_01_01 7 0 0)
          Examples.utc_epoch 2147483648 0 None initial_world
        = (Raise (OverflowError msg), tick initial_world)).
Proof.
  split.
  - apply (resolver_rejects_time (fun _ => Examples.at_2024_01_01 7 0 0)
             Examples.utc_epoch 24 0 (Some "") initial_world eq_refl eq_refl
             ltac:(lia));
      unfold Datetime.INT_MIN, Datetime.INT_MAX; lia.
  - apply (resolver_rejects_time (fun _ => Examples.at_2024_01_01 7 0 0)
             Examples.utc_epoch 2147483648 0 None initial_world eq_refl
             eq_refl ltac:(lia)).
    unfold Datetime.INT_MIN, Datetime.INT_MAX. lia.
Defined.

(** X2. With a date printed as [str(date)] prints it whose fields are not a
    calendar date (the year 0, a 30th of February, a 31st of April), the
    resolver raises [ValueError] and does not read the clock. *)
Theorem resolver_rejects_date clock local_to_epoch hour minute y m d w :
  0 <= hour <= 23 -> 0 <= minute <= 59 ->
  0 <= y <= 9999 -> 1 <= m <= 12 -> 1 <= d <= 31 ->
  Datetime.check_date_fields y m d = false ->
  exists msg,
    get_departure_timestamp clock local_to_epoch hour minute
      (Some (Text.date_str y m d)) w
    = (Raise (ValueError msg), w).
Proof.
  intros Hh Hmi Hy Hm Hd Hbad. rewrite get_departure_timestamp_resolve.
  unfold resolve. rewrite date_str_truthy.
  rewrite TextFacts.strptime_format by assumption.
  unfold Datetime.make. rewrite Hbad. cbn [negb res_bind].
  eexists. reflexivity.
Qed.

Lemma resolver_rejects_date_witness :
  exists msg,
    get_departure_timestamp (fun _ => Examples.at_2024_01_01 7 0 0)
      Examples.utc_epoch 8 0 (Some "2023-02-29") initial_world
    = (Raise (ValueError msg), initial_world).
Proof.
  apply (resolver_rejects_date (fun _ => Examples.at_2024_01_01 7 0 0)
           Examples.utc_epoch 8 0 2023 2 29 initial_world);
    try lia; reflexivity.
Defined.

(** X3. Without a date, for an hour in 0..23, a minute in 0..59 and a valid
    clock reading before 9999-12-31, the datetime whose timestamp the resolver
    takes is strictly after the clock reading in the order of naive datetimes,
    and its date is the date of the reading or the day after. The resolver
    returns the second the host gives for that datetime, and raises what
    [timestamp()] raises when the host gives none. *)
Theorem resolver_result_after_now clock local_to_epoch hour minute w :
  0 <= hour <= 23 -> 0 <= minute <= 59 ->
  let now := clock (clock_reads w) in
  Datetime.valid now = true ->
  Datetime.toordinal now < Datetime.MAXORDINAL ->
  exists dt,
    get_departure_timestamp clock local_to_epoch hour minute None w
    = (timestamp_second (local_to_epoch dt), tick w)
    /\ Datetime.leb dt now = false
    /\ Datetime.toordinal now <= Datetime.toordinal dt
       <= Datetime.toordinal now + 1.
Proof.
  intros Hh Hmi now Hvalid Hlast.
  destruct (ResolverFacts.resolve_next_occurrence local_to_epoch hour minute
              now Hh Hmi Hvalid Hlast)
    as (dt & Hres & Hvdt & _ & _ & _ & _ & Hcase).
  exists dt. rewrite get_departure_timestamp_resolve. fold now. rewrite Hres.
  split; [reflexivity|]. cbv zeta in Hcase.
  destruct (Datetime.leb _ now) eqn:Hleb.
  - destruct Hcase as [Hord _]. split; [|lia].
    destruct (Datetime.leb dt now) eqn:Hback; [|reflexivity].
    exfalso. apply CalendarOrder.leb_dates in Hback.
    unfold Datetime.valid in Hvdt, Hvalid.
    apply andb_true_iff in Hvdt as [Hvdt _].
    apply andb_true_iff in Hvalid as [Hvnow _].
    pose proof (CalendarOrder.ymd2ord_mono _ _ _ _ _ _ Hvdt Hvnow Hback) as Hmono.
    unfold Datetime.toordinal in Hord. lia.
  - subst dt. split; [exact Hleb|].
    unfold Datetime.toordinal. cbn. lia.
Qed.

(** At 09:00 of 2024-01-01, and at 07:00 of 0001-01-01, where [timestamp()]
    raises on a host in UTC. *)
Lemma resolver_result_after_now_witness :
  (exists dt,
     get_departure_timestamp (fun _ => Examples.at_2024_01_01 9 0 0)
       Examples.utc_epoch 8 0 None initial_world
     = (timestamp_second (Examples.utc_epoch dt), tick initial_world)
     /\ Datetime.leb dt (Examples.at_2024_01_01 9 0 0) = false
     /\ Datetime.toordinal (Examples.at_2024_01_01 9 0 0)
        <= Datetime.toordinal dt
        <= Datetime.toordinal (Examples.at_2024_01_01 9 0 0) + 1)
  /\ (exists dt,
        get_departure_timestamp (fun _ => Datetime.mk 1 1 1 7 0 0 0 false)
          Examples.utc_epoch 8 0 None initial_world
        = (timestamp_second (Examples.utc_epoch dt), tick initial_world)
        /\ Datetime.leb dt (Datetime.mk 1 1 1 7 0 0 0 false) = false
        /\ Datetime.toordinal (Datetime.mk 1 1 1 7 0 0 0 false)
           <= Datetime.toordinal dt
           <= Datetime.toordinal (Datetime.mk 1 1 1 7 0 0 0 false) + 1).
Proof.
  split.
  - apply (resolver_result_after_now (fun _ => Examples.at_2024_01_01 9 0 0)
             Examples.utc_epoch 8 0 initial_world);
      try lia; reflexivity.
  - apply (resolver_result_after_now
             (fun _ => Datetime.mk 1 1 1 7 0 0 0 false)
             Examples.utc_epoch 8 0 initial_world);
      try lia; reflexivity.
Defined.

(** X4. On 9999-12-31, the last day a datetime can hold, a departure time
    that is not after the clock reading cannot be moved to the next day: the
    resolver raises [OverflowError]. *)
Theorem resolver_overflows_on_last_day clock local_to_epoch hour minute w :
  0 <= hour <= 23 -> 0 <= minute <= 59 ->
  let now := clock (clock_reads w) in
  Datetime.valid now = true ->
  Datetime.toordinal now = Datetime.MAXORDINAL ->
  Datetime.leb
    (Datetime.mk (Datetime.year now) (Datetime.month now) (Datetime.day now)
                 hour minute 0 0 (Datetime.fold now)) now = true ->
  exists msg,
    get_departure_timestamp clock local_to_epoch hour minute None w
    = (Raise (OverflowError msg), tick w).
Proof.
  intros Hh Hmi now Hvalid Hlast Hleb.
  rewrite get_departure_timestamp_resolve. fold now.
  unfold resolve. cbn [truthy].
  rewrite ResolverFacts.replace_hmsu_in_range by assumption.
  cbn [res_bind]. rewrite Hleb.
  unfold Datetime.add_days. cbv zeta.
  cbn [Datetime.hour Datetime.minute Datetime.second].
  change (Datetime.toordinal (Datetime.mk (Datetime.year now)
            (Datetime.month now) (Datetime.day now) hour minute 0 0
            (Datetime.fold now)))
    with (Datetime.toordinal now).
  rewrite Hlast.
  rewrite (Z.div_small (hour * 3600 + minute * 60 + 0) 86400) by lia.
  change (Datetime.MAXORDINAL + 0 + 1 <=? Datetime.MAXORDINAL) with false.
  rewrite andb_false_r. cbn [res_bind]. eexists. reflexivity.
Qed.

Lemma resolver_overflows_on_last_day_witness :
  exists msg,
    get_departure_timestamp
      (fun _ => Datetime.mk 9999 12 31 9 0 0 0 false) Examples.utc_epoch
      8 0 None initial_world
    = (Raise (OverflowError msg), tick initial_world).
Proof.
  apply (resolver_overflows_on_last_day
           (fun _ => Datetime.mk 9999 12 31 9 0 0 0 false) Examples.utc_epoch
           8 0 initial_world);
    try lia; reflexivity.
Defined.

(** ** The division of the progress report *)

Lemma make_no_zero_division y m d h mi s us f :
  Datetime.make y m d h mi s us f <> Raise ZeroDivisionError.
Proof.
  unfold Datetime.make.
  destruct (negb _); [discriminate|]. destruct (negb _); discriminate.
Qed.

Lemma strptime_no_zero_division s : strptime s <> Raise ZeroDivisionError.
Proof.
  unfold strptime. cbv zeta.
  destruct (Text.p_bind _ _ s) as [[[[[[y m] d] h] mi] [|c rest]]|];
    try discriminate.
  apply make_no_zero_division.
Qed.

Lemma int_timestamp_no_zero_division local_to_epoch dt :
  int_timestamp local_to_epoch dt <> Raise ZeroDivisionError.
Proof.
  unfold int_timestamp. destruct (local_to_epoch dt) as [s|[y| |msg]];
    discriminate.
Qed.

Lemma replace_hmsu_no_zero_division now h mi :
  Datetime.replace_hmsu now h mi <> Raise ZeroDivisionError.
Proof.
  unfold Datetime.replace_hmsu, Datetime.as_c_int.
  destruct (_ && _); [|discriminate]. destruct (_ && _); [|discriminate].
  cbn [res_bind]. apply make_no_zero_division.
Qed.

Lemma resolve_no_zero_division local_to_epoch hour minute date now :
  resolve local_to_epoch hour minute date now <> Raise ZeroDivisionError.
Proof.
  unfold resolve. destruct (truthy date).
  - pose proof (strptime_no_zero_division
                  ((match date with Some s => s | None => EmptyString end)
                   ++ " " ++ Text.format_0d 2 hour ++ ":"
                   ++ Text.format_0d 2 minute)) as Hs.
    cbv zeta. destruct (strptime _) as [dt|e]; cbn [res_bind];
      [apply int_timestamp_no_zero_division|congruence].
  - pose proof (replace_hmsu_no_zero_division now hour minute) as Hm.
    destruct (Datetime.replace_hmsu _ _ _) as [dt|e]; cbn [res_bind];
      [|congruence].
    destruct (Datetime.leb dt now);
      [|apply int_timestamp_no_zero_division].
    unfold Datetime.add_days. cbv zeta.
    destruct (_ && _); [|discriminate].
    destruct (Datetime.ord2ymd _) as [[y m] d]. cbn [res_bind].
    apply int_timestamp_no_zero_division.
Qed.

Lemma rows_loop_no_zero_division batch jrows : forall results,
  rows_loop batch jrows results <> Raise ZeroDivisionError.
Proof.
  induction jrows as [|[j row] rest IH]; intros results; [discriminate|].
  cbn [rows_loop]. unfold process_row.
  destruct (nth_error batch j) as [student|]; [|discriminate].
  destruct (elements row) as [|element tl]; [discriminate|].
  destruct (el_status element =? "OK")%string; [|apply IH].
  destruct (el_distance element); [|discriminate].
  destruct (el_duration element); [|discriminate].
  apply IH.
Qed.

Section DivisionFacts.

Variable clock : nat -> Datetime.datetime.
Variable local_to_epoch : Datetime.datetime -> Z + timestamp_error.
Variable endpoint : nat -> Params -> Response.
Variable students : list Student.
Variable school_address api_key mode : string.
Variable departure_hour : option Z.
Variable departure_minute : Z.
Variable departure_date : option string.
Variable progress_bar : bool.

Local Abbreviation step :=
  (process_batch clock local_to_epoch endpoint students school_address
     api_key mode departure_hour departure_minute departure_date progress_bar).
Local Abbreviation loop :=
  (batches_loop clock local_to_epoch endpoint students school_address
     api_key mode departure_hour departure_minute departure_date progress_bar).

Lemma step_no_zero_division total_batches batch_idx i results w :
  (0 < total_batches)%nat ->
  fst (step total_batches batch_idx i results w) <> Raise ZeroDivisionError.
Proof.
  intros Htotal. rewrite process_batch_eq. cbv zeta.
  destruct (departure_entry _ _ _ _ _) as [t|e] eqn:Hentry.
  - destruct (status_ok _); [|discriminate].
    pose proof (rows_loop_no_zero_division
                  (slice students i (i + batch_size))
                  (enumerate (resp_rows
                     (endpoint (List.length (http_log w))
                        (mkParams
                           (String.concat "|"
                              (map 주소 (slice students i (i + batch_size))))
                           school_address mode "ko" api_key t))))
                  results) as Hrows.
    destruct (rows_loop _ _ _) as [out|e]; [|cbn [fst]; congruence].
    destruct progress_bar; [|discriminate].
    destruct total_batches; [lia|discriminate].
  - cbn [fst]. intros Heq. injection Heq as ->.
    unfold departure_entry in Hentry.
    destruct departure_hour as [h|]; [|discriminate].
    pose proof (resolve_no_zero_division local_to_epoch h departure_minute
                  departure_date (clock (clock_reads w))) as Hres.
    destruct (resolve _ _ _ _ _); [discriminate|]. cbn [res_bind] in Hentry.
    congruence.
Qed.

Lemma loop_no_zero_division total_batches its :
  (0 < total_batches)%nat ->
  forall results w,
    fst (loop total_batches its results w) <> Raise ZeroDivisionError.
Proof.
  intros Htotal. induction its as [|[batch_idx i] rest IH]; intros results w.
  - discriminate.
  - cbn [batches_loop]. unfold bind.
    pose proof (step_no_zero_division total_batches batch_idx i results w
                  Htotal) as Hstep.
    destruct (step _ _ _ _ _) as [[out|e] w1]; [apply IH|exact Hstep].
Qed.

End DivisionFacts.

(** X5. No run raises [ZeroDivisionError]: the quotient
    [(batch_idx + 1) / total_batches] is only computed inside the loop over
    the batches, which has an iteration only when the roster has a student,
    and then [total_batches] is at least 1. For the empty roster
    [total_batches] is 0 and the run returns the empty table without asking,
    reading or reporting anything. *)
Theorem run_never_divides_by_zero clock local_to_epoch endpoint students
    school_address api_key travel_mode departure_hour departure_minute
    departure_date progress_bar w :
  let run :=
    calculate_commute_times clock local_to_epoch endpoint students
      school_address api_key travel_mode departure_hour departure_minute
      departure_date progress_bar in
  fst (run w) <> Raise ZeroDivisionError
  /\ (students = [] -> run w = (Ok [], w))
  /\ (students <> [] ->
      (1 <= (List.length students + batch_size - 1) / batch_size)%nat).
Proof.
  cbv zeta.
  assert (Hpos : students <> [] ->
                 (1 <= (List.length students + batch_size - 1) / batch_size)%nat).
  { intros Hne. destruct students as [|s rest]; [congruence|].
    unfold batch_size. cbn [List.length].
    apply Nat.div_le_lower_bound; lia. }
  split; [|split; [intros ->; reflexivity|exact Hpos]].
  destruct students as [|s rest] eqn:Hstudents; [discriminate|].
  rewrite <- Hstudents in *. unfold calculate_commute_times. cbv zeta.
  apply loop_no_zero_division. apply Hpos. congruence.
Qed.

Lemma run_never_divides_by_zero_witness :
  fst (calculate_commute_times Examples.clock_around_eight Examples.utc_epoch
         (Examples.echo_endpoint 1) [Examples.student "kim"] "school" "secret"
         "transit" (Some 8) 0 None true initial_world)
  <> Raise ZeroDivisionError
  /\ (1 <= (1 + batch_size - 1) / batch_size)%nat.
Proof.
  destruct (run_never_divides_by_zero Examples.clock_around_eight
              Examples.utc_epoch (Examples.echo_endpoint 1)
              [Examples.student "kim"] "school" "secret" "transit" (Some 8) 0
              None true initial_world)
    as (Hrun & _ & Hpos).
  split; [exact Hrun|apply Hpos; discriminate].
Defined.

(** * The rows and the batches of a run *)

(** ** Where the row of an element is *)

Lemma nth_error_combine {A B} : forall (l1 : list A) (l2 : list B) j x y,
  nth_error l1 j = Some x -> nth_error l2 j = Some y ->
  nth_error (combine l1 l2) j = Some (x, y).
Proof.
  induction l1 as [|a l1 IH]; intros [|b l2] [|j] x y H1 H2;
    try discriminate.
  - injection H1 as ->. injection H2 as ->. reflexivity.
  - cbn [combine nth_error] in *. apply IH; assumption.
Qed.

Lemma element0s_nth data : forall j row element rest,
  forallb readable_row (resp_rows data) = true ->
  nth_error (resp_rows data) j = Some row ->
  elements row = element :: rest ->
  nth_error (element0s data) j = Some element.
Proof.
  unfold element0s. generalize (resp_rows data). clear data.
  induction l as [|r rows IH]; intros [|j] row element rest Hread Hrow Hel;
    try discriminate; cbn [forallb] in Hread;
    apply andb_true_iff in Hread as [Hr Hrest]; cbn [nth_error] in Hrow.
  - injection Hrow as ->. cbn [flat_map]. rewrite Hel. reflexivity.
  - cbn [flat_map]. unfold readable_row in Hr.
    destruct (elements r) as [|e tl]; [discriminate|].
    cbn [app nth_error]. eapply IH; eassumption.
Qed.

Lemma rows_of_nth batch data j student row element rest :
  status_ok data = true ->
  forallb readable_row (resp_rows data) = true ->
  nth_error batch j = Some student ->
  nth_error (resp_rows data) j = Some row ->
  elements row = element :: rest ->
  nth_error (rows_of batch data) j = Some (row_for student element).
Proof.
  intros Hok Hread Hstudent Hrow Hel. unfold rows_of. rewrite Hok.
  rewrite nth_error_map.
  rewrite (nth_error_combine batch (element0s data) j student element Hstudent
             (element0s_nth data j row element rest Hread Hrow Hel)).
  reflexivity.
Qed.

Lemma rows_of_length batch data :
  status_ok data = true ->
  (List.length (resp_rows data) <= List.length batch)%nat ->
  forallb readable_row (resp_rows data) = true ->
  List.length (rows_of batch data) = List.length (resp_rows data).
Proof.
  intros Hok Hlen Hread. unfold rows_of. rewrite Hok.
  rewrite length_map, length_combine, (element0s_length data Hread). lia.
Qed.

Lemma table_of_cons batch bs a answers :
  table_of (batch :: bs) (a :: answers)
  = rows_of batch a ++ table_of bs answers.
Proof. reflexivity. Qed.

Lemma rows_before_next : forall k bs answers batch a,
  nth_error bs k = Some batch -> nth_error answers k = Some a ->
  rows_before (S k) bs answers
  = (rows_before k bs answers + List.length (rows_of batch a))%nat.
Proof.
  unfold rows_before.
  induction k as [|k IH]; intros [|b bs] [|a' answers] batch a Hb Ha;
    try discriminate.
  - injection Hb as ->. injection Ha as ->.
    cbn [firstn]. rewrite table_of_cons. cbn. rewrite app_nil_r. reflexivity.
  - cbn [nth_error] in Hb, Ha. specialize (IH bs answers batch a Hb Ha).
    change (firstn (S (S k)) (b :: bs)) with (b :: firstn (S k) bs).
    change (firstn (S (S k)) (a' :: answers)) with (a' :: firstn (S k) answers).
    change (firstn (S k) (b :: bs)) with (b :: firstn k bs).
    change (firstn (S k) (a' :: answers)) with (a' :: firstn k answers).
    rewrite !table_of_cons, !length_app, IH. lia.
Qed.

Lemma table_of_nth : forall k bs answers batch a j r,
  nth_error bs k = Some batch -> nth_error answers k = Some a ->
  nth_error (rows_of batch a) j = Some r ->
  nth_error (table_of bs answers) (rows_before k bs answers + j) = Some r.
Proof.
  unfold rows_before.
  induction k as [|k IH]; intros [|b bs] [|a' answers] batch a j r Hb Ha Hr;
    try discriminate.
  - injection Hb as ->. injection Ha as ->.
    rewrite table_of_cons. cbn [firstn]. cbn [table_of combine flat_map List.length].
    rewrite Nat.add_0_l. rewrite nth_error_app1; [exact Hr|].
    apply nth_error_Some. congruence.
  - cbn [nth_error] in Hb, Ha.
    change (firstn (S k) (b :: bs)) with (b :: firstn k bs).
    change (firstn (S k) (a' :: answers)) with (a' :: firstn k answers).
    rewrite !table_of_cons, length_app, <- Nat.add_assoc.
    rewrite nth_error_app2 by lia.
    replace (List.length (rows_of b a')
             + (List.length (table_of (firstn k bs) (firstn k answers)) + j)
             - List.length (rows_of b a'))%nat
      with (List.length (table_of (firstn k bs) (firstn k answers)) + j)%nat
      by lia.
    eapply IH; eassumption.
Qed.

(** In the element loop: the row of response row [j] is row [j] of the rows
    the loop appends, it is built from student [j], and the loop appends one
    row per response row. *)
Lemma rows_loop_row_at batch rows results out j row element rest :
  rows_loop batch (enumerate rows) results = Ok out ->
  nth_error rows j = Some row ->
  elements row = element :: rest ->
  exists student,
    nth_error batch j = Some student
    /\ nth_error out (List.length results + j) = Some (row_for student element)
    /\ List.length out = (List.length results + List.length rows)%nat
    /\ readable_row row = true.
Proof.
  intros Hloop Hrow Hel.
  set (data := {| resp_status := "OK"; resp_error_message := None;
                  resp_rows := rows |}).
  destruct (rows_loop_rows_of batch data results out eq_refl Hloop)
    as (Hout & Hlen & Hread).
  cbn [resp_rows data] in Hlen, Hread.
  assert (Hj : (j < List.length rows)%nat)
    by (apply nth_error_Some; congruence).
  destruct (nth_error batch j) as [student|] eqn:Hstudent;
    [|apply nth_error_None in Hstudent; lia].
  exists student. split; [reflexivity|]. rewrite Hout. split; [|split].
  - rewrite nth_error_app2 by lia.
    replace (List.length results + j - List.length results)%nat with j by lia.
    exact (rows_of_nth batch data j student row element rest eq_refl Hread
             Hstudent Hrow Hel).
  - rewrite length_app. f_equal.
    exact (rows_of_length batch data eq_refl Hlen Hread).
  - rewrite forallb_forall in Hread. apply Hread.
    eapply nth_error_In. exact Hrow.
Qed.

(** In a run that returns: the same, for response row [j] of the accepted
    answer to batch [k]; the rows of batch [k] start at index
    [rows_before k] of the table and there is one per response row. *)
Lemma run_row_at clock local_to_epoch endpoint students school_address
    api_key travel_mode departure_hour departure_minute departure_date
    progress_bar w table w' k a j row element rest :
  calculate_commute_times clock local_to_epoch endpoint students
    school_address api_key travel_mode departure_hour departure_minute
    departure_date progress_bar w = (Ok table, w') ->
  let answers := map snd (exchanged w w') in
  nth_error answers k = Some a ->
  status_ok a = true ->
  nth_error (resp_rows a) j = Some row ->
  elements row = element :: rest ->
  exists batch student,
    nth_error (batches students) k = Some batch
    /\ nth_error batch j = Some student
    /\ nth_error table (rows_before k (batches students) answers + j)
       = Some (row_for student element)
    /\ rows_before (S k) (batches students) answers
       = (rows_before k (batches students) answers
          + List.length (resp_rows a))%nat
    /\ readable_row row = true.
Proof.
  intros Hrun answers Ha Hok Hrow Hel.
  destruct (run_returns _ _ _ _ _ _ _ _ _ _ _ _ _ _ Hrun)
    as (Hlen & Htable & Hcond & _).
  fold answers in Hlen, Htable, Hcond.
  assert (Hk : (k < List.length (batches students))%nat).
  { rewrite <- Hlen. apply nth_error_Some. congruence. }
  destruct (nth_error (batches students) k) as [batch|] eqn:Hbatch;
    [|apply nth_error_None in Hbatch; lia].
  destruct (Hcond k batch a Hbatch Ha Hok) as [Hrows Hread].
  assert (Hj : (j < List.length (resp_rows a))%nat)
    by (apply nth_error_Some; congruence).
  destruct (nth_error batch j) as [student|] eqn:Hstudent;
    [|apply nth_error_None in Hstudent; lia].
  exists batch, student. split; [reflexivity|]. split; [exact Hstudent|].
  split; [|split].
  - rewrite Htable. apply (table_of_nth k _ _ batch a); try assumption.
    exact (rows_of_nth batch a j student row element rest Hok Hread Hstudent
             Hrow Hel).
  - rewrite (rows_before_next k _ _ batch a Hbatch Ha).
    rewrite (rows_of_length batch a Hok Hrows Hread). reflexivity.
  - rewrite forallb_forall in Hread. apply Hread.
    eapply nth_error_In. exact Hrow.
Qed.

Lemma row_for_failed student element :
  el_status element <> "OK" ->
  row_for student element
  = {| row_이름 := 이름 student;
       row_주소 := 주소 student;
       row_거리 := ("오류: " ++ el_status element)%string;
       row_거리_m := None;
       row_소요시간 := ("오류: " ++ el_status element)%string;
       row_소요시간_분 := None |}.
Proof.
  intros Hst. unfold row_for. apply String.eqb_neq in Hst. rewrite Hst.
  reflexivity.
Qed.

Lemma row_for_succeeded student row element rest :
  elements row = element :: rest ->
  readable_row row = true ->
  el_status element = "OK" ->
  exists distance duration,
    el_distance element = Some distance
    /\ el_duration element = Some duration
    /\ row_for student element
       = {| row_이름 := 이름 student;
            row_주소 := 주소 student;
            row_거리 := text distance;
            row_거리_m := Some (value distance);
            row_소요시간 := text duration;
            row_소요시간_분 := Some (value duration / 60) |}.
Proof.
  intros Hel Hread Hst. unfold readable_row in Hread. rewrite Hel in Hread.
  unfold row_for. apply String.eqb_eq in Hst. rewrite Hst in *.
  destruct (el_distance element) as [distance|]; [|discriminate].
  destruct (el_duration element) as [duration|]; [|discriminate].
  exists distance, duration. repeat split.
Qed.

(** ** Rows of failed and of successful elements *)

(** C5. For every element of an "OK" answer whose status is not "OK", one
    row is appended at the element's position: it keeps the name and address
    of the student at that position of the batch, both text fields are the
    marker "오류: <status>" (Korean for "error: <status>") and both numeric
    fields are [None]. This holds of the element loop, which appends one row
    per response row, and of the table a run returns, where the rows of batch
    k start after those of the batches before it. *)
Theorem failed_element_row :
  (forall batch rows results out j row element rest,
     rows_loop batch (enumerate rows) results = Ok out ->
     nth_error rows j = Some row ->
     elements row = element :: rest ->
     el_status element <> "OK" ->
     exists student,
       nth_error batch j = Some student
       /\ nth_error out (List.length results + j)
          = Some {| row_이름 := 이름 student;
                    row_주소 := 주소 student;
                    row_거리 := ("오류: " ++ el_status element)%string;
                    row_거리_m := None;
                    row_소요시간 := ("오류: " ++ el_status element)%string;
                    row_소요시간_분 := None |}
       /\ List.length out = (List.length results + List.length rows)%nat)
  /\ (forall clock local_to_epoch endpoint students school_address api_key
             travel_mode departure_hour departure_minute departure_date
             progress_bar w table w' k a j row element rest,
        calculate_commute_times clock local_to_epoch endpoint students
          school_address api_key travel_mode departure_hour departure_minute
          departure_date progress_bar w = (Ok table, w') ->
        let answers := map snd (exchanged w w') in
        nth_error answers k = Some a ->
        status_ok a = true ->
        nth_error (resp_rows a) j = Some row ->
        elements row = element :: rest ->
        el_status element <> "OK" ->
        exists batch student,
          nth_error (batches students) k = Some batch
          /\ nth_error batch j = Some student
          /\ nth_error table (rows_before k (batches students) answers + j)
             = Some {| row_이름 := 이름 student;
                       row_주소 := 주소 student;
                       row_거리 := ("오류: " ++ el_status element)%string;
                       row_거리_m := None;
                       row_소요시간 := ("오류: " ++ el_status element)%string;
                       row_소요시간_분 := None |}
          /\ rows_before (S k) (batches students) answers
             = (rows_before k (batches students) answers
                + List.length (resp_rows a))%nat).
Proof.
  split.
  - intros batch rows results out j row element rest Hloop Hrow Hel Hst.
    destruct (rows_loop_row_at batch rows results out j row element rest
                Hloop Hrow Hel) as (student & Hstudent & Hout & Hlen & _).
    exists student. rewrite <- (row_for_failed student element Hst). auto.
  - intros clock local_to_epoch endpoint students school_address api_key
      travel_mode departure_hour departure_minute departure_date progress_bar
      w table w' k a j row element rest Hrun answers Ha Hok Hrow Hel Hst.
    destruct (run_row_at _ _ _ _ _ _ _ _ _ _ _ _ _ _ k a j row element rest
                Hrun Ha Hok Hrow Hel)
      as (batch & student & Hbatch & Hstudent & Htable & Hnext & _).
    exists batch, student.
    rewrite <- (row_for_failed student element Hst). auto.
Qed.

(** Three students, one batch, element statuses OK, NOT_FOUND, OK: the table
    has three rows and the second one is the failure row of the second
    student. *)
Lemma failed_element_row_witness :
  (exists out,
     rows_loop
       [Examples.student "kim"; Examples.student "lee"; Examples.student "park"]
       (enumerate (resp_rows Examples.mixed_response)) [] = Ok out
     /\ List.length out = 3%nat
     /\ nth_error out 1
        = Some {| row_이름 := "lee";
                  row_주소 := "addr lee";
                  row_거리 := "오류: NOT_FOUND";
                  row_거리_m := None;
                  row_소요시간 := "오류: NOT_FOUND";
                  row_소요시간_분 := None |})
  /\ exists table w',
       calculate_commute_times (fun _ => Examples.at_2024_01_01 7 0 0)
         Examples.utc_epoch (fun _ _ => Examples.mixed_response)
         [Examples.student "kim"; Examples.student "lee";
          Examples.student "park"]
         "school" "secret" "transit" None 0 None false initial_world
       = (Ok table, w')
       /\ List.length table = 3%nat
       /\ nth_error table 1
          = Some {| row_이름 := "lee";
                    row_주소 := "addr lee";
                    row_거리 := "오류: NOT_FOUND";
                    row_거리_m := None;
                    row_소요시간 := "오류: NOT_FOUND";
                    row_소요시간_분 := None |}.
Proof.
  destruct failed_element_row as [Hloop Hrun]. split.
  { eexists. split; [reflexivity|].
    destruct (Hloop [Examples.student "kim"; Examples.student "lee";
                     Examples.student "park"]
                (resp_rows Examples.mixed_response) [] _ 1%nat
                {| elements := [Examples.failed_element "NOT_FOUND"] |}
                (Examples.failed_element "NOT_FOUND") []
                eq_refl eq_refl eq_refl ltac:(discriminate))
      as (student & Hstudent & Hrow & Hlen).
    injection Hstudent as <-. split; [exact Hlen|exact Hrow]. }
  eexists _, _. split; [reflexivity|]. split; [reflexivity|].
  destruct (Hrun (fun _ => Examples.at_2024_01_01 7 0 0)
              Examples.utc_epoch (fun _ _ => Examples.mixed_response)
              [Examples.student "kim"; Examples.student "lee";
               Examples.student "park"]
              "school" "secret" "transit" None 0 None false initial_world
              _ _ 0%nat Examples.mixed_response 1%nat
              {| elements := [Examples.failed_element "NOT_FOUND"] |}
              (Examples.failed_element "NOT_FOUND") []
              eq_refl eq_refl eq_refl eq_refl eq_refl ltac:(discriminate))
    as (batch & student & Hbatch & Hstudent & Hrow & _).
  injection Hbatch as <-. injection Hstudent as <-. exact Hrow.
Defined.

(** C8. For every element of an "OK" answer whose status is "OK", the row
    appended at the element's position carries the returned distance and
    duration, and its minutes field is the duration in seconds divided by 60
    with floor division, the integer q with 60q <= seconds < 60q + 60: 119
    seconds give 1 minute and 120 seconds give 2 minutes. This holds of the
    element loop and of the table a run returns. *)
Theorem success_row_minutes :
  (forall batch rows results out j row element rest,
     rows_loop batch (enumerate rows) results = Ok out ->
     nth_error rows j = Some row ->
     elements row = element :: rest ->
     el_status element = "OK" ->
     exists student distance duration,
       nth_error batch j = Some student
       /\ el_distance element = Some distance
       /\ el_duration element = Some duration
       /\ nth_error out (List.length results + j)
          = Some {| row_이름 := 이름 student;
                    row_주소 := 주소 student;
                    row_거리 := text distance;
                    row_거리_m := Some (value distance);
                    row_소요시간 := text duration;
                    row_소요시간_분 := Some (value duration / 60) |}
       /\ 60 * (value duration / 60) <= value duration
          < 60 * (value duration / 60) + 60)
  /\ (forall clock local_to_epoch endpoint students school_address api_key
             travel_mode departure_hour departure_minute departure_date
             progress_bar w table w' k a j row element rest,
        calculate_commute_times clock local_to_epoch endpoint students
          school_address api_key travel_mode departure_hour departure_minute
          departure_date progress_bar w = (Ok table, w') ->
        let answers := map snd (exchanged w w') in
        nth_error answers k = Some a ->
        status_ok a = true ->
        nth_error (resp_rows a) j = Some row ->
        elements row = element :: rest ->
        el_status element = "OK" ->
        exists batch student distance duration minutes,
          nth_error (batches students) k = Some batch
          /\ nth_error batch j = Some student
          /\ el_distance element = Some distance
          /\ el_duration element = Some duration
          /\ nth_error table (rows_before k (batches students) answers + j)
             = Some {| row_이름 := 이름 student;
                       row_주소 := 주소 student;
                       row_거리 := text distance;
                       row_거리_m := Some (value distance);
                       row_소요시간 := text duration;
                       row_소요시간_분 := Some minutes |}
          /\ minutes = value duration / 60
          /\ 60 * minutes <= value duration < 60 * minutes + 60
          /\ (value duration = 119 -> minutes = 1)
          /\ (value duration = 120 -> minutes = 2)).
Proof.
  assert (Hfloor : forall v, 60 * (v / 60) <= v < 60 * (v / 60) + 60).
  { intros v. pose proof (Z.div_mod v 60 ltac:(lia)) as Hdm.
    pose proof (Z.mod_pos_bound v 60 ltac:(lia)) as Hb. lia. }
  split.
  - intros batch rows results out j row element rest Hloop Hrow Hel Hst.
    destruct (rows_loop_row_at batch rows results out j row element rest
                Hloop Hrow Hel) as (student & Hstudent & Hout & _ & Hread).
    destruct (row_for_succeeded student row element rest Hel Hread Hst)
      as (distance & duration & Hdist & Hdur & Hfor).
    exists student, distance, duration. rewrite <- Hfor. auto.
  - intros clock local_to_epoch endpoint students school_address api_key
      travel_mode departure_hour departure_minute departure_date progress_bar
      w table w' k a j row element rest Hrun answers Ha Hok Hrow Hel Hst.
    destruct (run_row_at _ _ _ _ _ _ _ _ _ _ _ _ _ _ k a j row element rest
                Hrun Ha Hok Hrow Hel)
      as (batch & student & Hbatch & Hstudent & Htable & _ & Hread).
    destruct (row_for_succeeded student row element rest Hel Hread Hst)
      as (distance & duration & Hdist & Hdur & Hfor).
    exists batch, student, distance, duration, (value duration / 60).
    rewrite <- Hfor.
    repeat (split; [solve [auto]|]). split; intros ->; reflexivity.
Qed.

(** Three students, one batch, durations of 119 seconds, none (not found) and
    120 seconds: the minutes of the first and third rows are 1 and 2. *)
Lemma success_row_minutes_witness :
  (exists out,
     rows_loop
       [Examples.student "kim"; Examples.student "lee"; Examples.student "park"]
       (enumerate (resp_rows Examples.mixed_response)) [] = Ok out
     /\ nth_error out 0
        = Some {| row_이름 := "kim";
                  row_주소 := "addr kim";
                  row_거리 := "1.2 km";
                  row_거리_m := Some 1200;
                  row_소요시간 := "some minutes";
                  row_소요시간_분 := Some (119 / 60) |}
     /\ 119 / 60 = 1)
  /\ exists table w',
       calculate_commute_times (fun _ => Examples.at_2024_01_01 7 0 0)
         Examples.utc_epoch (fun _ _ => Examples.mixed_response)
         [Examples.student "kim"; Examples.student "lee";
          Examples.student "park"]
         "school" "secret" "transit" None 0 None false initial_world
       = (Ok table, w')
       /\ map row_소요시간_분 table = [Some 1; None; Some 2]
       /\ exists minutes,
            nth_error table 2
            = Some {| row_이름 := "park";
                      row_주소 := "addr park";
                      row_거리 := "1.2 km";
                      row_거리_m := Some 1200;
                      row_소요시간 := "some minutes";
                      row_소요시간_분 := Some minutes |}
            /\ minutes = 2.
Proof.
  destruct success_row_minutes as [Hloop Hrun]. split.
  { eexists. split; [reflexivity|].
    destruct (Hloop [Examples.student "kim"; Examples.student "lee";
                     Examples.student "park"]
                (resp_rows Examples.mixed_response) [] _ 0%nat
                {| elements := [Examples.ok_element 119] |}
                (Examples.ok_element 119) []
                eq_refl eq_refl eq_refl eq_refl)
      as (student & distance & duration & Hstudent & Hdist & Hdur & Hrow & _).
    injection Hstudent as <-. injection Hdist as <-. injection Hdur as <-.
    split; [exact Hrow|reflexivity]. }
  eexists _, _. split; [reflexivity|]. split; [reflexivity|].
  destruct (Hrun (fun _ => Examples.at_2024_01_01 7 0 0)
              Examples.utc_epoch (fun _ _ => Examples.mixed_response)
              [Examples.student "kim"; Examples.student "lee";
               Examples.student "park"]
              "school" "secret" "transit" None 0 None false initial_world
              _ _ 0%nat Examples.mixed_response 2%nat
              {| elements := [Examples.ok_element 120] |}
              (Examples.ok_element 120) []
              eq_refl eq_refl eq_refl eq_refl eq_refl eq_refl)
    as (batch & student & distance & duration & minutes & Hbatch & Hstudent
        & Hdist & Hdur & Hrow & _ & _ & _ & H120).
  injection Hbatch as <-. injection Hstudent as <-.
  injection Hdist as <-. injection Hdur as <-.
  exists minutes. split; [exact Hrow|exact (H120 eq_refl)].
Defined.

(** ** The batches of a run *)

(** C6. The batches of a run are the consecutive blocks of 25 students of
    the roster. Request j of a run carries the addresses of batch j, a run
    that returns has sent one request per batch and its table is made of the
    rows of these batches in order; the concatenation of the batches in order
    is the roster, batch k is the block starting at index 25k, the sizes are
    25 for every batch except possibly a shorter last one, and 60 students
    give sizes 25, 25, 10. *)
Theorem batches_partition clock local_to_epoch endpoint students
    school_address api_key travel_mode departure_hour departure_minute
    departure_date progress_bar w :
  let run :=
    calculate_commute_times clock local_to_epoch endpoint students
      school_address api_key travel_mode departure_hour departure_minute
      departure_date progress_bar w in
  let sent := exchanged w (snd run) in
  (forall j p a,
     nth_error sent j = Some (p, a) ->
     exists batch,
       nth_error (batches students) j = Some batch
       /\ origins p = String.concat "|" (map 주소 batch))
  /\ (forall table,
        fst run = Ok table ->
        List.length sent = List.length (batches students)
        /\ table = table_of (batches students) (map snd sent))
  /\ List.concat (batches students) = students
  /\ batches students
     = map (fun k => firstn 25 (skipn (25 * k) students))
           (seq 0 (total_batches_of (List.length students)))
  /\ map (@List.length Student) (batches students)
     = chunk_sizes (List.length students)
  /\ (List.length students = 60%nat ->
      map (@List.length Student) (batches students) = [25; 25; 10]%nat).
Proof.
  cbv zeta. split; [|split; [|split; [|split; [|split]]]].
  - unfold calculate_commute_times.
    pose proof (loop_requests clock local_to_epoch endpoint students
                  school_address api_key travel_mode departure_hour
                  departure_minute departure_date progress_bar
                  ((List.length students + batch_size - 1) / batch_size)%nat
                  (enumerate (range 0 (List.length students) batch_size)) [] w)
      as Hloop.
    cbv zeta in Hloop. destruct Hloop as (new & Hlog & _ & _ & Hnth).
    rewrite (exchanged_app _ _ _ Hlog).
    intros j p a Hj.
    destruct (Hnth j p a Hj) as (it & Hit & _ & Hp & _).
    exists (slice students (snd it) (snd it + batch_size)). split.
    + rewrite <- batches_of_iterations, nth_error_map, Hit. reflexivity.
    + rewrite Hp at 1. reflexivity.
  - intros table Hrun.
    destruct (calculate_commute_times _ _ _ _ _ _ _ _ _ _ _ w)
      as [r w'] eqn:Hcall.
    cbn [fst snd] in *. subst r.
    destruct (run_returns _ _ _ _ _ _ _ _ _ _ _ _ _ _ Hcall)
      as (Hlen & Htable & _).
    rewrite length_map in Hlen. split; [exact Hlen|exact Htable].
  - apply batches_concat.
  - apply batches_blocks.
  - apply batches_sizes.
  - intros H60. rewrite batches_sizes, H60. reflexivity.
Qed.

(** Sixty students, every request accepted: three requests, for 25, 25 and
    10 students. *)
Lemma batches_partition_witness :
  let students := repeat (Examples.student "kim") 60 in
  let run :=
    calculate_commute_times (fun _ => Examples.at_2024_01_01 7 0 0)
      Examples.utc_epoch (Examples.echo_sized [25; 25; 10]%nat) students
      "school" "secret" "transit" None 0 None false initial_world in
  List.length (exchanged initial_world (snd run)) = 3%nat
  /\ List.length (exchanged initial_world (snd run))
     = List.length (batches students)
  /\ map (@List.length Student) (batches students) = [25; 25; 10]%nat.
Proof.
  cbv zeta.
  destruct (batches_partition (fun _ => Examples.at_2024_01_01 7 0 0)
              Examples.utc_epoch (Examples.echo_sized [25; 25; 10]%nat)
              (repeat (Examples.student "kim") 60)
              "school" "secret" "transit" None 0 None false initial_world)
    as (_ & Hreturned & _ & _ & _ & H60).
  split; [vm_compute; reflexivity|].
  split; [|exact (H60 eq_refl)].
  destruct (calculate_commute_times _ _ _ _ _ _ _ _ _ _ _ _)
    as [[table|e] w'] eqn:Hcall; [|vm_compute in Hcall; discriminate Hcall].
  exact (proj1 (Hreturned table eq_refl)).
Defined.
